(** * Cutout preparation pipeline of geodata (and its atlite predecessor)

    A shallow embedding of [geodata/preparation.py] and
    [atlite/preparation.py]: the metadata resolver [cutout_get_meta], the
    task executor [cutout_do_task], the orchestrator [cutout_prepare] with
    its merge loop, the single-period query
    [cutout_produce_specific_dataseries] and the latitude normalisation
    [_prepare_lat_direction].

    Python exceptions are values of [exn]; a call that may raise returns a
    [result]; code that touches the disk or the cutout object threads a
    state explicitly. *)

From Stdlib Require Import Ascii.
From stdpp Require Import base strings gmap list numbers pretty.

Open Scope Z_scope.

(** ** Python values shared by both packages *)

(** An exception (of a subclass of [Exception], what the handlers of the
    module catch): its class name and its [args] tuple, rendered as
    strings.  [cutout_do_task] reads [e.args[0]], so the tuple is kept. *)
Record exn := Exn { exn_type : string; exn_args : list string }.

Global Instance exn_eq_dec : EqDecision exn.
Proof. solve_decision. Defined.

Inductive result (A : Type) :=
| Return (a : A)
| Raise (e : exn).
Arguments Return {A} a.
Arguments Raise {A} e.

Definition AssertionError : exn := Exn "AssertionError" [].
Definition IndexError (msg : string) : exn := Exn "IndexError" [msg].
Definition KeyError (k : string) : exn := Exn "KeyError" [k].
Definition NameError (n : string) : exn :=
  Exn "NameError" ["name '" +:+ n +:+ "' is not defined"].
Definition ValueError (msg : string) : exn := Exn "ValueError" [msg].
Definition AttributeError (msg : string) : exn := Exn "AttributeError" [msg].
Definition FileNotFoundError (p : string) : exn := Exn "FileNotFoundError" [p].
Definition FileExistsError (p : string) : exn := Exn "FileExistsError" [p].
Definition StopIteration : exn := Exn "StopIteration" [].
Definition TypeError (msg : string) : exn := Exn "TypeError" [msg].

(** Python's [slice(start, stop, step)] with numeric bounds. *)
Record slice (A : Type) := Slice { start : A; stop : A; step : option A }.
Arguments Slice {A} start stop step.
Arguments start {A} s.
Arguments stop {A} s.
Arguments step {A} s.

(** The numbers a latitude slice may hold (Python ints or floats):
    [_prepare_lat_direction] only compares them and negates the step.  The
    two comparisons are asymmetric, for floats as well (a comparison with
    NaN is false). *)
Class PyNum (A : Type) := {
  py_gt : A -> A -> bool;
  py_lt : A -> A -> bool;
  py_neg : A -> A;
  py_gt_asym : forall a b, py_gt a b = true -> py_gt b a = false;
  py_lt_asym : forall a b, py_lt a b = true -> py_lt b a = false
}.

#[global, refine] Instance PyNum_Z : PyNum Z :=
  {| py_gt := Z.gtb; py_lt := Z.ltb; py_neg := Z.opp |}.
Proof.
  - intros a b H. apply Z.gtb_lt in H. rewrite Z.gtb_ltb. apply Z.ltb_ge. lia.
  - intros a b H. apply Z.ltb_lt in H. apply Z.ltb_ge. lia.
Defined.

(** ** geodata/preparation.py: [_prepare_lat_direction] *)

(** [logger.warn] has no effect on the result and is left out. *)
Definition _prepare_lat_direction {A} `{PyNum A}
    (lat_direction : bool) (ys : slice A) : slice A :=
  let ys :=
    if negb lat_direction && py_gt (stop ys) (start ys)
    then Slice (stop ys) (start ys)
               (match step ys with Some s => Some (py_neg s) | None => None end)
    else ys in
  let ys :=
    if lat_direction && py_lt (stop ys) (start ys)
    then Slice (stop ys) (start ys)
               (match step ys with Some s => Some s | None => None end)
    else ys in
  ys.

(** ** Calendar and pandas timestamps

    A [pd.Timestamp] is its [value]: nanoseconds since 1970-01-01, a signed
    64-bit integer whose smallest value is reserved for NaT.  Dates follow
    the proleptic Gregorian ordinal of Python's [datetime] ([_ymd2ord]) and
    [calendar.monthrange]. *)

Definition ns_per_hour : Z := 3600 * 1000000000.
Definition ns_per_day : Z := 24 * ns_per_hour.
Definition ts_min : Z := -9223372036854775807.
Definition ts_max : Z := 9223372036854775807.
Definition epoch_ordinal : Z := 719163.

Definition OutOfBoundsDatetime : exn :=
  Exn "OutOfBoundsDatetime" ["Out of bounds nanosecond timestamp"].
Definition IllegalMonthError (month : Z) : exn :=
  Exn "IllegalMonthError" [pretty month].

Definition isleap (year : Z) : bool :=
  (year mod 4 =? 0) && (negb (year mod 100 =? 0) || (year mod 400 =? 0)).

Definition mdays : list Z := [31; 28; 31; 30; 31; 30; 31; 31; 30; 31; 30; 31].

Definition valid_month (month : Z) : bool := (1 <=? month) && (month <=? 12).

(** Number of days of a month, for a month in 1..12. *)
Definition days_in_month (year month : Z) : Z :=
  default 0 (mdays !! Z.to_nat (month - 1))
  + (if (month =? 2) && isleap year then 1 else 0).

(** [calendar.monthrange(year, month)[1]]. *)
Definition monthrange_days (year month : Z) : result Z :=
  if valid_month month then Return (days_in_month year month)
  else Raise (IllegalMonthError month).

Definition _days_before_year (year : Z) : Z :=
  let y := year - 1 in y * 365 + y / 4 - y / 100 + y / 400.

Definition _days_before_month (year month : Z) : Z :=
  foldr Z.add 0 (take (Z.to_nat (month - 1)) mdays)
  + (if (2 <? month) && isleap year then 1 else 0).

Definition _ymd2ord (year month day : Z) : Z :=
  _days_before_year year + _days_before_month year month + day.

(** The timestamp at midnight of the day with the given ordinal. *)
Definition ts_of_ordinal (ord : Z) : Z := (ord - epoch_ordinal) * ns_per_day.

Definition check_bounds (v : Z) : result Z :=
  if (ts_min <=? v) && (v <=? ts_max) then Return v
  else Raise OutOfBoundsDatetime.

(** [pd.Timestamp("{}-{}-{}".format(year, month, day))]: the date is taken
    as written; a month or day that does not exist is a parse error. *)
Definition Timestamp_ymd (year month day : Z) : result Z :=
  if valid_month month && (1 <=? day) && (day <=? days_in_month year month)
  then check_bounds (ts_of_ordinal (_ymd2ord year month day))
  else Raise (ValueError "could not convert string to Timestamp").

(** [pd.Timestamp("{}-{}".format(year, month))]: the first of the month. *)
Definition Timestamp_ym (year month : Z) : result Z := Timestamp_ymd year month 1.

(** [ts + pd.offsets.MonthBegin()] for a timestamp [ts] that is the first
    of [month] of [year] (all the code applies it to): the first of the
    following month. *)
Definition add_MonthBegin (year month : Z) : result Z :=
  if month =? 12 then Timestamp_ym (year + 1) 1 else Timestamp_ym year (month + 1).

(** [Timedelta.components.hours] of a difference of [v] nanoseconds: the
    days are floored away and the hours taken from the rest. *)
Definition components_hours (v : Z) : Z := (v mod ns_per_day) / ns_per_hour.

(** [pd.date_range(start, end, freq)] for a fixed frequency of [freq]
    nanoseconds: [start], [start + freq], ... up to [end] included. *)
Definition date_range (start_ end_ freq : Z) : result (list Z) :=
  if freq <=? 0 then Raise (ValueError "Invalid frequency")
  else if end_ <? start_ then Return []
  else Return ((fun k => start_ + k * freq) <$> seqZ 0 ((end_ - start_) / freq + 1)).

(** [pd.date_range(start, end, freq='MS')] between two month starts, as
    month indices [12 * year + (month - 1)]. *)
Definition month_index (year month : Z) : Z := 12 * year + (month - 1).
Definition date_range_MS (y0 m0 y1 m1 : Z) : list Z :=
  (fun k => ts_of_ordinal (_ymd2ord (k / 12) (k mod 12 + 1) 1))
    <$> seqZ (month_index y0 m0) (month_index y1 m1 - month_index y0 m0 + 1).

(** [values[idxs]] on a one-dimensional numpy array: a negative index
    counts from the end, an index out of range raises. *)
Definition np_index (l : list Z) (i : Z) : result Z :=
  let n := Z.of_nat (length l) in
  let j := if i <? 0 then i + n else i in
  match (if (0 <=? j) && (j <? n) then l !! Z.to_nat j else None) with
  | Some v => Return v
  | None => Raise (IndexError ("index " +:+ pretty i +:+
                               " is out of bounds for axis 0 with size " +:+ pretty n))
  end.

Fixpoint np_take (l : list Z) (idxs : list Z) : result (list Z) :=
  match idxs with
  | [] => Return []
  | i :: idxs =>
      match np_index l i with
      | Raise e => Raise e
      | Return v =>
          match np_take l idxs with
          | Raise e => Raise e
          | Return vs => Return (v :: vs)
          end
      end
  end.

(** [range(a, b)]. *)
Definition py_range (a b : Z) : list Z := seqZ a (b - a).

(** ** geodata/preparation.py: the datasets of [cutout_get_meta] *)

(** The dataset the metadata probe returns, and the one the resolver
    builds: the [time] coordinate, the attributes, and the [year], [month]
    and stacked [year-month] coordinates the resolver adds. *)
Record meta_dataset := MetaDataset {
  md_time : list Z;
  md_attrs : gmap string string;
  md_year : list Z;
  md_month : list Z;
  md_year_month : list (Z * Z)
}.

Definition attrs_update (params : gmap string string) (ds : meta_dataset) : meta_dataset :=
  MetaDataset (md_time ds) (params ∪ md_attrs ds) (md_year ds) (md_month ds)
              (md_year_month ds).
Definition set_time (t : list Z) (ds : meta_dataset) : meta_dataset :=
  MetaDataset t (md_attrs ds) (md_year ds) (md_month ds) (md_year_month ds).
Definition set_year (y : list Z) (ds : meta_dataset) : meta_dataset :=
  MetaDataset (md_time ds) (md_attrs ds) y (md_month ds) (md_year_month ds).
Definition set_month (m : list Z) (ds : meta_dataset) : meta_dataset :=
  MetaDataset (md_time ds) (md_attrs ds) (md_year ds) m (md_year_month ds).
(** [ds.stack] of [year] and [month] into [year-month]: the product of
    the two coordinates, year-major.  [year] and [month] become the levels
    of that index: each runs along [year-month] and holds, entry by entry,
    the year and the month of the period. *)
Definition stack_year_month (ds : meta_dataset) : meta_dataset :=
  let year_month := y ← md_year ds; m ← md_month ds; [(y, m)] in
  MetaDataset (md_time ds) (md_attrs ds) (year_month.*1) (year_month.*2) year_month.

(** What [cutout_get_meta] reads of the cutout.  The dictionary
    [meta_data_config] is a record of the keys the code reads; the probe
    [prepare_func] is a provider function outside this module, taken with
    the keyword arguments already bound except the grid and the month. *)
Record meta_cutout (A : Type) := MetaCutout {
  lat_direction : bool;
  meta_prepare_func : slice A -> slice A -> Z -> Z -> result meta_dataset;
  file_granularity : string
}.
Arguments lat_direction {A} _.
Arguments meta_prepare_func {A} _.
Arguments file_granularity {A} _.

(** ** Datasets and xarray

    A dataset as far as the pipeline looks into it: named coordinates,
    named data variables (in order: atlite reads the first one) and
    attributes.  An array is its dimension names and its values. *)

Definition yearmonth : Type := Z * Z.

Record data_array := DataArray { da_dims : list string; da_values : list Z }.

Record dataset := Dataset {
  ds_coords : list (string * data_array);
  data_vars : list (string * data_array);
  ds_attrs : list (string * string)
}.

Global Instance data_array_eq_dec : EqDecision data_array.
Proof. solve_decision. Defined.
Global Instance dataset_eq_dec : EqDecision dataset.
Proof. solve_decision. Defined.

(** [d[k] = v] on an insertion-ordered dictionary. *)
Fixpoint setitem {V} (k : string) (v : V) (d : list (string * V)) : list (string * V) :=
  match d with
  | [] => [(k, v)]
  | (k', v') :: d => if String.eqb k' k then (k, v) :: d else (k', v') :: setitem k v d
  end.

(** [d[k]] on such a dictionary. *)
Fixpoint getitem {V} (k : string) (d : list (string * V)) : option V :=
  match d with
  | [] => None
  | (k', v') :: d => if String.eqb k' k then Some v' else getitem k d
  end.

(** [ds['height'] = height]. *)
Definition set_data_var (k : string) (v : data_array) (ds : dataset) : dataset :=
  Dataset (ds_coords ds) (setitem k v (data_vars ds)) (ds_attrs ds).

(** xarray is a library outside the repository.  Its combination
    function is an interface: what [xr.open_mfdataset(fns,
    combine='by_coords')] makes of the contents of the files, in the order
    given.  What the pipeline does with it is proved for every
    implementation. *)
Class XArray := {
  combine_by_coords : list dataset -> result dataset
}.

(** What the call of a provider's prepare function returns: [None] or a
    sequence (a list) of results, which the call has computed; or a
    generator, the lazy producer of a function written with [yield].  The
    body of a generator runs only as the generator is iterated: it yields
    its results one by one and then ends, or raises. *)
Inductive provided (R : Type) :=
| Eager (data : option (list R))
| Generator (yields : list R) (ending : option exn).
Arguments Eager {R} data.
Arguments Generator {R} yields ending.

Global Instance provided_eq_dec {R} `{EqDecision R} : EqDecision (provided R).
Proof. solve_decision. Defined.

(** A prepare function that is not a generator function, from the outcome
    of its call. *)
Definition eager {R} (outcome : result (option (list R))) : result (provided R) :=
  match outcome with
  | Return data => Return (Eager data)
  | Raise e => Raise e
  end.

(** [if data is None: data = []]. *)
Definition none_to_empty {R} (data : provided R) : provided R :=
  match data with
  | Eager None => Eager (Some [])
  | _ => data
  end.

(** ** State and exceptions

    A computation reads and writes a state [S] and returns or raises; the
    state it leaves behind is kept in both cases. *)

Definition M (S A : Type) : Type := S -> result A * S.

Global Instance M_ret {S} : MRet (M S) := fun A a s => (Return a, s).
Global Instance M_bind {S} : MBind (M S) := fun A B f m s =>
  match m s with
  | (Return a, s') => f a s'
  | (Raise e, s') => (Raise e, s')
  end.

Definition raise {S A} (e : exn) : M S A := fun s => (Raise e, s).

(** [try: body except Exception as e: handler(e)]. *)
Definition try_except {S A} (body : M S A) (handler : exn -> M S A) : M S A :=
  fun s =>
    match body s with
    | (Return a, s') => (Return a, s')
    | (Raise e, s') => handler e s'
    end.

(** [if b: body]. *)
Definition when {S} (b : bool) (body : M S unit) : M S unit :=
  if b then body else mret tt.

(** [for x in xs: body(x)]. *)
Fixpoint for_each {S X} (xs : list X) (body : X -> M S unit) : M S unit :=
  match xs with
  | [] => mret tt
  | x :: xs => body x ≫= fun _ => for_each xs body
  end.

(** [for x in data: body(x)] over what a prepare function returned: a
    generator raises, where its body does, once the results it yielded
    before have gone through the loop. *)
Definition iterate {S R} (data : provided R) (body : R -> M S unit) : M S unit :=
  match data with
  | Eager (Some xs) => for_each xs body
  | Eager None => raise (TypeError "'NoneType' object is not iterable")
  | Generator yields ending =>
      for_each yields body;;
      match ending with
      | Some e => raise e
      | None => mret tt
      end
  end.

(** ** The file system

    A directory is the finite map from the names of its files to their
    contents (netCDF files hold datasets); the file system maps the path
    of each directory to it.  A file path is a directory and a name. *)

Abbreviation directory := (gmap string dataset).
Abbreviation filesystem := (gmap string (gmap string dataset)).

Record path := Path { p_dir : string; p_name : string }.

Global Instance path_eq_dec : EqDecision path.
Proof. solve_decision. Defined.

Definition path_str (p : path) : string := p_dir p +:+ "/" +:+ p_name p.

Definition lookup_file (p : path) (fs : filesystem) : option dataset :=
  fs !! p_dir p ≫= fun d => d !! p_name p.

(** [os.path.isdir]. *)
Definition isdir (dir : string) : M filesystem bool :=
  fun fs => (Return (bool_decide (is_Some (fs !! dir))), fs).

(** [shutil.rmtree] of a directory that holds files only: the file
    system above is flat, it does not say which directory lies inside
    which. *)
Definition rmtree (dir : string) : M filesystem unit :=
  fun fs =>
    match fs !! dir with
    | Some _ => (Return tt, delete dir fs)
    | None => (Raise (FileNotFoundError dir), fs)
    end.

(** [os.mkdir]. *)
Definition mkdir (dir : string) : M filesystem unit :=
  fun fs =>
    match fs !! dir with
    | Some _ => (Raise (FileExistsError dir), fs)
    | None => (Return tt, <[dir := ∅]> fs)
    end.

(** [ds.to_netcdf(fn)]: creates or replaces the file. *)
Definition to_netcdf (ds : dataset) (fn : path) : M filesystem unit :=
  fun fs =>
    match fs !! p_dir fn with
    | Some d => (Return tt, <[p_dir fn := <[p_name fn := ds]> d]> fs)
    | None => (Raise (FileNotFoundError (path_str fn)), fs)
    end.

(** [xr.open_dataset(fn)], read at once. *)
Definition open_dataset (fn : path) : M filesystem dataset :=
  fun fs =>
    match lookup_file fn fs with
    | Some ds => (Return ds, fs)
    | None => (Raise (FileNotFoundError (path_str fn)), fs)
    end.

(** [os.unlink]. *)
Definition unlink (fn : path) : M filesystem unit :=
  fun fs =>
    match fs !! p_dir fn, lookup_file fn fs with
    | Some d, Some _ => (Return tt, <[p_dir fn := delete (p_name fn) d]> fs)
    | _, _ => (Raise (FileNotFoundError (path_str fn)), fs)
    end.

(** [os.rename] inside one directory (POSIX: an existing target is
    replaced). *)
Definition rename (src dst : path) : M filesystem unit :=
  fun fs =>
    match fs !! p_dir src, lookup_file src fs with
    | Some d, Some ds =>
        if String.eqb (p_dir src) (p_dir dst)
        then (Return tt, <[p_dir src := <[p_name dst := ds]> (delete (p_name src) d)]> fs)
        else (Raise (Exn "OSError" ["rename across directories"]), fs)
    | _, _ => (Raise (FileNotFoundError (path_str src)), fs)
    end.

(** [os.path.splitext] on a file name: the extension starts at the last
    dot, unless only dots come before it. *)
Fixpoint split_last_dot (s : string) : option (string * string) :=
  match s with
  | EmptyString => None
  | String c rest =>
      match split_last_dot rest with
      | Some (b, e) => Some (String c b, e)
      | None => if Ascii.eqb c "."%char then Some (EmptyString, s) else None
      end
  end.

Fixpoint only_dots (s : string) : bool :=
  match s with
  | EmptyString => true
  | String c rest => Ascii.eqb c "."%char && only_dots rest
  end.

Definition splitext (p : string) : string * string :=
  match split_last_dot p with
  | Some (b, e) => if only_dots b then (p, EmptyString) else (b, e)
  | None => (p, EmptyString)
  end.

(** [fnmatch] for patterns made of literal characters, [*] and [?]
    (bracket classes are not modelled). *)
Fixpoint fnmatch (pat name : string) : bool :=
  match pat with
  | EmptyString => match name with EmptyString => true | _ => false end
  | String c pat' =>
      if Ascii.eqb c "*"%char then
        (fix star (name : string) : bool :=
           fnmatch pat' name ||
           match name with
           | EmptyString => false
           | String _ name' => star name'
           end) name
      else
        match name with
        | EmptyString => false
        | String d name' =>
            (Ascii.eqb c "?"%char || Ascii.eqb c d) && fnmatch pat' name'
        end
  end.

Definition _ishidden (s : string) : bool :=
  match s with String c _ => Ascii.eqb c "."%char | EmptyString => false end.

(** A name that [glob] keeps for a pattern: hidden files only for a
    pattern that starts with a dot. *)
Definition glob_match (pattern n : string) : bool :=
  (_ishidden pattern || negb (_ishidden n)) && fnmatch pattern n.

(** [glob(dir/pattern)] for a directory whose path holds none of the
    characters that [glob] reads as a pattern: the names in the directory
    that match. *)
Definition glob (dir pattern : string) : M filesystem (list path) :=
  fun fs =>
    match fs !! dir with
    | Some d =>
        (Return (Path dir <$>
                 filter (fun n => glob_match pattern n = true) (elements (dom d))), fs)
    | None => (Return [], fs)
    end.

Fixpoint contains_char (c : ascii) (s : string) : bool :=
  match s with
  | EmptyString => false
  | String c' rest => Ascii.eqb c c' || contains_char c rest
  end.

(** ** Tasks and cutouts

    The provider adapters (task-generation functions, prepare functions)
    and the [Cutout] class live outside [preparation.py].  A provider
    function is taken as the outcome of its call: it returns or raises.
    The results of a prepare function are (period, dataset) pairs; a
    dataset may be [None]. *)

Abbreviation partial_results := (list (yearmonth * option dataset)).

Definition ym_str (ym : yearmonth) : string :=
  "(" +:+ pretty ym.1 +:+ ", " +:+ pretty ym.2 +:+ ")".

(** Calling a function of another module: its outcome, the state
    untouched. *)
Definition call {S A} (outcome : result A) : M S A := fun s => (outcome, s).

(** [multiprocessing.Pool(processes=nprocesses)]. *)
Definition Pool {S} (processes : option Z) : M S unit :=
  match processes with
  | Some n => if n <? 1 then raise (ValueError "Number of processes must be at least 1")
              else mret tt
  | None => mret tt
  end.

(** [[f(x) for x in xs]]. *)
Fixpoint map_each {S X Y} (f : X -> M S Y) (xs : list X) : M S (list Y) :=
  match xs with
  | [] => mret []
  | x :: xs => y ← f x; ys ← map_each f xs; mret (y :: ys)
  end.

(** [pool.map(f, xs)]: the results come back in order, and the first
    task that raises ends the call with its exception.  The worker
    processes are run one after the other, in the order of the list: the
    tasks of [cutout_prepare] write to files of their own. *)
Definition pool_map {S X Y} (f : X -> M S Y) (xs : list X) : M S (list Y) :=
  map_each f xs.

(** The state [cutout_prepare] works on: the disk and the two attributes
    of the cutout object it assigns. *)
Record cutout_state := CutoutState {
  st_fs : filesystem;
  prepared : bool;
  meta : dataset
}.

Definition on_fs {A} (m : M filesystem A) : M cutout_state A :=
  fun st =>
    match m (st_fs st) with
    | (r, fs') => (r, CutoutState fs' (prepared st) (meta st))
    end.

Definition get_prepared : M cutout_state bool := fun st => (Return (prepared st), st).
Definition set_prepared (b : bool) : M cutout_state unit :=
  fun st => (Return tt, CutoutState (st_fs st) b (meta st)).
Definition get_meta : M cutout_state dataset := fun st => (Return (meta st), st).
Definition set_meta (m : dataset) : M cutout_state unit :=
  fun st => (Return tt, CutoutState (st_fs st) (prepared st) m).

(** [if months is None: months = slice(1, 12)]. *)
Definition months_or_default (months : option (slice Z)) : slice Z :=
  match months with None => Slice 1 12 None | Some m => m end.

(** ** geodata/preparation.py *)

Module Geodata.

Definition cutout_get_meta {A} `{PyNum A} (cutout : meta_cutout A)
    (xs ys : slice A) (years : slice Z) (months : option (slice Z))
    (dataset_params : gmap string string) : result meta_dataset :=
  let months := months_or_default months in
  let ys := _prepare_lat_direction (lat_direction cutout) ys in
  match meta_prepare_func cutout xs ys (stop years) (stop months) with
  | Raise e => Raise e
  | Return ds =>
  let ds := attrs_update dataset_params ds in
  let meta_file_granularity := file_granularity cutout in
  match Timestamp_ym (stop years) (stop months) with
  | Raise e => Raise e
  | Return month_start =>
  let ds := set_year (py_range (start years) (stop years + 1)) ds in
  let ds := set_month (py_range (start months) (stop months + 1)) ds in
  let time :=
    if String.eqb meta_file_granularity "daily" then
      match np_take (md_time ds) [0; 1; -1] with
      | Return [start_; second; end_] =>
          let offset_start := start_ - month_start in
          match add_MonthBegin (stop years) (stop months) with
          | Raise e => Raise e
          | Return next_month =>
          let offset_end := end_ - next_month in
          let step_ := components_hours (second - start_) in
          match Timestamp_ym (start years) (start months) with
          | Raise e => Raise e
          | Return first =>
          match check_bounds (first + offset_start) with
          | Raise e => Raise e
          | Return range_start =>
          match check_bounds (next_month + offset_end) with
          | Raise e => Raise e
          | Return range_end => date_range range_start range_end (step_ * ns_per_hour)
          end end end end
      | Return _ => Raise (ValueError "not enough values to unpack")
      | Raise e => Raise e
      end
    else if String.eqb meta_file_granularity "dailymeans" then
      match Timestamp_ymd (start years) (start months) 1 with
      | Raise e => Raise e
      | Return range_start =>
      match monthrange_days (stop years) (stop months) with
      | Raise e => Raise e
      | Return last_day =>
      match Timestamp_ymd (stop years) (stop months) last_day with
      | Raise e => Raise e
      | Return range_end => date_range range_start range_end ns_per_day
      end end end
    else if String.eqb meta_file_granularity "monthly" then
      match Timestamp_ym (start years) (start months) with
      | Raise e => Raise e
      | Return _ =>
      match Timestamp_ym (stop years) (stop months) with
      | Raise e => Raise e
      | Return _ =>
          Return (date_range_MS (start years) (start months) (stop years) (stop months))
      end end
    else Return (md_time ds) in
  match time with
  | Raise e => Raise e
  | Return t => Return (stack_year_month (set_time t ds))
  end
  end end.

(** A task dictionary: [prepare_func] with its [__name__], the keyword
    arguments it is called with, and [datasetfns] once the orchestrator
    has added it. *)
Record task := Task {
  prepare_func_name : string;
  kwargs : gmap string string;
  prepare_func : gmap string string -> result (provided (yearmonth * option dataset));
  datasetfns : option (gmap yearmonth path)
}.

Definition set_datasetfns (d : gmap yearmonth path) (t : task) : task :=
  Task (prepare_func_name t) (kwargs t) (prepare_func t) (Some d).

(** The body of the write loop, lines 56 to 67: [continue] on [None]. *)
Definition write_result (datasetfns : gmap yearmonth path)
    (r : yearmonth * option dataset) : M filesystem unit :=
  let '(yearmonth, ds) := r in
  match ds with
  | None => mret tt
  | Some ds =>
      fn ← match datasetfns !! yearmonth with
           | Some fn => mret fn
           | None => raise (KeyError (ym_str yearmonth))
           end;
      to_netcdf ds fn
  end.

(** In query mode the function returns [data] as it is: a generator
    comes back without having run. *)
Definition cutout_do_task (task : task) (write_to_file : bool)
    : M filesystem (option (provided (yearmonth * option dataset))) :=
  datasetfns ← (if write_to_file then
                  match datasetfns task with
                  | Some d => mret d
                  | None => raise (KeyError "datasetfns")
                  end
                else mret ∅);
  try_except
    (data ← call (prepare_func task (kwargs task));
     let data := none_to_empty data in
     if write_to_file then
       iterate data (write_result datasetfns);;
       mret None
     else mret (Some data))
    (fun e =>
       match exn_args e with
       | [] => raise (IndexError "tuple index out of range")
       | _ :: _ => raise e
       end).

(** A data series of [weather_data_config]: its task-generation function,
    applied to the grid of the cutout and to the periods asked for. *)
Record series := Series {
  tasks_func : list yearmonth -> result (list task)
}.

(** What [preparation.py] uses of a cutout.  [datasetfn_name] is the file
    name [Cutout.datasetfn] gives (for the meta file without argument),
    inside [cutout_dir]; [meta_clean] is what
    [cutout.meta_clean.unstack('year-month')] makes of [cutout.meta];
    [gebco] is the outcome of [_prepare_gebco_height], an external
    resampling process. *)
Record cutout := Cutout {
  name : string;
  cutout_dir : string;
  yearmonths : list yearmonth;
  datasetfn_name : option yearmonth -> string;
  meta_clean : dataset -> dataset;
  config : string;
  weather_data_config : list (string * series);
  gebco : result data_array
}.

Definition datasetfn (cutout : cutout) (ym : option yearmonth) : path :=
  Path (cutout_dir cutout) (datasetfn_name cutout ym).

(** [datasetfn_with_id] of the task loop: the task index goes between
    the base name and the extension. *)
Definition datasetfn_with_id (cutout : cutout) (i : nat) (ym : yearmonth) : path :=
  let fn := datasetfn cutout (Some ym) in
  let '(base, ext) := splitext (p_name fn) in
  Path (p_dir fn) (base +:+ "-" +:+ pretty i +:+ ext).

(** The pattern the merge loop globs for: [base + "-*" + ext]. *)
Definition staging_pattern (cutout : cutout) (ym : yearmonth) : string :=
  let '(base, ext) := splitext (datasetfn_name cutout (Some ym)) in
  base +:+ "-*" +:+ ext.

(** The names in the archive directory. *)
Definition meta_name (cutout : cutout) : string := datasetfn_name cutout None.
Definition final_name (cutout : cutout) (ym : yearmonth) : string :=
  datasetfn_name cutout (Some ym).
Definition staging_name (cutout : cutout) (i : nat) (ym : yearmonth) : string :=
  p_name (datasetfn_with_id cutout i ym).

(** The number of tasks the configured series generates. *)
Definition task_count (cutout : cutout) : nat :=
  match getitem (config cutout) (weather_data_config cutout) with
  | Some series =>
      match tasks_func series (yearmonths cutout) with
      | Return tasks => length tasks
      | Raise _ => 0%nat
      end
  | None => 0%nat
  end.

(** [Cutout.datasetfn] is not part of [preparation.py].  What the merge
    loop needs of the names it gives is checked here on the periods and the
    tasks of a cutout: the names hold no [/] and no bracket (so that the
    glob pattern means what [fnmatch] above says), the pattern of a period
    matches the staging files of that period and no other file of the
    archive, and the final files and the meta file are all different. *)
Definition naming_ok (cutout : cutout) : bool :=
  let yms := yearmonths cutout in
  forallb (fun ym =>
    negb (contains_char "/" (final_name cutout ym))
    && negb (contains_char "[" (final_name cutout ym))
    && negb (String.eqb (final_name cutout ym) (meta_name cutout))
    && negb (glob_match (staging_pattern cutout ym) (meta_name cutout))
    && forallb (fun ym' =>
         negb (glob_match (staging_pattern cutout ym) (final_name cutout ym'))
         && (bool_decide (ym = ym')
             || negb (String.eqb (final_name cutout ym) (final_name cutout ym')))
         && forallb (fun i =>
              Bool.eqb (glob_match (staging_pattern cutout ym) (staging_name cutout i ym'))
                       (bool_decide (ym = ym')))
              (seq 0 (task_count cutout)))
         yms)
    yms.

(** Lines 125 to 139: the tasks of the configured series, each with its
    [datasetfns].  (The assignment [series['meta_attrs'] = ...] only adds
    a keyword argument for [tasks_func].) *)
Definition collect_tasks (cutout : cutout) : M cutout_state (list task) :=
  series ← match getitem (config cutout) (weather_data_config cutout) with
           | Some series => mret series
           | None => raise (KeyError (config cutout))
           end;
  tasks ← call (tasks_func series (yearmonths cutout));
  mret (imap (fun i t =>
                set_datasetfns
                  (list_to_map ((fun ym => (ym, datasetfn_with_id cutout i ym))
                                  <$> yearmonths cutout)) t)
             tasks).

(** [xr.open_mfdataset(fns, combine='by_coords')]: it refuses an empty
    list of files, opens the files and combines their contents. *)
Definition no_files_to_open : exn := Exn "OSError" ["no files to open"].

Definition open_mfdataset `{XArray} (fns : list path) : M filesystem dataset :=
  match fns with
  | [] => raise no_files_to_open
  | _ :: _ =>
      datasets ← map_each open_dataset fns;
      call (combine_by_coords datasets)
  end.

(** The body of the merge loop, lines 161 to 178. *)
Definition merge_period `{XArray} (cutout : cutout) (gebco_height : bool)
    (ym : yearmonth) : M cutout_state unit :=
  let fn := datasetfn cutout (Some ym) in
  fns ← on_fs (glob (p_dir fn) (staging_pattern cutout ym));
  match fns, gebco_height with
  | [fn0], false => on_fs (rename fn0 fn)
  | _, _ =>
      ds ← on_fs (open_mfdataset fns);
      ds ← (if gebco_height then
              m ← get_meta;
              match getitem "height" (data_vars m) with
              | Some height => mret (set_data_var "height" height ds)
              | None => raise (KeyError "height")
              end
            else mret ds);
      on_fs (to_netcdf ds fn);;
      for_each fns (fun tfn => on_fs (unlink tfn))
  end.

(** Everything up to the worker pool, lines 83 to 147. *)
Definition prepare_directory_and_tasks (cutout : cutout)
    (nprocesses : option Z) (gebco_height : bool) : M cutout_state (list task) :=
  when gebco_height
    (height ← call (gebco cutout);
     m ← get_meta;
     set_meta (set_data_var "height" height m));;
  is_dir ← on_fs (isdir (cutout_dir cutout));
  when is_dir (on_fs (rmtree (cutout_dir cutout)));;
  on_fs (mkdir (cutout_dir cutout));;
  m ← get_meta;
  on_fs (to_netcdf (meta_clean cutout m) (datasetfn cutout None));;
  tasks ← collect_tasks cutout;
  Pool nprocesses;;
  mret tasks.

(** The worker pool with its failure handler, lines 148 to 157. *)
Definition run_tasks (cutout : cutout) (tasks : list task) : M cutout_state unit :=
  try_except
    (on_fs (pool_map (fun t => cutout_do_task t true) tasks);; mret tt)
    (fun e => on_fs (rmtree (cutout_dir cutout));; raise e).

(** [cutout_prepare] returns [True] when it has nothing to do and [None]
    at its end. *)
Definition cutout_prepare `{XArray} (cutout : cutout) (overwrite : bool)
    (nprocesses : option Z) (gebco_height : bool) : M cutout_state (option bool) :=
  is_prepared ← get_prepared;
  if is_prepared && negb overwrite then mret (Some true)
  else
    tasks ← prepare_directory_and_tasks cutout nprocesses gebco_height;
    run_tasks cutout tasks;;
    for_each (yearmonths cutout) (merge_period cutout gebco_height);;
    set_prepared true;;
    mret None.

Definition cutout_produce_specific_dataseries (cutout : cutout)
    (yearmonth : yearmonth) (series_name : string) : M filesystem (option dataset) :=
  series ← match getitem series_name (weather_data_config cutout) with
           | Some series => mret series
           | None => raise (KeyError series_name)
           end;
  tasks ← call (tasks_func series [yearmonth]);
  match tasks with
  | [task0] =>
      data ← cutout_do_task task0 false;
      match data with
      | Some (Eager (Some [(ym, ds)])) =>
          if bool_decide (ym = yearmonth) then mret ds else raise AssertionError
      | Some (Eager (Some _)) => raise AssertionError
      | Some (Generator _ _) =>
          raise (TypeError "object of type 'generator' has no len()")
      | Some (Eager None) | None =>
          raise (TypeError "object of type 'NoneType' has no len()")
      end
  | _ => raise AssertionError
  end.

End Geodata.

(** ** atlite/preparation.py

    The module is read as Python 3 runs it, like the rest: the merge loop
    calls [reduce], a name that the module neither defines nor imports and
    that is no builtin. *)

Module Atlite.

(** The atlite resolver has one policy: the step is always inferred from
    the first two samples of the probe, before [month_start] is built. *)
Definition cutout_get_meta {A}
    (prepare_func : slice A -> slice A -> Z -> Z -> result meta_dataset)
    (lons lats : slice A) (years : slice Z) (months : option (slice Z))
    (dataset_params : gmap string string) : result meta_dataset :=
  let months := months_or_default months in
  match prepare_func lons lats (stop years) (stop months) with
  | Raise e => Raise e
  | Return ds =>
  let ds := attrs_update dataset_params ds in
  match np_take (md_time ds) [0; 1; -1] with
  | Raise e => Raise e
  | Return [start_; second; end_] =>
      match Timestamp_ym (stop years) (stop months) with
      | Raise e => Raise e
      | Return month_start =>
      let offset_start := start_ - month_start in
      match add_MonthBegin (stop years) (stop months) with
      | Raise e => Raise e
      | Return next_month =>
      let offset_end := end_ - next_month in
      let step_ := components_hours (second - start_) in
      match Timestamp_ym (start years) (start months) with
      | Raise e => Raise e
      | Return first =>
      match check_bounds (first + offset_start) with
      | Raise e => Raise e
      | Return range_start =>
      match check_bounds (next_month + offset_end) with
      | Raise e => Raise e
      | Return range_end =>
      match date_range range_start range_end (step_ * ns_per_hour) with
      | Raise e => Raise e
      | Return t =>
          let ds := set_time t ds in
          let ds := set_year (py_range (start years) (stop years + 1)) ds in
          let ds := set_month (py_range (start months) (stop months + 1)) ds in
          Return (stack_year_month ds)
      end end end end end end
  | Return _ => Raise (ValueError "not enough values to unpack")
  end
  end.

(** In atlite a task may name a source file [fn] with its [engine], which
    the executor opens and hands to [prepare_func] as [ds]; the results
    are keyed by a period or by [None] (the meta file). *)
Abbreviation partial_results := (list (option yearmonth * option dataset)).

Record task := Task {
  prepare_func_name : string;
  kwargs : gmap string string;
  fn : option (path * string);
  prepare_func : gmap string string -> option dataset
                 -> result (provided (option yearmonth * option dataset));
  datasetfns : option (gmap (option yearmonth) path)
}.

Definition set_datasetfns (d : gmap (option yearmonth) path) (t : task) : task :=
  Task (prepare_func_name t) (kwargs t) (fn t) (prepare_func t) (Some d).

Definition key_str (k : option yearmonth) : string :=
  match k with None => "None" | Some ym => ym_str ym end.

(** [next(iter(ds.data_vars))]. *)
Definition first_data_var (ds : dataset) : result string :=
  match data_vars ds with
  | (var, _) :: _ => Return var
  | [] => Raise StopIteration
  end.

(** ["{}_{}{}".format(base, var, ext)] on the file name of a path. *)
Definition var_path (p : path) (var : string) : path :=
  let '(base, ext) := splitext (p_name p) in
  Path (p_dir p) (base +:+ "_" +:+ var +:+ ext).

(** The body of the write loop, lines 50 to 60; there is no test for a
    result without dataset. *)
Definition write_result (datasetfns : gmap (option yearmonth) path)
    (r : option yearmonth * option dataset) : M filesystem unit :=
  let '(yearmonth, ds) := r in
  match ds with
  | None => raise (AttributeError "'NoneType' object has no attribute 'data_vars'")
  | Some ds =>
      var ← call (first_data_var ds);
      fn ← match datasetfns !! yearmonth with
           | Some fn => mret fn
           | None => raise (KeyError (key_str yearmonth))
           end;
      to_netcdf ds (var_path fn var)
  end.

(** The [finally] clause closes the handle of the source file; closing
    leaves the disk as it is, so the clause has no counterpart here. *)
Definition cutout_do_task (task : task) (write_to_file : bool)
    : M filesystem (option (provided (option yearmonth * option dataset))) :=
  datasetfns ← (if write_to_file then
                  match datasetfns task with
                  | Some d => mret d
                  | None => raise (KeyError "datasetfns")
                  end
                else mret ∅);
  data ← try_except
    (ds ← match fn task with
          | Some (fn, engine) => ds ← open_dataset fn; mret (Some ds)
          | None => mret None
          end;
     data ← call (prepare_func task (kwargs task) ds);
     let data := none_to_empty data in
     (if write_to_file then
        iterate data (write_result datasetfns)
      else mret tt);;
     mret data)
    (fun e =>
       match exn_args e with
       | [] => raise (IndexError "tuple index out of range")
       | _ :: _ => raise e
       end);
  if write_to_file then mret None else mret (Some data).

Record series := Series {
  tasks_func : list yearmonth -> result (list task)
}.

Record cutout := Cutout {
  name : string;
  cutout_dir : string;
  yearmonths : list yearmonth;
  datasetfn_name : option yearmonth -> string;
  weather_data_config : list (string * series);
  nprocesses : option Z
}.

Definition datasetfn (cutout : cutout) (ym : option yearmonth) : path :=
  Path (cutout_dir cutout) (datasetfn_name cutout ym).

(** The loop over [itervalues(cutout.weather_data_config)]. *)
Fixpoint collect_series_tasks {S} (yms : list yearmonth)
    (config : list (string * series)) : M S (list task) :=
  match config with
  | [] => mret []
  | (_, series) :: config =>
      tasks ← call (tasks_func series yms);
      rest ← collect_series_tasks yms config;
      mret (tasks ++ rest)
  end.

Definition collect_tasks (cutout : cutout) : M cutout_state (list task) :=
  tasks ← collect_series_tasks (yearmonths cutout) (weather_data_config cutout);
  mret ((set_datasetfns
           (list_to_map ((fun ym => (ym, datasetfn cutout ym))
                           <$> (None :: (Some <$> yearmonths cutout)))))
          <$> tasks).

(** The body of the merge loop, lines 120 to 130.  Once the files of the
    series are open, the call [reduce(...)] is evaluated, the name [reduce]
    first: that raises [NameError], before the datasets are looked at. *)
Definition merge_period (cutout : cutout) (ym : yearmonth) : M cutout_state unit :=
  let fn := datasetfn cutout (Some ym) in
  let varfns := (fun var => var_path fn var) <$> (weather_data_config cutout).*1 in
  datasets ← on_fs (map_each open_dataset varfns);
  merged ← raise (A := dataset) (NameError "reduce");
  on_fs (to_netcdf merged fn);;
  for_each varfns (fun varfn => on_fs (unlink varfn)).

Definition prepare_directory_and_tasks (cutout : cutout) : M cutout_state (list task) :=
  is_dir ← on_fs (isdir (cutout_dir cutout));
  when is_dir (on_fs (rmtree (cutout_dir cutout)));;
  on_fs (mkdir (cutout_dir cutout));;
  tasks ← collect_tasks cutout;
  Pool (nprocesses cutout);;
  mret tasks.

Definition run_tasks (cutout : cutout) (tasks : list task) : M cutout_state unit :=
  try_except
    (on_fs (pool_map (fun t => cutout_do_task t true) tasks);; mret tt)
    (fun e => on_fs (rmtree (cutout_dir cutout));; raise e).

(** [ArgumentError] is neither defined nor imported in the module:
    evaluating the name raises [NameError]. *)
Definition cutout_prepare (cutout : cutout) (overwrite : bool)
    : M cutout_state unit :=
  is_prepared ← get_prepared;
  if is_prepared && negb overwrite then raise (NameError "ArgumentError")
  else
    tasks ← prepare_directory_and_tasks cutout;
    run_tasks cutout tasks;;
    for_each (yearmonths cutout) (merge_period cutout);;
    set_prepared true.

Definition cutout_produce_specific_dataseries (cutout : cutout)
    (yearmonth : yearmonth) (series_name : string) : M filesystem (option dataset) :=
  series ← match getitem series_name (weather_data_config cutout) with
           | Some series => mret series
           | None => raise (KeyError series_name)
           end;
  tasks ← call (tasks_func series [yearmonth]);
  match tasks with
  | [task0] =>
      data ← cutout_do_task task0 false;
      match data with
      | Some (Eager (Some [(ym, ds)])) =>
          if bool_decide (ym = Some yearmonth) then mret ds else raise AssertionError
      | Some (Eager (Some _)) => raise AssertionError
      | Some (Generator _ _) =>
          raise (TypeError "object of type 'generator' has no len()")
      | Some (Eager None) | None =>
          raise (TypeError "object of type 'NoneType' has no len()")
      end
  | _ => raise AssertionError
  end.

End Atlite.

(** ** geodata/preparation.py: [cutout_get_meta_view] *)

(** The dictionary kept in [meta.attrs['view']]: its keys ['x'] and
    ['y'], when they are set. *)
Record view (A : Type) := View {
  view_x : option (slice A);
  view_y : option (slice A)
}.
Arguments View {A} view_x view_y.
Arguments view_x {A} v.
Arguments view_y {A} v.

(** The keyword arguments of the first selection: [year], [month] and
    the entries of the view. *)
Record sel_indexers (A : Type) := SelIndexers {
  sel_year : slice (option Z);
  sel_month : slice (option Z);
  sel_view : view A
}.
Arguments SelIndexers {A} sel_year sel_month sel_view.
Arguments sel_year {A} s.
Arguments sel_month {A} s.
Arguments sel_view {A} s.

(** What the function asks of xarray, on datasets of a type [D]:
    [unstack('year-month')], [stack] of [year] and [month], the values of
    the coordinate [year-month], [sel(time=slice(a, b))] with two strings,
    the keys of [dims] (the mapping from the names of the dimensions to
    their lengths, which a loop over it goes through), and [sel] with the
    indexers above. *)
Class XArrayDataset (D : Type) := {
  unstack : D -> result D;
  stack : D -> result D;
  year_month : D -> list (Z * Z);
  sel_time : D -> string -> string -> result D;
  dims : D -> list string
}.

Class XArraySel (D A : Type) := {
  sel : D -> sel_indexers A -> result D
}.

(** [l[i]] and [l[idxs]] with a list of positions, as numpy and pandas
    index: a negative position counts from the end, a position out of range
    raises. *)
Definition py_index {X} (l : list X) (i : Z) : result X :=
  let n := Z.of_nat (length l) in
  let j := if i <? 0 then i + n else i in
  match (if (0 <=? j) && (j <? n) then l !! Z.to_nat j else None) with
  | Some v => Return v
  | None => Raise (IndexError ("index " +:+ pretty i +:+
                               " is out of bounds for axis 0 with size " +:+ pretty n))
  end.

Fixpoint py_take {X} (l : list X) (idxs : list Z) : result (list X) :=
  match idxs with
  | [] => Return []
  | i :: idxs =>
      match py_index l i with
      | Raise e => Raise e
      | Return v =>
          match py_take l idxs with
          | Raise e => Raise e
          | Return vs => Return (v :: vs)
          end
      end
  end.

(** ["{:0w}".format(n)] for an integer: zeros between the sign and the
    digits, up to the width. *)
Definition zero_pad (w : nat) (n : Z) : string :=
  let digits := pretty (Z.abs n) in
  let sign := if n <? 0 then "-" else "" in
  sign +:+ String.concat ""
             (replicate (w - String.length sign - String.length digits) "0") +:+ digits.

(** ["{:04}-{:02}".format] of the year and the month of a period. *)
Definition format_year_month (ym : Z * Z) : string :=
  zero_pad 4 ym.1 +:+ "-" +:+ zero_pad 2 ym.2.

(** [meta.attrs.setdefault('view', {})[key] = value], as a change [f] of
    the dictionary. *)
Definition view_setitem {A} (f : view A -> view A) : M (option (view A)) unit :=
  fun attrs_view => (Return tt, Some (f (default (View None None) attrs_view))).

(** The state is the entry ['view'] of the attributes of [cutout.meta],
    which the function assigns; [meta] is the rest of that dataset, and
    [lat_direction] is [cutout.dataset_module.lat_direction].  The keyword
    arguments [dataset_params] are not used. *)
Definition cutout_get_meta_view {A D} `{PyNum A} `{XArrayDataset D} `{XArraySel D A}
    (lat_direction : bool) (meta : D)
    (xs ys : option (slice A)) (years months : slice (option Z))
    : M (option (view A)) (option D) :=
  (fun _ => (Return tt, Some (View None None)));;
  match xs with
  | Some xs => view_setitem (fun v => View (Some xs) (view_y v))
  | None => mret tt
  end;;
  match ys with
  | Some ys =>
      view_setitem (fun v => View (view_x v) (Some (_prepare_lat_direction lat_direction ys)))
  | None => mret tt
  end;;
  v ← (fun attrs_view => (Return (default (View None None) attrs_view), attrs_view));
  meta ← call (unstack meta);
  meta ← call (sel meta (SelIndexers years months v));
  meta ← call (stack meta);
  ends ← call (py_take (year_month meta) [0; -1]);
  match ends with
  | [first; last] =>
      meta ← call (sel_time meta (format_year_month first) (format_year_month last));
      let dim_len := (fun d => Z.of_nat (String.length d)) <$> dims meta in
      if forallb (fun d => 0 <? d) dim_len then mret (Some meta) else mret None
  | _ => raise (Exn "TypeError" ["slice expected at least 1 argument"])
  end.

(** ** geodata/preparation.py: [_prepare_gebco_height] *)

(** The floating-point numbers of the grid: the function takes minima
    and maxima, subtracts, adds, divides (numpy division: no exception) and
    prints them. *)
Class PyFloat (F : Type) := {
  f_minimum : F -> F -> F;
  f_maximum : F -> F -> F;
  f_sub : F -> F -> F;
  f_add : F -> F -> F;
  f_div : F -> F -> F;
  f_of_Z : Z -> F;
  f_str : F -> string
}.

(** [tempfile.mkdtemp()]: a new, empty directory under a name that is
    not in use. *)
Class TempDir := {
  mkdtemp_name : filesystem -> string;
  mkdtemp_fresh : forall fs, fs !! mkdtemp_name fs = None
}.

Definition mkdtemp `{TempDir} : M filesystem string :=
  fun fs => (Return (mkdtemp_name fs), <[mkdtemp_name fs := ∅]> fs).

(** [subprocess.call(args)]: the exit code of the program, or the
    [OSError] of a program that cannot be started, and what the program does
    to the disk. *)
Class Subprocess := {
  subprocess_call : list string -> M filesystem Z
}.

(** What the function asks of xarray on the resampled file: [rename],
    [reindex(x=xs, y=ys, method='nearest')], [load] and the variable
    [height]. *)
Class XArrayReindex (F : Type) := {
  reindex_height : dataset -> list F -> list F -> result data_array
}.

(** The classes of exceptions that [except OSError] catches. *)
Definition is_OSError (e : exn) : bool :=
  bool_decide (exn_type e ∈
    ["OSError"; "IOError"; "EnvironmentError"; "BlockingIOError"; "ChildProcessError";
     "ConnectionError"; "BrokenPipeError"; "ConnectionAbortedError";
     "ConnectionRefusedError"; "ConnectionResetError"; "FileExistsError";
     "FileNotFoundError"; "InterruptedError"; "IsADirectoryError"; "NotADirectoryError";
     "PermissionError"; "ProcessLookupError"; "TimeoutError"]).

(** [try: body except OSError: handler]. *)
Definition try_except_OSError {S A} (body : M S A) (handler : M S A) : M S A :=
  fun s =>
    match body s with
    | (Return a, s') => (Return a, s')
    | (Raise e, s') => if is_OSError e then handler s' else (Raise e, s')
    end.

Definition gdalwarp_failed : exn :=
  Exn "AssertionError" ["gdalwarp was not able to resample gebco"].

Definition gebco_path_unbound : exn :=
  Exn "UnboundLocalError" ["local variable 'gebco_path' referenced before assignment"].

(** The extent handed to [gdalwarp]: the corners of the grid, widened by
    half a cell. *)
Definition gebco_extent {F} `{PyFloat F} (nx ny : nat) (x0 y0 x1 y1 : F) : F * F * F * F :=
  let minc := (f_minimum x0 x1, f_minimum y0 y1) in
  let maxc := (f_maximum x0 x1, f_maximum y0 y1) in
  let span := (f_div (f_sub maxc.1 minc.1) (f_of_Z (Z.of_nat nx - 1)),
               f_div (f_sub maxc.2 minc.2) (f_of_Z (Z.of_nat ny - 1))) in
  let minx := f_sub minc.1 (f_div span.1 (f_of_Z 2)) in
  let miny := f_sub minc.2 (f_div span.2 (f_of_Z 2)) in
  let maxx := f_add maxc.1 (f_div span.1 (f_of_Z 2)) in
  let maxy := f_add maxc.2 (f_div span.2 (f_of_Z 2)) in
  (minx, miny, maxx, maxy).

Definition gdalwarp_command {F} `{PyFloat F} (nx ny : nat) (extent : F * F * F * F)
    (gebco_fn tmpfn : path) : list string :=
  let '(minx, miny, maxx, maxy) := extent in
  ["gdalwarp"; "-of"; "NETCDF";
   "-ts"; pretty nx; pretty ny;
   "-te"; f_str minx; f_str miny; f_str maxx; f_str maxy;
   "-r"; "average";
   path_str gebco_fn; path_str tmpfn].

(** [config_gebco_path] is the value of [gebco_path] in the module
    [config].  The import inside the function makes [gebco_path] a local
    name, which is bound only when [gebco_fn] is [None]. *)
Definition _prepare_gebco_height {F} `{PyFloat F} `{TempDir} `{Subprocess} `{XArrayReindex F}
    (config_gebco_path : path) (xs ys : list F) (gebco_fn : option path)
    : M filesystem data_array :=
  let gebco_path := match gebco_fn with None => Some config_gebco_path | Some _ => None end in
  let gebco_fn := match gebco_fn with None => config_gebco_path | Some fn => fn end in
  tmpdir ← mkdtemp;
  x0 ← call (py_index xs 0);
  y0 ← call (py_index ys 0);
  x1 ← call (py_index xs (-1));
  y1 ← call (py_index ys (-1));
  let extent := gebco_extent (length xs) (length ys) x0 y0 x1 y1 in
  let tmpfn := Path tmpdir "resampled.nc" in
  tmpfn ← try_except_OSError
    (ret ← subprocess_call (gdalwarp_command (length xs) (length ys) extent gebco_fn tmpfn);
     if ret =? 0 then mret tmpfn else raise gdalwarp_failed)
    (match gebco_path with
     | Some p => mret p
     | None => raise gebco_path_unbound
     end);
  ds_gebco ← open_dataset tmpfn;
  height ← call (reindex_height ds_gebco xs ys);
  rmtree tmpdir;;
  mret height.

(** ** A reference implementation of the xarray interface

    It covers what the scenarios below use and nothing more.  On
    datasets that carry the same variables and coordinates and differ along
    one dimension coordinate, the leading dimension of every variable, with
    increasing and separate index values, [combine='by_coords'] orders the
    datasets by that coordinate and concatenates them along it.  Elsewhere
    the implementation answers [NotImplementedError]; no statement relies
    on that answer. *)
Module XrRef.

Definition not_modelled {A} : result A :=
  Raise (Exn "NotImplementedError" ["outside the modelled part of xarray"]).

(** The datasets agree on everything but the values along [dim]. *)
Definition strip (dim : string) (ds : dataset)
    : list (string * list string) * list (string * list string) :=
  ((fun '(k, a) => (k, da_dims a)) <$> ds_coords ds,
   (fun '(k, a) => (k, da_dims a)) <$> data_vars ds).

Definition other_coords (dim : string) (ds : dataset) : list (string * data_array) :=
  filter (fun ka => ka.1 <> dim) (ds_coords ds).

Definition leads_with (dim : string) (a : data_array) : bool :=
  match da_dims a with d :: _ => String.eqb d dim | [] => false end.

Definition index (dim : string) (ds : dataset) : list Z :=
  match getitem dim (ds_coords ds) with Some a => da_values a | None => [] end.

Fixpoint increasing (l : list Z) : bool :=
  match l with
  | a :: (b :: _) as l' => (a <? b) && increasing l'
  | _ => true
  end.

(** Insertion sort of the datasets by the first value of their index. *)
Fixpoint insert_by_first (dim : string) (ds : dataset) (l : list dataset) : list dataset :=
  match l with
  | [] => [ds]
  | ds' :: l' =>
      if default 0 (head (index dim ds)) <=? default 0 (head (index dim ds'))
      then ds :: l else ds' :: insert_by_first dim ds l'
  end.

Definition sort_by_first (dim : string) (l : list dataset) : list dataset :=
  foldr (insert_by_first dim) [] l.

(** The dimension coordinates on which the datasets do not all agree. *)
Definition concat_dims (ds0 : dataset) (rest : list dataset) : list string :=
  filter (fun dim =>
            existsb (fun ds => negb (bool_decide (getitem dim (ds_coords ds)
                                                  = getitem dim (ds_coords ds0)))) rest
            = true)
         (ds_coords ds0).*1.

Definition concat_along (dim : string) (sorted : list dataset) (ds0 : dataset) : dataset :=
  Dataset
    ((fun '(k, a) =>
        if String.eqb k dim
        then (k, DataArray (da_dims a) (sorted ≫= index dim))
        else (k, a)) <$> ds_coords ds0)
    ((fun '(k, a) =>
        (k, DataArray (da_dims a)
              (sorted ≫= fun ds => match getitem k (data_vars ds) with
                                   | Some b => da_values b
                                   | None => []
                                   end))) <$> data_vars ds0)
    (ds_attrs ds0).

Definition combine_by_coords (datasets : list dataset) : result dataset :=
  match datasets with
  | [] => not_modelled
  | [ds] => Return ds
  | ds0 :: rest =>
      match concat_dims ds0 rest with
      | [dim] =>
          let sorted := sort_by_first dim datasets in
          if forallb (fun ds =>
                bool_decide (strip dim ds = strip dim ds0)
                && bool_decide (other_coords dim ds = other_coords dim ds0)
                && forallb (fun ka => leads_with dim ka.2) (data_vars ds)
                && bool_decide (da_dims <$> getitem dim (ds_coords ds) = Some [dim])
                && negb (bool_decide (index dim ds = []))) datasets
             && increasing (sorted ≫= index dim)
          then Return (concat_along dim sorted ds0)
          else not_modelled
      | _ => not_modelled
      end
  end.

Definition xarray : XArray := Build_XArray combine_by_coords.

End XrRef.

(** ** Concrete scenarios *)

Module Scenario.

(** File names in the manner of ["{}{:0>2}.nc".format(year, month)], and
    [meta.nc]. *)
Definition stem (ym : yearmonth) : string :=
  pretty ym.1 +:+ ((if ym.2 <? 10 then "0" else "") +:+ pretty ym.2).

Definition name_of (ym : option yearmonth) : string :=
  match ym with
  | None => "meta.nc"
  | Some ym => stem ym +:+ ".nc"
  end.

(** A dataset with one variable along [time]. *)
Definition series_ds (var : string) (times values : list Z) : dataset :=
  Dataset [("time", DataArray ["time"] times)] [(var, DataArray ["time"] values)] [].

Definition meta_ds : dataset := Dataset [("x", DataArray ["x"] [0; 1])] [] [].

Definition jan : yearmonth := (2011, 1).
Definition feb : yearmonth := (2011, 2).

Definition geo_task (name : string) (outcome : result (option (list (yearmonth * option dataset))))
    : Geodata.task :=
  Geodata.Task name ∅ (fun _ => eager outcome) None.

Definition geo_cutout (yms : list yearmonth) (tasks : result (list Geodata.task))
    : Geodata.cutout :=
  Geodata.Cutout "europe" "/data/europe" yms name_of (fun m => m) "era5"
    [("era5", Geodata.Series (fun _ => tasks))]
    (Return (DataArray ["y"; "x"] [0; 0])).

(** One task that yields one dataset per month, and no dataset for
    February in the second variant. *)
Definition monthly_task : Geodata.task :=
  geo_task "prepare_month_era5"
    (Return (Some [(jan, Some (series_ds "wnd" [0; 1] [5; 6]));
                   (feb, Some (series_ds "wnd" [2; 3] [7; 8]))])).

Definition monthly_cutout : Geodata.cutout := geo_cutout [jan; feb] (Return [monthly_task]).

(** Two tasks for January whose staging files report different values of
    the shared coordinate [time]. *)
Definition first_half : Geodata.task :=
  geo_task "prepare_first" (Return (Some [(jan, Some (series_ds "wnd" [0; 1] [5; 6]))])).
Definition second_half : Geodata.task :=
  geo_task "prepare_second" (Return (Some [(jan, Some (series_ds "wnd" [2; 3] [7; 8]))])).

Definition halves_cutout : Geodata.cutout :=
  geo_cutout [jan] (Return [first_half; second_half]).

(** A task that raises after another one has written its file. *)
Definition failing_task : Geodata.task :=
  geo_task "prepare_broken" (Raise (Exn "IOError" ["download failed"])).

Definition failing_cutout : Geodata.cutout :=
  geo_cutout [jan] (Return [first_half; failing_task]).

(** A task with a result that has no dataset. *)
Definition sparse_task : Geodata.task :=
  Geodata.Task "prepare_sparse" ∅
    (fun _ => Return (Eager (Some [(jan, None);
                                   (feb, Some (series_ds "wnd" [2; 3] [7; 8]))])))
    (Some {[jan := Path "/data/europe" "201101-0.nc"; feb := Path "/data/europe" "201102-0.nc"]}).

Definition empty_disk : filesystem := ∅.
Definition archive_disk : filesystem := {["/data/europe" := ∅]}.

Definition fresh : cutout_state := CutoutState empty_disk false meta_ds.
Definition already_prepared : cutout_state :=
  CutoutState {["/data/europe" := {["meta.nc" := meta_ds]}]} true meta_ds.

(** The atlite counterparts. *)
Definition atl_sparse_task : Atlite.task :=
  Atlite.Task "prepare_sparse" ∅ None
    (fun _ _ => Return (Eager (Some [(Some jan, None)])))
    (Some {[Some jan := Path "/data/europe" "201101.nc"]}).

Definition atl_task (name : string)
    (outcome : result (option (list (option yearmonth * option dataset)))) : Atlite.task :=
  Atlite.Task name ∅ None (fun _ _ => eager outcome) None.

Definition atl_cutout (yms : list yearmonth) (config : list (string * Atlite.series))
    : Atlite.cutout :=
  Atlite.Cutout "europe" "/data/europe" yms name_of config None.

Definition atl_failing_cutout : Atlite.cutout :=
  atl_cutout [jan]
    [("wnd", Atlite.Series (fun _ =>
        Return [atl_task "prepare_broken" (Raise (Exn "IOError" ["download failed"]))]))].

(** Metadata probes that return a single time sample. *)
Definition short_probe_cutout : meta_cutout Z :=
  MetaCutout Z false (fun _ _ _ _ => Return (MetaDataset [0] ∅ [] [] [])) "daily".
Definition dailymeans_cutout : meta_cutout Z :=
  MetaCutout Z false (fun _ _ _ _ => Return (MetaDataset [0] ∅ [] [] [])) "dailymeans".

(** A series with a single task for January. *)
Definition single_cutout : Geodata.cutout := geo_cutout [jan] (Return [first_half]).

(** The archive of [halves_cutout] when both tasks have written. *)
Definition staged : cutout_state :=
  CutoutState
    {["/data/europe" := {["meta.nc" := meta_ds;
                          "201101-0.nc" := series_ds "wnd" [0; 1] [5; 6];
                          "201101-1.nc" := series_ds "wnd" [2; 3] [7; 8]]}]}
    false meta_ds.

(** Two series of atlite, one file each for January. *)
Definition atl_two_series : Atlite.cutout :=
  atl_cutout [jan]
    [("wnd", Atlite.Series (fun _ => Return []));
     ("influx", Atlite.Series (fun _ => Return []))].

End Scenario.

(** ** Further scenarios *)

Module Cases.

(** Metadata probes: one for the monthly policy, and one for the daily
    policy with four samples three hours apart, from 2011-02-01 06:00. *)
Definition monthly_probe : meta_cutout Z :=
  MetaCutout Z false (fun _ _ _ _ => Return (MetaDataset [] ∅ [] [] [])) "monthly".

Definition feb_06h : Z := 1296540000000000000.

Definition hourly_times : list Z :=
  (fun k => feb_06h + k * (3 * ns_per_hour)) <$> seqZ 0 4.

Definition hourly_probe : meta_cutout Z :=
  MetaCutout Z false (fun _ _ _ _ => Return (MetaDataset hourly_times ∅ [] [] [])) "daily".

(** Tasks: one whose prepare function raises an exception without
    [args], one with a result for a period it has no destination for, and
    one with two results for the same period. *)
Definition silent_task : Geodata.task :=
  Scenario.geo_task "prepare_silent" (Raise (Exn "RuntimeError" [])).

Definition jan_only : gmap yearmonth path :=
  {[Scenario.jan := Path "/data/europe" "201101-0.nc"]}.

Definition stray_task : Geodata.task :=
  Geodata.Task "prepare_stray" ∅
    (fun _ => Return (Eager (Some
       [(Scenario.jan, Some (Scenario.series_ds "wnd" [0; 1] [5; 6]));
        (Scenario.feb, Some (Scenario.series_ds "wnd" [2; 3] [7; 8]))])))
    (Some jan_only).

Definition twice_task : Geodata.task :=
  Geodata.Task "prepare_twice" ∅
    (fun _ => Return (Eager (Some
       [(Scenario.jan, Some (Scenario.series_ds "wnd" [0; 1] [5; 6]));
        (Scenario.jan, Some (Scenario.series_ds "wnd" [0; 1] [9; 9]))])))
    (Some jan_only).

(** Tasks whose prepare function is a generator: one that yields two
    results for January, one that yields a single result, and one that
    raises after its first result; each with the cutout of a series that
    generates it. *)
Definition lazy_task : Geodata.task :=
  Geodata.Task "prepare_lazy" ∅
    (fun _ => Return (Generator
       [(Scenario.jan, Some (Scenario.series_ds "wnd" [0; 1] [5; 6]));
        (Scenario.jan, Some (Scenario.series_ds "wnd" [2; 3] [7; 8]))] None))
    None.

Definition lazy_cutout : Geodata.cutout :=
  Scenario.geo_cutout [Scenario.jan] (Return [lazy_task]).

Definition lazy_single_task : Geodata.task :=
  Geodata.Task "prepare_lazy" ∅
    (fun _ => Return (Generator
       [(Scenario.jan, Some (Scenario.series_ds "wnd" [0; 1] [5; 6]))] None))
    None.

Definition lazy_single_cutout : Geodata.cutout :=
  Scenario.geo_cutout [Scenario.jan] (Return [lazy_single_task]).

Definition lazy_failing_task : Geodata.task :=
  Geodata.Task "prepare_lazy" ∅
    (fun _ => Return (Generator
       [(Scenario.jan, Some (Scenario.series_ds "wnd" [0; 1] [5; 6]))]
       (Some (Exn "IOError" ["download failed"]))))
    (Some jan_only).

(** An atlite task whose result has no data variable. *)
Definition atl_bare_task : Atlite.task :=
  Atlite.Task "prepare_bare" ∅ None
    (fun _ _ => Return (Eager (Some [(Some Scenario.jan, Some (Dataset [] [] []))])))
    (Some {[Some Scenario.jan := Path "/data/europe" "201101.nc"]}).

(** A cutout whose series generates no task, and one whose
    task-generation function raises. *)
Definition idle_cutout : Geodata.cutout := Scenario.geo_cutout [Scenario.jan] (Return []).


(** A disk with a directory next to the archive, and a prepared cutout
    on it. *)
Definition shared_disk : filesystem :=
  {["/data/other" := {["notes.nc" := Scenario.meta_ds]};
    "/data/europe" := {["meta.nc" := Scenario.meta_ds]}]}.

Definition prepared_on_shared : cutout_state :=
  CutoutState shared_disk true Scenario.meta_ds.

(** The archive of [Scenario.single_cutout] when its task has written,
    with the elevation in the meta of the cutout. *)
Definition elevation : data_array := DataArray ["y"; "x"] [3; 4].

Definition staged_with_height : cutout_state :=
  CutoutState
    {["/data/europe" := {["meta.nc" := Scenario.meta_ds;
                          "201101-0.nc" := Scenario.series_ds "wnd" [0; 1] [5; 6]]}]}
    false (set_data_var "height" elevation Scenario.meta_ds).

(** The archive of [Scenario.atl_two_series] with the file of the first
    series only. *)
Definition atl_half_staged : cutout_state :=
  CutoutState
    {["/data/europe" := {["201101_wnd.nc" := Scenario.series_ds "wnd" [0; 1] [5; 6]]}]}
    false Scenario.meta_ds.

(** The same archive with the files of both series, and a cutout of
    atlite without any period. *)
Definition atl_staged : cutout_state :=
  CutoutState
    {["/data/europe" := {["201101_wnd.nc" := Scenario.series_ds "wnd" [0; 1] [5; 6];
                          "201101_influx.nc" := Scenario.series_ds "influx" [0; 1] [7; 8]]}]}
    false Scenario.meta_ds.

Definition atl_no_period : Atlite.cutout :=
  Scenario.atl_cutout [] [("wnd", Atlite.Series (fun _ => Return []))].

(** A stand-in for xarray on the datasets of the metadata resolver:
    selection keeps the periods whose year lies within the bounds given. *)
Definition in_slice (s : slice (option Z)) (v : Z) : bool :=
  match start s with Some a => a <=? v | None => true end
  && match stop s with Some b => v <=? b | None => true end.

Definition view_dataset : XArrayDataset meta_dataset :=
  {| unstack := fun d => Return d;
     stack := fun d => Return d;
     year_month := md_year_month;
     sel_time := fun d _ _ => Return d;
     dims := fun _ => ["x"; "y"; "time"; "year-month"] |}.

Definition view_sel : XArraySel meta_dataset Z :=
  {| sel := fun d idx =>
       Return (MetaDataset (md_time d) (md_attrs d) (md_year d) (md_month d)
                 (filter (fun ym => in_slice (sel_year idx) ym.1 = true
                                    /\ in_slice (sel_month idx) ym.2 = true)
                         (md_year_month d))) |}.

Definition two_months : meta_dataset :=
  MetaDataset [] ∅ [2011] [1; 2] [(2011, 1); (2011, 2)].

(** Integers in the place of floating-point numbers, a temporary
    directory named after everything on the disk, and three ways for
    [gdalwarp] to end. *)
Definition int_float : PyFloat Z :=
  {| f_minimum := Z.min; f_maximum := Z.max; f_sub := Z.sub; f_add := Z.add;
     f_div := Z.div; f_of_Z := fun z => z; f_str := pretty |}.

Definition tmp_name (fs : filesystem) : string :=
  "/tmp/tmp" +:+ String.concat "" (elements (dom fs)).

Definition gebco_disk : filesystem :=
  {["/data/gebco" := {["gebco.nc" := Dataset [] [("Band1", elevation)] []]}]}.

Definition gebco_file : path := Path "/data/gebco" "gebco.nc".

(** A task of atlite that names a source file, and whose prepare
    function raises once it is handed the open file. *)
Definition atl_sourced_task : Atlite.task :=
  Atlite.Task "prepare_sourced" ∅ (Some (gebco_file, "netcdf4"))
    (fun _ ds => match ds with
                 | Some _ => Raise (Exn "IOError" ["download failed"])
                 | None => Return (Eager None)
                 end)
    None.

Definition gdalwarp_missing : Subprocess :=
  {| subprocess_call := fun _ fs => (Raise (FileNotFoundError "gdalwarp"), fs) |}.

Definition gdalwarp_broken : Subprocess :=
  {| subprocess_call := fun _ fs => (Return 1, fs) |}.

Definition gdalwarp_works : Subprocess :=
  {| subprocess_call := fun _ fs =>
       (Return 0,
        <[tmp_name gebco_disk := {["resampled.nc" := Dataset [] [("Band1", elevation)] []]}]>
          fs) |}.

Definition band1 : XArrayReindex Z :=
  {| reindex_height := fun ds _ _ =>
       match getitem "Band1" (data_vars ds) with
       | Some a => Return a
       | None => Raise (KeyError "Band1")
       end |}.

(** The name is longer than every name on the disk. *)
Definition named_after_the_disk : TempDir.
Proof.
  refine {| mkdtemp_name := tmp_name |}.
  intros fs. apply (not_elem_of_dom (D := gset string)). intros Hin%elem_of_elements.
  assert (forall a b, String.length (a +:+ b) = (String.length a + String.length b)%nat)
    as Happ by (induction a as [|? ? IH]; intros b; simpl; [done|by rewrite IH]).
  assert (forall (x : string) l, x ∈ l ->
            (String.length x <= String.length (String.concat "" l))%nat) as Hconcat.
  { intros x l. induction l as [|y l IH]; [by intros ?%elem_of_nil|].
    intros Hx. assert (String.length (String.concat "" (y :: l))
                       = (String.length y + String.length (String.concat "" l))%nat) as ->.
    { destruct l; simpl; [lia|]. by rewrite Happ. }
    apply elem_of_cons in Hx as [->|Hx]; [lia|]. specialize (IH Hx). lia. }
  apply Hconcat in Hin. unfold tmp_name in Hin. rewrite Happ in Hin. simpl in Hin. lia.
Defined.

End Cases.

(** ** Vocabulary of the statements *)

(** Outcomes and states of a cutout can be compared by computation. *)
Global Instance result_eq_dec {A} `{EqDecision A} : EqDecision (result A).
Proof. solve_decision. Defined.
Global Instance cutout_state_eq_dec : EqDecision cutout_state.
Proof. solve_decision. Defined.

(** The results that a loop over [data] goes through, and the exception
    that ends the loop when [data] is a generator that raises. *)
Definition results_of {R} (data : provided R) : list R :=
  match data with
  | Eager data => default [] data
  | Generator yields _ => yields
  end.

Definition ending_of {R} (data : provided R) : option exn :=
  match data with
  | Eager _ => None
  | Generator _ ending => ending
  end.

(** The task with the same name and destinations whose prepare function
    returns [data]. *)
Definition with_results (t : Geodata.task) (data : provided (yearmonth * option dataset))
    : Geodata.task :=
  Geodata.Task (Geodata.prepare_func_name t) (Geodata.kwargs t)
    (fun _ => Return data) (Geodata.datasetfns t).

Definition has_dataset (r : yearmonth * option dataset) : Prop := is_Some r.2.

(** What [data] produces, without the results that have no dataset. *)
Definition skip_absent (data : provided (yearmonth * option dataset))
    : provided (yearmonth * option dataset) :=
  match data with
  | Eager data => Eager (filter has_dataset <$> data)
  | Generator yields ending => Generator (filter has_dataset yields) ending
  end.

(** The dataset that a task of atlite hands to its prepare function as
    [ds]: the contents of the source file it names, when it names one; and
    the condition that such a file can be opened. *)
Definition source_dataset (t : Atlite.task) (fs : filesystem) : option dataset :=
  Atlite.fn t ≫= fun source => lookup_file source.1 fs.

Definition source_opens (t : Atlite.task) (fs : filesystem) : Prop :=
  is_Some (Atlite.fn t) -> is_Some (source_dataset t fs).

(** What [len(data)] raises on a generator. *)
Definition generator_has_no_len : exn :=
  TypeError "object of type 'generator' has no len()".

(** What reading [ds.data_vars] raises when [ds] is [None]. *)
Definition NoneType_data_vars : exn :=
  AttributeError "'NoneType' object has no attribute 'data_vars'".

(** A computation respects a relation [R] on disks when the disk it
    leaves is related to the disk it found, whatever it returns. *)
Definition respects (R : relation filesystem) {A} (m : M filesystem A) : Prop :=
  forall fs r fs', m fs = (r, fs') -> R fs fs'.

(** The tasks only write files: the set of directories stays. *)
Definition same_dirs : relation filesystem := fun fs fs' => dom fs' = dom fs.

(** Between two disks, the directory [dir] only gains files, and only
    files whose names satisfy [W]. *)
Definition dir_grows_within (dir : string) (W : string -> Prop) : relation filesystem :=
  fun fs fs' =>
    forall d, fs !! dir = Some d ->
      exists d', fs' !! dir = Some d' /\ dom d ⊆ dom d'
                 /\ forall n, n ∈ dom d' -> n ∈ dom d \/ W n.

(** The names the tasks of a cutout may write. *)
Definition is_staging (c : Geodata.cutout) (n : string) : Prop :=
  exists i ym, (i < Geodata.task_count c)%nat /\ ym ∈ Geodata.yearmonths c
               /\ n = Geodata.staging_name c i ym.

(** The state of the archive directory when the periods [done_] are
    merged: the meta file, the final files of the merged periods, and
    staging files of the other periods. *)
Definition merge_inv (c : Geodata.cutout) (done_ : list yearmonth)
    (d : gmap string dataset) : Prop :=
  Geodata.meta_name c ∈ dom d
  /\ (forall ym, ym ∈ done_ -> Geodata.final_name c ym ∈ dom d)
  /\ forall n, n ∈ dom d ->
       n = Geodata.meta_name c
       \/ (exists ym, ym ∈ done_ /\ n = Geodata.final_name c ym)
       \/ (exists i ym, (i < Geodata.task_count c)%nat /\ ym ∈ Geodata.yearmonths c
                        /\ (ym ∉ done_) /\ n = Geodata.staging_name c i ym).

(** Decimal digits, for the file names of the scenarios. *)
Definition is_digit (c : ascii) : bool :=
  existsb (Ascii.eqb c) ["0"; "1"; "2"; "3"; "4"; "5"; "6"; "7"; "8"; "9"]%char.

Fixpoint all_digits (s : string) : bool :=
  match s with
  | EmptyString => true
  | String c s => is_digit c && all_digits s
  end.

(** The periods whose name [Scenario.name_of] builds from digits alone. *)
Definition plain_period (ym : yearmonth) : Prop := 0 <= ym.1 /\ 1 <= ym.2 <= 12.

(** The direction a latitude slice runs in agrees with the dataset:
    south to north when [lat_direction] holds, north to south otherwise. *)
Definition oriented {A} `{PyNum A} (lat_direction : bool) (ys : slice A) : bool :=
  if lat_direction then negb (py_lt (stop ys) (start ys))
  else negb (py_gt (stop ys) (start ys)).

(** The cutout whose probe returns what the probe of [cutout] returns,
    with the time coordinate replaced. *)
Definition with_probe_time {A} (time : list Z) (cutout : meta_cutout A) : meta_cutout A :=
  MetaCutout A (lat_direction cutout)
    (fun xs ys year month =>
       match meta_prepare_func cutout xs ys year month with
       | Return ds => Return (set_time time ds)
       | Raise e => Raise e
       end)
    (file_granularity cutout).

(** What the handler of [cutout_do_task] raises in the place of [e]:
    reading [e.args[0]] fails on an empty tuple. *)
Definition reraised (e : exn) : exn :=
  match exn_args e with
  | [] => IndexError "tuple index out of range"
  | _ :: _ => e
  end.

(** The dataset the write loop of geodata leaves in the file [p]: the one
    of the last result that has a dataset and whose destination is [p]. *)
Fixpoint last_written (d : gmap yearmonth path) (data : partial_results) (p : path)
    : option dataset :=
  match data with
  | [] => None
  | (ym, ods) :: data =>
      match last_written d data p with
      | Some ds => Some ds
      | None =>
          match ods, d !! ym with
          | Some ds, Some fn => if decide (fn = p) then Some ds else None
          | _, _ => None
          end
      end
  end.

Fixpoint count_char (c : ascii) (s : string) : nat :=
  match s with
  | EmptyString => 0
  | String c' rest => (if Ascii.eqb c c' then 1 else 0) + count_char c rest
  end.

(** [glob.has_magic]: the text holds a character that [glob] reads as a
    pattern. *)
Definition has_magic (s : string) : bool :=
  contains_char "*" s || contains_char "?" s || contains_char "[" s.

(** The file names for which [fnmatch] and [glob] above say what
    Python's do: no separator and no bracket. *)
Definition plain_name (n : string) : bool :=
  negb (contains_char "/" n) && negb (contains_char "[" n).

(** A computation keeps a relation [R] on states when the state it
    leaves is related to the state it found, whatever it returns. *)
Definition keeps {S} (R : relation S) {A} (m : M S A) : Prop :=
  forall s r s', m s = (r, s') -> R s s'.

(** Between two disks, every directory but [dir] is as it was. *)
Definition outside (dir : string) : relation filesystem :=
  fun fs fs' => forall dir', dir' <> dir -> fs' !! dir' = fs !! dir'.

(** Between two states of a cutout, the flag [prepared] and every
    directory but [dir] are as they were. *)
Definition touches_only (dir : string) : relation cutout_state :=
  fun st st' => prepared st' = prepared st /\ outside dir (st_fs st) (st_fs st').

(** Between two disks, the directory [dir] stays a directory. *)
Definition dir_stays (dir : string) : relation filesystem :=
  fun fs fs' => is_Some (fs !! dir) -> is_Some (fs' !! dir).

(** Between two states of a cutout, the directory [dir] stays and the
    flag [prepared] is as it was. *)
Definition archive_stays (dir : string) : relation cutout_state :=
  fun st st' => prepared st' = prepared st /\ dir_stays dir (st_fs st) (st_fs st').

(** Between two disks, the file [p] is as it was (there or not). *)
Definition file_kept (p : path) : relation filesystem :=
  fun fs fs' => lookup_file p fs' = lookup_file p fs.

(** The archive as [cutout_prepare] of geodata sets it up: the directory
    made anew, with the meta file in it. *)
Definition archive_set_up (c : Geodata.cutout) (st : cutout_state) : cutout_state :=
  CutoutState
    (<[Geodata.cutout_dir c :=
         {[Geodata.meta_name c := Geodata.meta_clean c (meta st)]}]> (st_fs st))
    (prepared st) (meta st).

(** The directory [dir] of the disk holds files only: no other directory
    has a path that begins with the path of [dir]. *)
Definition holds_files_only (dir : string) (fs : filesystem) : bool :=
  forallb (fun k => bool_decide (k = dir) || negb (String.prefix dir k))
          (elements (dom fs)).

(** The command line of [gdalwarp] for a grid with first and last
    coordinates [x0], [x1] and [y0], [y1]. *)
Definition gebco_command {F} `{PyFloat F} (xs ys : list F) (x0 y0 x1 y1 : F)
    (gebco_fn : path) (tmpdir : string) : list string :=
  gdalwarp_command (length xs) (length ys)
    (gebco_extent (length xs) (length ys) x0 y0 x1 y1)
    gebco_fn (Path tmpdir "resampled.nc").

(** ** Theorems *)

Example ymd2ord_2011_03_01 : _ymd2ord 2011 3 1 = 734197.
Proof. reflexivity. Qed.

Example monthrange_2012_02 : monthrange_days 2012 2 = Return 29.
Proof. reflexivity. Qed.

Example Timestamp_1970 : Timestamp_ym 1970 1 = Return 0.
Proof. reflexivity. Qed.

(** C10: the latitude-direction normalisation is idempotent: for every
    direction flag and every slice, normalising twice gives exactly the
    slice that normalising once gives. *)
Theorem prepare_lat_direction_idempotent {A} `{PyNum A}
    (lat_direction : bool) (ys : slice A) :
  _prepare_lat_direction lat_direction
    (_prepare_lat_direction lat_direction ys)
  = _prepare_lat_direction lat_direction ys.
Proof.
  destruct ys as [a b s]. unfold _prepare_lat_direction.
  destruct lat_direction; cbn [negb andb start stop step].
  - destruct (py_lt b a) eqn:E; cbn [start stop step].
    + rewrite (py_lt_asym _ _ E). cbn. reflexivity.
    + rewrite E. reflexivity.
  - destruct (py_gt b a) eqn:E; cbn [start stop step].
    + rewrite (py_gt_asym _ _ E). cbn. reflexivity.
    + rewrite E. reflexivity.
Qed.

(** *** The metadata resolver *)

Lemma np_take_short (l : list Z) :
  (length l < 2)%nat ->
  exists msg, np_take l [0; 1; -1] = Raise (IndexError msg).
Proof.
  intros Hl. destruct l as [|a [|b l]]; [| |simpl in Hl; lia].
  - eexists. reflexivity.
  - eexists. reflexivity.
Qed.

(** C7: when the step has to be inferred from the probe (granularity
    [daily] in geodata, always in atlite) and the probe returns fewer than
    two time samples, [cutout_get_meta] fails: it raises, and the
    exception is the [IndexError] of the indexing [values[[0, 1, -1]]] as
    soon as the call reaches it (in geodata [month_start] is built first). *)
Theorem get_meta_short_probe_raises {A} `{PyNum A}
    (cutout : meta_cutout A) (xs ys : slice A) (years : slice Z)
    (months : option (slice Z)) (dataset_params : gmap string string)
    (ds : meta_dataset) :
  (length (md_time ds) < 2)%nat ->
  (file_granularity cutout = "daily" ->
   meta_prepare_func cutout xs (_prepare_lat_direction (lat_direction cutout) ys)
     (stop years) (stop (months_or_default months)) = Return ds ->
   (exists e, Geodata.cutout_get_meta cutout xs ys years months dataset_params = Raise e)
   /\ (forall month_start,
         Timestamp_ym (stop years) (stop (months_or_default months)) = Return month_start ->
         exists msg,
           Geodata.cutout_get_meta cutout xs ys years months dataset_params
           = Raise (IndexError msg)))
  /\ (meta_prepare_func cutout xs ys (stop years) (stop (months_or_default months))
      = Return ds ->
      exists msg,
        Atlite.cutout_get_meta (meta_prepare_func cutout) xs ys years months dataset_params
        = Raise (IndexError msg)).
Proof.
  intros Hlen. destruct (np_take_short _ Hlen) as [msg Hmsg]. split.
  - intros Hg Hp. unfold Geodata.cutout_get_meta. rewrite Hp, Hg.
    cbn [String.eqb Ascii.eqb Bool.eqb md_time attrs_update set_year set_month].
    destruct (Timestamp_ym _ _) as [ms|e].
    + rewrite Hmsg. split; [eauto|]. intros ? _. eauto.
    + split; [eauto|]. intros ? [=].
  - intros Hp. unfold Atlite.cutout_get_meta. rewrite Hp.
    cbn [md_time attrs_update]. rewrite Hmsg. eauto.
Qed.

Lemma get_meta_short_probe_raises_witness :
  exists msg,
    Geodata.cutout_get_meta Scenario.short_probe_cutout (Slice 0 10 None) (Slice 70 40 None)
      (Slice 2011 2011 None) None ∅ = Raise (IndexError msg).
Proof.
  destruct (get_meta_short_probe_raises Scenario.short_probe_cutout (Slice 0 10 None)
              (Slice 70 40 None) (Slice 2011 2011 None) None ∅
              (MetaDataset [0] ∅ [] [] [])) as [Hg _].
  - simpl. lia.
  - destruct (Hg eq_refl eq_refl) as [_ Hi]. exact (Hi _ eq_refl).
Defined.

Lemma valid_month_cases (m : Z) :
  valid_month m = true ->
  m = 1 \/ m = 2 \/ m = 3 \/ m = 4 \/ m = 5 \/ m = 6 \/
  m = 7 \/ m = 8 \/ m = 9 \/ m = 10 \/ m = 11 \/ m = 12.
Proof. unfold valid_month. lia. Qed.

Ltac month_cases H :=
  apply valid_month_cases in H;
  repeat (destruct H as [H|H]); subst.

Lemma days_in_month_range (y m : Z) :
  valid_month m = true -> 28 <= days_in_month y m <= 31.
Proof.
  intros Hm. month_cases Hm; unfold days_in_month; simpl;
    destruct (isleap y); simpl; lia.
Qed.

Lemma days_before_month_range (y m : Z) :
  valid_month m = true -> 0 <= _days_before_month y m <= 335.
Proof.
  intros Hm. month_cases Hm; unfold _days_before_month; simpl;
    destruct (isleap y); simpl; lia.
Qed.

Lemma days_before_month_mono (y m0 m1 : Z) :
  valid_month m0 = true -> valid_month m1 = true -> m0 <= m1 ->
  _days_before_month y m0 + 1 <= _days_before_month y m1 + days_in_month y m1.
Proof.
  intros H0 H1 Hle. unfold _days_before_month, days_in_month.
  destruct (isleap y); month_cases H0; month_cases H1;
    first [lia | vm_compute; discriminate].
Qed.

Lemma days_before_year_step (y0 y1 : Z) :
  y0 < y1 -> _days_before_year y0 + 365 <= _days_before_year y1.
Proof.
  unfold _days_before_year. intros Hlt. cbv zeta.
  Z.div_mod_to_equations. lia.
Qed.

Lemma ymd2ord_first_le_last (y0 m0 y1 m1 : Z) :
  valid_month m0 = true -> valid_month m1 = true ->
  y0 < y1 \/ (y0 = y1 /\ m0 <= m1) ->
  _ymd2ord y0 m0 1 <= _ymd2ord y1 m1 (days_in_month y1 m1).
Proof.
  intros H0 H1 [Hlt|[-> Hle]]; unfold _ymd2ord.
  - pose proof (days_before_year_step _ _ Hlt).
    pose proof (days_before_month_range y0 m0 H0).
    pose proof (days_before_month_range y1 m1 H1).
    pose proof (days_in_month_range y1 m1 H1). lia.
  - pose proof (days_before_month_mono y1 m0 m1 H0 H1 Hle). lia.
Qed.

Lemma Timestamp_ymd_in_range (y m d : Z) :
  1678 <= y <= 2261 -> valid_month m = true -> 1 <= d <= days_in_month y m ->
  Timestamp_ymd y m d = Return (ts_of_ordinal (_ymd2ord y m d)).
Proof.
  intros Hy Hm Hd. unfold Timestamp_ymd. rewrite Hm.
  replace (1 <=? d) with true by lia.
  replace (d <=? days_in_month y m) with true by lia.
  cbn [andb]. unfold check_bounds.
  pose proof (days_before_month_range y m Hm).
  pose proof (days_in_month_range y m Hm).
  assert (-106700 <= _ymd2ord y m d - epoch_ordinal <= 106700) as Hb.
  { unfold _ymd2ord, epoch_ordinal, _days_before_year in *. cbv zeta.
    Z.div_mod_to_equations. lia. }
  unfold ts_of_ordinal, ts_min, ts_max, ns_per_day, ns_per_hour.
  replace (_ <=? _) with true by lia. replace (_ <=? _) with true by lia.
  reflexivity.
Qed.

Lemma date_range_days (d0 d1 : Z) :
  d0 <= d1 ->
  date_range (ts_of_ordinal d0) (ts_of_ordinal d1) ns_per_day
  = Return (ts_of_ordinal <$> seqZ d0 (d1 - d0 + 1)).
Proof.
  intros Hle. unfold date_range.
  assert (0 < ns_per_day) as Hpos by (vm_compute; reflexivity).
  replace (ns_per_day <=? 0) with false by lia.
  assert (ts_of_ordinal d1 - ts_of_ordinal d0 = (d1 - d0) * ns_per_day) as Hd
    by (unfold ts_of_ordinal; lia).
  replace (ts_of_ordinal d1 <? ts_of_ordinal d0) with false by nia.
  rewrite Hd, Z.div_mul by lia. f_equal.
  replace d0 with (d0 + 0) at 2 by lia.
  rewrite <- fmap_add_seqZ, <- list_fmap_compose.
  apply list_fmap_ext. intros _ k _. unfold ts_of_ordinal. simpl. lia.
Qed.

(** C8: with daily-means granularity and a year/month range whose start
    does not lie after its end (years that pandas represents, 1678 to
    2261), the resolver returns a time axis that is exactly the list of
    midnights of the consecutive calendar days from the first day of the
    start month to the last day of the end month: one timestamp per day,
    no gap, no duplicate. *)
Theorem get_meta_dailymeans_time_axis {A} `{PyNum A}
    (cutout : meta_cutout A) (xs ys : slice A) (years : slice Z)
    (months : option (slice Z)) (dataset_params : gmap string string)
    (ds : meta_dataset) :
  let y0 := start years in
  let y1 := stop years in
  let m0 := start (months_or_default months) in
  let m1 := stop (months_or_default months) in
  let first_day := _ymd2ord y0 m0 1 in
  let last_day := _ymd2ord y1 m1 (days_in_month y1 m1) in
  file_granularity cutout = "dailymeans" ->
  meta_prepare_func cutout xs (_prepare_lat_direction (lat_direction cutout) ys)
    y1 m1 = Return ds ->
  valid_month m0 = true -> valid_month m1 = true ->
  1678 <= y0 -> y1 <= 2261 ->
  y0 < y1 \/ (y0 = y1 /\ m0 <= m1) ->
  exists meta,
    Geodata.cutout_get_meta cutout xs ys years months dataset_params = Return meta
    /\ first_day <= last_day
    /\ md_time meta = ts_of_ordinal <$> seqZ first_day (last_day - first_day + 1)
    /\ NoDup (md_time meta)
    /\ (forall t, t ∈ md_time meta <->
                  exists d, first_day <= d <= last_day /\ t = ts_of_ordinal d)
    /\ (forall (i : nat) a b,
          md_time meta !! i = Some a -> md_time meta !! S i = Some b ->
          b = a + ns_per_day).
Proof.
  intros y0 y1 m0 m1 first_day last_day Hg Hp Hm0 Hm1 Hy0 Hy1 Hle.
  assert (y0 <= y1) as Hy by lia.
  pose proof (ymd2ord_first_le_last y0 m0 y1 m1 Hm0 Hm1 Hle) as Hord.
  pose proof (days_in_month_range y1 m1 Hm1) as Hdim.
  pose proof (days_in_month_range y0 m0 Hm0) as Hdim0.
  unfold Geodata.cutout_get_meta. fold y0 y1 m0 m1. rewrite Hp, Hg.
  unfold Timestamp_ym, monthrange_days.
  rewrite Hm1. cbn [String.eqb Ascii.eqb Bool.eqb].
  rewrite !Timestamp_ymd_in_range by first [assumption | lia].
  rewrite date_range_days by exact Hord.
  eexists. split; [reflexivity|]. cbn [md_time set_time stack_year_month].
  fold first_day last_day. split; [exact Hord|]. split; [reflexivity|].
  split; [|split].
  - apply NoDup_fmap_2; [|apply NoDup_seqZ].
    intros a b. unfold ts_of_ordinal, ns_per_day, ns_per_hour. lia.
  - intros t. rewrite list_elem_of_fmap. setoid_rewrite elem_of_seqZ.
    split.
    + intros (d & -> & Hd). exists d. split; [lia|reflexivity].
    + intros (d & Hd & ->). exists d. split; [reflexivity|lia].
  - intros i a b. rewrite !list_lookup_fmap.
    intros Ha Hb.
    destruct (seqZ _ _ !! i) as [da|] eqn:Ea; [|discriminate].
    destruct (seqZ _ _ !! S i) as [db|] eqn:Eb; [|discriminate].
    apply lookup_seqZ in Ea as [-> _]. apply lookup_seqZ in Eb as [-> _].
    simpl in Ha, Hb. injection Ha as <-. injection Hb as <-.
    unfold ts_of_ordinal. lia.
Qed.

Lemma get_meta_dailymeans_time_axis_witness :
  exists meta,
    Geodata.cutout_get_meta Scenario.dailymeans_cutout (Slice 0 10 None) (Slice 70 40 None)
      (Slice 2011 2011 None) (Some (Slice 1 2 None)) ∅ = Return meta
    /\ length (md_time meta) = 59%nat
    /\ head (md_time meta) = Some 1293840000000000000
    /\ last (md_time meta) = Some 1298851200000000000.
Proof.
  destruct (get_meta_dailymeans_time_axis Scenario.dailymeans_cutout (Slice 0 10 None)
              (Slice 70 40 None) (Slice 2011 2011 None) (Some (Slice 1 2 None)) ∅
              (MetaDataset [0] ∅ [] [] []) eq_refl eq_refl eq_refl eq_refl)
    as (meta & Hr & _ & Ht & _).
  - simpl. lia.
  - simpl. lia.
  - right. simpl. lia.
  - exists meta. split; [exact Hr|]. rewrite Ht. repeat split; reflexivity.
Defined.

(** *** The task executor *)

Ltac mrun :=
  cbv beta iota delta [mbind M_bind mret M_ret call raise try_except when].
Ltac mrun_in H :=
  cbv beta iota delta [mbind M_bind mret M_ret call raise try_except when] in H.

Lemma bind_run {S A B} (m : M S A) (f : A -> M S B) (s : S) :
  (m ≫= f) s =
  match m s with
  | (Return a, s') => f a s'
  | (Raise e, s') => (Raise e, s')
  end.
Proof. reflexivity. Qed.

Lemma lookup_file_to_netcdf (ds : dataset) (fn p : path) (fs fs' : filesystem) (r : result unit) :
  to_netcdf ds fn fs = (r, fs') ->
  lookup_file p fs' = lookup_file p fs \/ (p = fn /\ r = Return tt).
Proof.
  unfold to_netcdf. destruct (fs !! p_dir fn) as [d|] eqn:Ed; intros [= <- <-].
  - destruct (decide (p = fn)) as [->|Hne]; [right; done|left].
    unfold lookup_file. destruct (decide (p_dir p = p_dir fn)) as [Hd|Hd].
    + rewrite Hd, lookup_insert_eq, Ed. simpl.
      rewrite lookup_insert_ne; [done|]. intros Hn. apply Hne.
      destruct p, fn; simpl in *; congruence.
    + rewrite lookup_insert_ne by done. done.
  - left; done.
Qed.

Lemma write_loop_skips (d : gmap yearmonth path) (data : partial_results) (fs : filesystem) :
  for_each data (Geodata.write_result d) fs
  = for_each (filter has_dataset data) (Geodata.write_result d) fs.
Proof.
  revert fs. induction data as [|[ym [ds|]] data IH]; intros fs; [done| |].
  - rewrite filter_cons_True by (eexists; done).
    cbn [for_each]. rewrite !bind_run.
    destruct (Geodata.write_result d (ym, Some ds) fs) as [[[]|e] fs1]; [apply IH|done].
  - rewrite filter_cons_False by (intros [? [=]]).
    cbn [for_each]. rewrite bind_run. simpl. apply IH.
Qed.

Lemma write_loop_frame (d : gmap yearmonth path) (data : partial_results)
    (fs fs' : filesystem) (r : result unit) (p : path) :
  for_each data (Geodata.write_result d) fs = (r, fs') ->
  lookup_file p fs' <> lookup_file p fs ->
  exists ym ds, (ym, Some ds) ∈ data /\ d !! ym = Some p.
Proof.
  revert fs. induction data as [|[ym [ds|]] data IH]; intros fs.
  - intros [= <- <-] Hne. done.
  - cbn [for_each]. rewrite bind_run.
    destruct (Geodata.write_result d (ym, Some ds) fs) as [[[]|e] fs1] eqn:Ew.
    + intros Hrest Hne.
      destruct (decide (lookup_file p fs' = lookup_file p fs1)) as [Heq|Hne1].
      * rewrite Heq in Hne. unfold Geodata.write_result in Ew. rewrite bind_run in Ew.
        destruct (d !! ym) as [fn|] eqn:Ed; simpl in Ew; [|done].
        destruct (lookup_file_to_netcdf _ _ p _ _ _ Ew) as [?|[-> _]]; [done|].
        exists ym, ds. split; [left|done].
      * destruct (IH _ Hrest Hne1) as (ym' & ds' & Hin & Hd).
        exists ym', ds'. split; [right; done|done].
    + intros [= <- <-] Hne. unfold Geodata.write_result in Ew. rewrite bind_run in Ew.
      destruct (d !! ym) as [fn|] eqn:Ed; simpl in Ew.
      * destruct (lookup_file_to_netcdf _ _ p _ _ _ Ew) as [?|[-> _]]; [done|].
        exists ym, ds. split; [left|done].
      * injection Ew as _ <-. done.
  - cbn [for_each]. rewrite bind_run. simpl. intros Hrest Hne.
    destruct (IH _ Hrest Hne) as (ym' & ds' & Hin & Hd).
    exists ym', ds'. split; [right; done|done].
Qed.


Lemma for_each_app {S X} (xs ys : list X) (body : X -> M S unit) (s : S) :
  for_each (xs ++ ys) body s =
  match for_each xs body s with
  | (Return _, s') => for_each ys body s'
  | (Raise e, s') => (Raise e, s')
  end.
Proof.
  revert s. induction xs as [|x xs IH]; intros s; [done|].
  cbn [app for_each]. rewrite !bind_run.
  destruct (body x s) as [[[]|e] s1]; [apply IH|done].
Qed.

(** Iterating over what a prepare function returned: the loop goes
    through its results, and a generator that ends by raising raises
    then. *)
Lemma iterate_run {S R} (data : provided R) (body : R -> M S unit) (s : S) :
  iterate (none_to_empty data) body s
  = match for_each (results_of data) body s with
    | (Return _, s') =>
        (match ending_of data with Some e => Raise e | None => Return tt end, s')
    | (Raise e, s') => (Raise e, s')
    end.
Proof.
  destruct data as [[xs|]|yields [e|]]; simpl.
  - by destruct (for_each xs body s) as [[[]|e] s'].
  - done.
  - rewrite bind_run. by destruct (for_each yields body s) as [[[]|e'] s'].
  - rewrite bind_run. by destruct (for_each yields body s) as [[[]|e'] s'].
Qed.

(** A task of geodata in write mode, once its prepare function has
    returned: the write loop over the results, the error of a generator
    after it, and the handler on whatever is raised. *)
Lemma geodata_do_task_write (t : Geodata.task) (d : gmap yearmonth path)
    (data : provided (yearmonth * option dataset)) (fs : filesystem) :
  Geodata.datasetfns t = Some d ->
  Geodata.prepare_func t (Geodata.kwargs t) = Return data ->
  Geodata.cutout_do_task t true fs
  = match for_each (results_of data) (Geodata.write_result d) fs with
    | (Return _, fs') =>
        (match ending_of data with
         | Some e => Raise (reraised e)
         | None => Return None
         end, fs')
    | (Raise e, fs') => (Raise (reraised e), fs')
    end.
Proof.
  intros Hd Hp. unfold Geodata.cutout_do_task. rewrite Hd. mrun. rewrite Hp.
  rewrite iterate_run. unfold reraised.
  destruct (for_each (results_of data) (Geodata.write_result d) fs) as [[[]|e] fs'].
  - destruct (ending_of data) as [e|]; [|done]. by destruct (exn_args e).
  - by destruct (exn_args e).
Qed.

(** A task of atlite opens the source file it names, if it names one,
    and hands its contents to the prepare function. *)
Lemma atlite_source_run (t : Atlite.task) (fs : filesystem) :
  source_opens t fs ->
  (match Atlite.fn t with
   | Some (fn, engine) => ds ← open_dataset fn; mret (Some ds)
   | None => mret None
   end) fs = (Return (source_dataset t fs), fs).
Proof.
  intros Hopen. unfold source_opens, source_dataset in *.
  destruct (Atlite.fn t) as [[p engine]|]; [|done].
  destruct (Hopen ltac:(eauto)) as [ds0 Hds0]. cbn [mbind option_bind fst] in *.
  rewrite bind_run. unfold open_dataset. by rewrite Hds0.
Qed.

(** The same for atlite, once the source file of the task, if it names
    one, is open. *)
Lemma atlite_do_task_write (t : Atlite.task) (d : gmap (option yearmonth) path)
    (data : provided (option yearmonth * option dataset)) (fs : filesystem) :
  Atlite.datasetfns t = Some d -> source_opens t fs ->
  Atlite.prepare_func t (Atlite.kwargs t) (source_dataset t fs) = Return data ->
  Atlite.cutout_do_task t true fs
  = match for_each (results_of data) (Atlite.write_result d) fs with
    | (Return _, fs') =>
        (match ending_of data with
         | Some e => Raise (reraised e)
         | None => Return None
         end, fs')
    | (Raise e, fs') => (Raise (reraised e), fs')
    end.
Proof.
  intros Hd Hopen Hp. unfold Atlite.cutout_do_task. rewrite Hd.
  pose proof (atlite_source_run t fs Hopen) as Hsrc.
  rewrite !bind_run. cbn [mret M_ret]. unfold try_except.
  rewrite !bind_run, Hsrc. rewrite !bind_run. unfold call at 1.
  rewrite Hp. rewrite !bind_run, iterate_run. unfold reraised.
  destruct (for_each (results_of data) (Atlite.write_result d) fs) as [[[]|e] fs'].
  - destruct (ending_of data) as [e|]; [|done]. cbn. by destruct (exn_args e).
  - cbn. by destruct (exn_args e).
Qed.

Lemma results_of_skip_absent (data : provided (yearmonth * option dataset)) :
  results_of (skip_absent data) = filter has_dataset (results_of data)
  /\ ending_of (skip_absent data) = ending_of data.
Proof. by destruct data as [[xs|]|yields ending]. Qed.

(** C9, as the code has it.  In geodata a result whose dataset is [None]
    is skipped in write mode: the task behaves exactly as the task without
    those results (same outcome, same disk), and a file that the task
    creates or changes is the destination of a result that has a dataset.
    In atlite the loop has no such test: the first result without a
    dataset, once the results before it are written, raises
    [AttributeError].  Both hold for a prepare function that returns a list
    and for one that is a generator, and in atlite with or without a source
    file that the task opens first. *)
Theorem do_task_absent_dataset
    (t : Geodata.task) (data : provided (yearmonth * option dataset))
    (t' : Atlite.task) (d' : gmap (option yearmonth) path)
    (data' : provided (option yearmonth * option dataset))
    (pre post : list (option yearmonth * option dataset)) (ym' : option yearmonth)
    (fs fs1 : filesystem) :
  (Geodata.prepare_func t (Geodata.kwargs t) = Return data ->
   Geodata.cutout_do_task t true fs
   = Geodata.cutout_do_task (with_results t (skip_absent data)) true fs
   /\ forall r fs' p,
        Geodata.cutout_do_task t true fs = (r, fs') ->
        lookup_file p fs' <> lookup_file p fs ->
        exists d ym ds,
          Geodata.datasetfns t = Some d /\ (ym, Some ds) ∈ results_of data
          /\ d !! ym = Some p)
  /\ (Atlite.datasetfns t' = Some d' -> source_opens t' fs ->
      Atlite.prepare_func t' (Atlite.kwargs t') (source_dataset t' fs) = Return data' ->
      results_of data' = pre ++ (ym', None) :: post ->
      for_each pre (Atlite.write_result d') fs = (Return tt, fs1) ->
      Atlite.cutout_do_task t' true fs = (Raise NoneType_data_vars, fs1)).
Proof.
  split.
  - intros Hp. destruct (Geodata.datasetfns t) as [d|] eqn:Ed.
    + rewrite (geodata_do_task_write t d data fs Ed Hp).
      rewrite (geodata_do_task_write (with_results t (skip_absent data)) d
                 (skip_absent data) fs Ed eq_refl).
      destruct (results_of_skip_absent data) as [-> ->].
      rewrite <- write_loop_skips. split; [done|]. intros r fs' p.
      destruct (for_each (results_of data) (Geodata.write_result d) fs)
        as [[[]|e] fs2] eqn:Ew; intros [= <- <-] Hne;
        destruct (write_loop_frame _ _ _ _ _ p Ew Hne) as (ym & ds & ? & ?);
        by exists d, ym, ds.
    + unfold Geodata.cutout_do_task, with_results. cbn [Geodata.datasetfns].
      rewrite Ed. split; [done|]. intros r fs' p [= <- <-] Hne. done.
  - intros Hd Hopen Hp Hres Hpre.
    rewrite (atlite_do_task_write t' d' data' fs Hd Hopen Hp), Hres, for_each_app, Hpre.
    cbn [for_each]. rewrite bind_run. reflexivity.
Qed.

(** What a task raises when the call of its prepare function raises [e]:
    [e] itself, unless the [args] of [e] are empty; then reading
    [e.args[0]] for the log message raises an [IndexError] in its place. *)
Lemma geodata_do_task_provider_error (t : Geodata.task) (w : bool) (fs : filesystem)
    (e : exn) :
  Geodata.prepare_func t (Geodata.kwargs t) = Raise e ->
  (w = true -> is_Some (Geodata.datasetfns t)) ->
  Geodata.cutout_do_task t w fs
  = (Raise (match exn_args e with
            | [] => IndexError "tuple index out of range"
            | _ :: _ => e
            end), fs).
Proof.
  intros He Hd. unfold Geodata.cutout_do_task.
  destruct w.
  - destruct (Hd eq_refl) as [d ->]. mrun. rewrite He. by destruct (exn_args e).
  - mrun. rewrite He. by destruct (exn_args e).
Qed.

(** *** The single-period query *)

(** In query mode the task hands back what its prepare function returned
    ([None] as the empty list), and leaves the disk as it is. *)
Lemma geodata_do_task_query (t : Geodata.task) (fs : filesystem) :
  exists r, Geodata.cutout_do_task t false fs = (r, fs)
    /\ forall data, r = Return data ->
         exists odata, Geodata.prepare_func t (Geodata.kwargs t) = Return odata
           /\ data = Some (none_to_empty odata).
Proof.
  unfold Geodata.cutout_do_task. rewrite bind_run. cbn [mret M_ret].
  unfold try_except. rewrite bind_run. unfold call.
  destruct (Geodata.prepare_func t (Geodata.kwargs t)) as [odata|e].
  - eexists. split; [reflexivity|]. intros data [= <-]. eauto.
  - destruct (exn_args e); (eexists; split; [reflexivity|]); intros ? [=].
Qed.

(** In query mode a task of atlite hands back what its prepare function
    returned. *)
Lemma atlite_do_task_query (t : Atlite.task)
    (data : provided (option yearmonth * option dataset)) (fs : filesystem) :
  source_opens t fs ->
  Atlite.prepare_func t (Atlite.kwargs t) (source_dataset t fs) = Return data ->
  Atlite.cutout_do_task t false fs = (Return (Some (none_to_empty data)), fs).
Proof.
  intros Hopen Hp. unfold Atlite.cutout_do_task.
  pose proof (atlite_source_run t fs Hopen) as Hsrc.
  rewrite !bind_run. cbn [mret M_ret]. unfold try_except.
  rewrite !bind_run, Hsrc. rewrite !bind_run. unfold call at 1. by rewrite Hp.
Qed.

(** C5, as the code has it.  The single-period query raises
    [AssertionError] (the code's invariant check) whenever the
    task-generation function of the series returns a number of tasks other
    than one, and whenever the one task hands back a sequence that is not
    exactly one result for the requested period.  A task whose prepare
    function is a generator hands the generator back as it is, and the
    query raises the [TypeError] of [len(data)], whatever the generator
    would yield.  This holds in geodata and in atlite. *)
Theorem produce_specific_dataseries_asserts
    (c : Geodata.cutout) (series : Geodata.series) (tasks : list Geodata.task)
    (c' : Atlite.cutout) (series' : Atlite.series) (tasks' : list Atlite.task)
    (yearmonth : yearmonth) (series_name : string) (fs : filesystem) :
  (getitem series_name (Geodata.weather_data_config c) = Some series ->
   Geodata.tasks_func series [yearmonth] = Return tasks ->
   (length tasks <> 1%nat ->
    Geodata.cutout_produce_specific_dataseries c yearmonth series_name fs
    = (Raise AssertionError, fs))
   /\ (forall t data fs',
         tasks = [t] ->
         Geodata.cutout_do_task t false fs = (Return (Some (Eager (Some data))), fs') ->
         (forall ds, data <> [(yearmonth, ds)]) ->
         Geodata.cutout_produce_specific_dataseries c yearmonth series_name fs
         = (Raise AssertionError, fs'))
   /\ (forall t yields ending,
         tasks = [t] ->
         Geodata.prepare_func t (Geodata.kwargs t) = Return (Generator yields ending) ->
         Geodata.cutout_produce_specific_dataseries c yearmonth series_name fs
         = (Raise generator_has_no_len, fs)))
  /\ (getitem series_name (Atlite.weather_data_config c') = Some series' ->
      Atlite.tasks_func series' [yearmonth] = Return tasks' ->
      (length tasks' <> 1%nat ->
       Atlite.cutout_produce_specific_dataseries c' yearmonth series_name fs
       = (Raise AssertionError, fs))
      /\ (forall t data fs',
            tasks' = [t] ->
            Atlite.cutout_do_task t false fs = (Return (Some (Eager (Some data))), fs') ->
            (forall ds, data <> [(Some yearmonth, ds)]) ->
            Atlite.cutout_produce_specific_dataseries c' yearmonth series_name fs
            = (Raise AssertionError, fs'))
      /\ (forall t yields ending,
            tasks' = [t] -> source_opens t fs ->
            Atlite.prepare_func t (Atlite.kwargs t) (source_dataset t fs)
            = Return (Generator yields ending) ->
            Atlite.cutout_produce_specific_dataseries c' yearmonth series_name fs
            = (Raise generator_has_no_len, fs))).
Proof.
  split.
  - intros Hs Ht. unfold Geodata.cutout_produce_specific_dataseries.
    rewrite Hs. mrun. rewrite Ht. mrun. split; [|split].
    + intros Hlen. destruct tasks as [|t [|t2 tasks]]; done.
    + intros t data fs' -> Hd Hne. rewrite Hd.
      destruct data as [|[ym ds] [|r2 data]]; [done| |done].
      case_bool_decide as Hym; [|done]. subst ym. by destruct (Hne ds).
    + intros t yields ending -> Hp. unfold Geodata.cutout_do_task. mrun. by rewrite Hp.
  - intros Hs Ht. unfold Atlite.cutout_produce_specific_dataseries.
    rewrite Hs. mrun. rewrite Ht. mrun. split; [|split].
    + intros Hlen. destruct tasks' as [|t [|t2 tasks']]; done.
    + intros t data fs' -> Hd Hne. rewrite Hd.
      destruct data as [|[ym ds] [|r2 data]]; [done| |done].
      case_bool_decide as Hym; [|done]. subst ym. by destruct (Hne ds).
    + intros t yields ending -> Hopen Hp.
      by rewrite (atlite_do_task_query t _ fs Hopen Hp).
Qed.

(** C6: the single-period query never changes the disk, and when it
    returns, the dataset it returns is the one result of the one task of
    the series, whose period is the requested one. *)
Theorem produce_specific_dataseries_result
    (c : Geodata.cutout) (yearmonth : yearmonth) (series_name : string)
    (fs fs' : filesystem) (r : result (option dataset)) :
  Geodata.cutout_produce_specific_dataseries c yearmonth series_name fs = (r, fs') ->
  fs' = fs
  /\ forall ds, r = Return ds ->
       exists series t,
         getitem series_name (Geodata.weather_data_config c) = Some series
         /\ Geodata.tasks_func series [yearmonth] = Return [t]
         /\ Geodata.prepare_func t (Geodata.kwargs t)
            = Return (Eager (Some [(yearmonth, ds)])).
Proof.
  unfold Geodata.cutout_produce_specific_dataseries.
  destruct (getitem series_name _) as [series|]; mrun; [|by intros [= <- <-]].
  destruct (Geodata.tasks_func series [yearmonth]) as [tasks|e] eqn:Et;
    [|by intros [= <- <-]].
  destruct tasks as [|t [|t2 tasks]]; [by intros [= <- <-]| |by intros [= <- <-]].
  destruct (geodata_do_task_query t fs) as (rt & -> & Hrt).
  destruct rt as [data|e]; [|by intros [= <- <-]].
  destruct (Hrt _ eq_refl) as (odata & Hp & ->).
  destruct odata as [[[|[ym ds] [|r2 data]]|]|yields ending]; try by intros [= <- <-].
  cbn [none_to_empty].
  case_bool_decide as Hym; [|by intros [= <- <-]].
  intros [= <- <-]. split; [done|]. intros ds' [= <-]. subst ym.
  exists series, t. done.
Qed.

(** *** Running computations backwards *)

Lemma bind_inv {S A B} (m : M S A) (f : A -> M S B) (s s' : S) (r : result B) :
  (m ≫= f) s = (r, s') ->
  (exists a s1, m s = (Return a, s1) /\ f a s1 = (r, s'))
  \/ (exists e, m s = (Raise e, s') /\ r = Raise e).
Proof.
  rewrite bind_run. destruct (m s) as [[a|e] s1].
  - intros Hf. left. eauto.
  - intros [= <- <-]. right. eauto.
Qed.

Lemma bind_inv_return {S A B} (m : M S A) (f : A -> M S B) (s s' : S) (b : B) :
  (m ≫= f) s = (Return b, s') ->
  exists a s1, m s = (Return a, s1) /\ f a s1 = (Return b, s').
Proof.
  intros Hb. apply bind_inv in Hb as [(a & s1 & ? & ?)|(e & _ & [=])]. eauto.
Qed.

Lemma on_fs_inv {A} (m : M filesystem A) (st st' : cutout_state) (r : result A) :
  on_fs m st = (r, st') ->
  m (st_fs st) = (r, st_fs st') /\ prepared st' = prepared st /\ meta st' = meta st.
Proof.
  unfold on_fs. destruct (m (st_fs st)) as [r1 fs1]. intros [= <- <-]. done.
Qed.

Lemma on_fs_run {A} (m : M filesystem A) (st : cutout_state) (r : result A) (fs' : filesystem) :
  m (st_fs st) = (r, fs') ->
  on_fs m st = (r, CutoutState fs' (prepared st) (meta st)).
Proof. unfold on_fs. intros ->. done. Qed.

Section respects.
Context (R : relation filesystem) `{!PreOrder R}.

Lemma respects_pure {A} (r : result A) : respects R (fun fs => (r, fs)).
Proof. intros fs r' fs' [= <- <-]. reflexivity. Qed.

Lemma respects_bind {A B} (m : M filesystem A) (f : A -> M filesystem B) :
  respects R m -> (forall a, respects R (f a)) -> respects R (m ≫= f).
Proof.
  intros Hm Hf fs r fs' Hb.
  apply bind_inv in Hb as [(a & fs1 & H1 & H2)|(e & H1 & _)].
  - transitivity fs1; [eapply Hm, H1|eapply Hf, H2].
  - eapply Hm, H1.
Qed.

Lemma respects_for_each {X} (xs : list X) (body : X -> M filesystem unit) :
  (forall x, x ∈ xs -> respects R (body x)) -> respects R (for_each xs body).
Proof.
  induction xs as [|x xs IH]; intros Hb; [apply respects_pure|].
  cbn [for_each]. apply respects_bind; [apply Hb; left|].
  intros _. apply IH. intros y Hy. apply Hb. by right.
Qed.

Lemma respects_iterate {X} (data : provided X) (body : X -> M filesystem unit) :
  (forall x, respects R (body x)) -> respects R (iterate data body).
Proof.
  intros Hb. destruct data as [[xs|]|yields ending]; cbn [iterate].
  - apply respects_for_each. auto.
  - apply respects_pure.
  - apply respects_bind; [apply respects_for_each; auto|].
    intros _. destruct ending; apply respects_pure.
Qed.

Lemma respects_try_except {A} (body : M filesystem A) (handler : exn -> M filesystem A) :
  respects R body -> (forall e, respects R (handler e)) ->
  respects R (try_except body handler).
Proof.
  intros Hb Hh fs r fs'. unfold try_except.
  destruct (body fs) as [[a|e] fs1] eqn:Eb.
  - intros [= <- <-]. eapply Hb, Eb.
  - intros Hr. transitivity fs1; [eapply Hb, Eb|eapply Hh, Hr].
Qed.

Lemma respects_map_each {X Y} (f : X -> M filesystem Y) (xs : list X) :
  (forall x, x ∈ xs -> respects R (f x)) -> respects R (map_each f xs).
Proof.
  induction xs as [|x xs IH]; intros Hf; [apply respects_pure|].
  cbn [map_each]. apply respects_bind; [apply Hf; left|]. intros y.
  apply respects_bind; [|intros ys; apply respects_pure].
  apply IH. intros z Hz. apply Hf. by right.
Qed.

Lemma respects_open_dataset (fn : path) : respects R (open_dataset fn).
Proof.
  intros fs r fs'. unfold open_dataset.
  destruct (lookup_file fn fs); intros [= <- <-]; reflexivity.
Qed.

(** A task respects [R] as soon as writing a dataset to one of its
    destinations does. *)
Lemma geodata_write_result_respects (d : gmap yearmonth path)
    (r : yearmonth * option dataset) :
  (forall ym fn ds, d !! ym = Some fn -> respects R (to_netcdf ds fn)) ->
  respects R (Geodata.write_result d r).
Proof.
  intros Hw. destruct r as [ym [ds|]]; [|apply respects_pure].
  cbn [Geodata.write_result]. destruct (d !! ym) as [fn|] eqn:Ef.
  - intros fs r fs' Hr. exact (Hw _ _ _ Ef fs r fs' Hr).
  - intros fs r fs' [= <- <-]. reflexivity.
Qed.

Lemma respects_bind_ret {A B} (a : A) (f : A -> M filesystem B) :
  respects R (f a) -> respects R (mret a ≫= f).
Proof. intros Hf fs r fs' Hr. exact (Hf fs r fs' Hr). Qed.

Lemma respects_bind_raise {A B} (e : exn) (f : A -> M filesystem B) :
  respects R (raise e ≫= f).
Proof. intros fs r fs' [= <- <-]. reflexivity. Qed.

Lemma geodata_do_task_respects (t : Geodata.task) (w : bool) :
  (forall d ym fn ds, Geodata.datasetfns t = Some d -> d !! ym = Some fn ->
                      respects R (to_netcdf ds fn)) ->
  respects R (Geodata.cutout_do_task t w).
Proof.
  intros Hw. unfold Geodata.cutout_do_task. destruct w.
  - destruct (Geodata.datasetfns t) as [d|] eqn:Ed; [|apply respects_bind_raise].
    apply respects_bind_ret. apply respects_try_except.
    + apply respects_bind; [apply respects_pure|]. intros data.
      apply respects_bind; [|intros; apply respects_pure].
      apply respects_iterate. intros r.
      apply geodata_write_result_respects. intros ym fn ds Hf.
      exact (Hw _ _ _ _ eq_refl Hf).
    + intros e. destruct (exn_args e); apply respects_pure.
  - apply respects_bind_ret. apply respects_try_except.
    + apply respects_bind; [apply respects_pure|]. intros data.
      apply respects_pure.
    + intros e. destruct (exn_args e); apply respects_pure.
Qed.

Lemma atlite_write_result_respects (d : gmap (option yearmonth) path)
    (r : option yearmonth * option dataset) :
  (forall ym fn var ds, d !! ym = Some fn ->
                        respects R (to_netcdf ds (Atlite.var_path fn var))) ->
  respects R (Atlite.write_result d r).
Proof.
  intros Hw. destruct r as [ym [ds|]]; [|apply respects_pure].
  cbn [Atlite.write_result].
  apply respects_bind; [apply respects_pure|]. intros var.
  destruct (d !! ym) as [fn|] eqn:Ef.
  - apply respects_bind_ret. exact (Hw _ _ _ _ Ef).
  - apply respects_bind_raise.
Qed.

Lemma atlite_do_task_respects (t : Atlite.task) (w : bool) :
  (forall d ym fn var ds, Atlite.datasetfns t = Some d -> d !! ym = Some fn ->
                          respects R (to_netcdf ds (Atlite.var_path fn var))) ->
  respects R (Atlite.cutout_do_task t w).
Proof.
  intros Hw. unfold Atlite.cutout_do_task.
  assert (respects R (match Atlite.fn t with
                    | Some (fn, engine) => ds ← open_dataset fn; mret (Some ds)
                    | None => mret None
                    end)) as Hopen.
  { destruct (Atlite.fn t) as [[fn engine]|]; [|apply respects_pure].
    apply respects_bind; [apply respects_open_dataset|intros; apply respects_pure]. }
  destruct w.
  - destruct (Atlite.datasetfns t) as [d|] eqn:Ed; [|apply respects_bind_raise].
    apply respects_bind_ret.
    apply respects_bind; [|intros; apply respects_pure].
    apply respects_try_except.
    + apply respects_bind; [apply Hopen|]. intros ods.
      apply respects_bind; [apply respects_pure|]. intros data.
      apply respects_bind; [|intros; apply respects_pure].
      apply respects_iterate. intros r.
      apply atlite_write_result_respects. intros ym fn var ds Hf.
      exact (Hw _ _ _ _ _ eq_refl Hf).
    + intros e. destruct (exn_args e); apply respects_pure.
  - apply respects_bind_ret.
    apply respects_bind; [|intros; apply respects_pure].
    apply respects_try_except.
    + apply respects_bind; [apply Hopen|]. intros ods.
      apply respects_bind; [apply respects_pure|]. intros data.
      apply respects_bind; [|intros; apply respects_pure]. apply respects_pure.
    + intros e. destruct (exn_args e); apply respects_pure.
Qed.
End respects.

Global Instance same_dirs_preorder : PreOrder same_dirs.
Proof.
  split.
  - intros fs. reflexivity.
  - intros fs1 fs2 fs3 H12 H23. unfold same_dirs in *. congruence.
Qed.

Lemma to_netcdf_same_dirs (ds : dataset) (fn : path) :
  respects same_dirs (to_netcdf ds fn).
Proof.
  intros fs r fs'. unfold to_netcdf, same_dirs.
  destruct (fs !! p_dir fn) as [d|] eqn:Ed; intros [= <- <-]; [|done].
  rewrite dom_insert_L. apply subseteq_union_1_L, singleton_subseteq_l.
  apply elem_of_dom. eauto.
Qed.

Lemma geodata_pool_same_dirs (tasks : list Geodata.task) (fs fs' : filesystem)
    (r : result (list (option (provided (yearmonth * option dataset))))) :
  pool_map (fun t => Geodata.cutout_do_task t true) tasks fs = (r, fs') ->
  dom fs' = dom fs.
Proof.
  unfold pool_map. apply (respects_map_each same_dirs). intros t _.
  apply geodata_do_task_respects; [apply _|]. intros. apply to_netcdf_same_dirs.
Qed.

Lemma atlite_pool_same_dirs (tasks : list Atlite.task) (fs fs' : filesystem)
    (r : result (list (option (provided (option yearmonth * option dataset))))) :
  pool_map (fun t => Atlite.cutout_do_task t true) tasks fs = (r, fs') ->
  dom fs' = dom fs.
Proof.
  unfold pool_map. apply (respects_map_each same_dirs). intros t _.
  apply atlite_do_task_respects; [apply _|]. intros. apply to_netcdf_same_dirs.
Qed.

(** *** The orchestrator up to the worker pool *)

Lemma geodata_prepare_directory_spec (c : Geodata.cutout) (np : option Z) (gh : bool)
    (st st1 : cutout_state) (tasks : list Geodata.task) :
  Geodata.prepare_directory_and_tasks c np gh st = (Return tasks, st1) ->
  st_fs st1 = <[Geodata.cutout_dir c :=
                 {[Geodata.datasetfn_name c None := Geodata.meta_clean c (meta st1)]}]>
              (st_fs st)
  /\ prepared st1 = prepared st
  /\ exists series tasks0,
       getitem (Geodata.config c) (Geodata.weather_data_config c) = Some series
       /\ Geodata.tasks_func series (Geodata.yearmonths c) = Return tasks0
       /\ tasks = imap (fun i t =>
                          Geodata.set_datasetfns
                            (list_to_map ((fun ym => (ym, Geodata.datasetfn_with_id c i ym))
                                            <$> Geodata.yearmonths c)) t) tasks0.
Proof.
  unfold Geodata.prepare_directory_and_tasks, Geodata.collect_tasks, Pool,
    on_fs, isdir, rmtree, mkdir, to_netcdf, get_meta, set_meta, Geodata.datasetfn.
  mrun. cbn [st_fs prepared meta p_dir p_name].
  assert (forall (fs : filesystem) dir (x : gmap string dataset),
            <[dir := x]> (<[dir := ∅]> (delete dir fs)) = <[dir := x]> fs) as Hins.
  { intros fs dir x. by rewrite insert_insert_eq, insert_delete_eq. }
  assert (forall (fs : filesystem) dir (x : gmap string dataset),
            fs !! dir = None -> <[dir := x]> (<[dir := ∅]> fs) = <[dir := x]> fs) as Hins'.
  { intros fs dir x _. by rewrite insert_insert_eq. }
  destruct gh; [destruct (Geodata.gebco c) as [h|e]; [|intros [=]]|];
    cbn [st_fs prepared meta];
    (destruct (st_fs st !! Geodata.cutout_dir c) eqn:Ed;
     [rewrite bool_decide_true by eauto
     |rewrite bool_decide_false by (intros [? ?]; congruence)];
     cbn [st_fs prepared meta]; rewrite ?Ed; cbn [st_fs prepared meta];
     rewrite ?lookup_delete_eq; cbn [st_fs prepared meta];
     rewrite ?lookup_insert_eq; cbn [st_fs prepared meta];
     (destruct (getitem _ _) as [series|]; [|intros [=]]);
     (destruct (Geodata.tasks_func series _) as [tasks0|e] eqn:Et; [|intros [=]]);
     (destruct np as [n|]; [destruct (n <? 1); [intros [=]|]|]);
     intros [= <- <-]; cbn [st_fs prepared meta];
     (split; [first [apply Hins | by apply Hins']|]);
     (split; [done|]); exists series, tasks0; done).
Qed.

Lemma atlite_collect_series_state (yms : list yearmonth)
    (config : list (string * Atlite.series)) (s s' : cutout_state)
    (r : result (list Atlite.task)) :
  Atlite.collect_series_tasks yms config s = (r, s') -> s' = s.
Proof.
  revert r s'. induction config as [|[k sr] config IH]; intros r s'.
  - by intros [= <- <-].
  - cbn [Atlite.collect_series_tasks]. mrun.
    destruct (Atlite.tasks_func sr yms); [|by intros [= <- <-]].
    destruct (Atlite.collect_series_tasks yms config s) as [r1 s1].
    specialize (IH _ _ eq_refl). subst s1. by destruct r1; intros [= <- <-].
Qed.

Lemma atlite_collect_tasks_state (c : Atlite.cutout) (s s' : cutout_state)
    (r : result (list Atlite.task)) :
  Atlite.collect_tasks c s = (r, s') -> s' = s.
Proof.
  unfold Atlite.collect_tasks. mrun.
  destruct (Atlite.collect_series_tasks _ _ s) as [[?|?] s1] eqn:El;
    apply atlite_collect_series_state in El; by intros [= <- <-].
Qed.

Lemma atlite_prepare_directory_spec (c : Atlite.cutout)
    (st st1 : cutout_state) (tasks : list Atlite.task) :
  Atlite.prepare_directory_and_tasks c st = (Return tasks, st1) ->
  st_fs st1 = <[Atlite.cutout_dir c := ∅]> (st_fs st)
  /\ prepared st1 = prepared st /\ meta st1 = meta st.
Proof.
  unfold Atlite.prepare_directory_and_tasks, Pool, on_fs, isdir, rmtree, mkdir.
  mrun. cbn [st_fs prepared meta].
  destruct (st_fs st !! Atlite.cutout_dir c) eqn:Ed;
    [rewrite bool_decide_true by eauto
    |rewrite bool_decide_false by (intros [? ?]; congruence)];
    cbn [st_fs prepared meta]; rewrite ?Ed; cbn [st_fs prepared meta];
    rewrite ?lookup_delete_eq; cbn [st_fs prepared meta];
    (destruct (Atlite.collect_tasks c _) as [[tasks0|e] st2] eqn:Ec; [|intros [=]]);
    apply atlite_collect_tasks_state in Ec; subst st2;
    (destruct (Atlite.nprocesses c) as [n|]; [destruct (n <? 1); [intros [=]|]|]);
    intros [= <- <-]; cbn [st_fs prepared meta]; rewrite ?insert_delete_eq; done.
Qed.

(** C2, as the code has it.  On a cutout that is marked prepared and
    with [overwrite=False], neither package touches the disk or the
    cutout; geodata logs and returns [True] without raising, atlite raises
    (a [NameError], since the [ArgumentError] it names is not defined). *)
Theorem prepare_already_prepared `{XArray}
    (c : Geodata.cutout) (nprocesses : option Z) (gebco_height : bool)
    (c' : Atlite.cutout) (st : cutout_state) :
  prepared st = true ->
  Geodata.cutout_prepare c false nprocesses gebco_height st = (Return (Some true), st)
  /\ Atlite.cutout_prepare c' false st = (Raise (NameError "ArgumentError"), st).
Proof.
  intros Hp. unfold Geodata.cutout_prepare, Atlite.cutout_prepare, get_prepared.
  mrun. rewrite Hp. done.
Qed.

(** C1: when the orchestrator has set the directory up and collected the
    tasks, and running the tasks raises [e], then [cutout_prepare] raises
    that same [e], the archive directory is gone with everything in it, and
    the cutout is not marked prepared by the call.  This holds in geodata
    and in atlite. *)
Theorem prepare_task_failure_purges `{XArray}
    (c : Geodata.cutout) (nprocesses : option Z) (gebco_height : bool)
    (tasks : list Geodata.task)
    (c' : Atlite.cutout) (tasks' : list Atlite.task)
    (overwrite : bool) (st st1 : cutout_state) (e : exn) (fs2 : filesystem) :
  prepared st && negb overwrite = false ->
  (Geodata.prepare_directory_and_tasks c nprocesses gebco_height st = (Return tasks, st1) ->
   pool_map (fun t => Geodata.cutout_do_task t true) tasks (st_fs st1) = (Raise e, fs2) ->
   exists st3,
     Geodata.cutout_prepare c overwrite nprocesses gebco_height st = (Raise e, st3)
     /\ st_fs st3 = delete (Geodata.cutout_dir c) fs2
     /\ st_fs st3 !! Geodata.cutout_dir c = None
     /\ (forall p, p_dir p = Geodata.cutout_dir c -> lookup_file p (st_fs st3) = None)
     /\ prepared st3 = prepared st)
  /\ (Atlite.prepare_directory_and_tasks c' st = (Return tasks', st1) ->
      pool_map (fun t => Atlite.cutout_do_task t true) tasks' (st_fs st1) = (Raise e, fs2) ->
      exists st3,
        Atlite.cutout_prepare c' overwrite st = (Raise e, st3)
        /\ st_fs st3 = delete (Atlite.cutout_dir c') fs2
        /\ st_fs st3 !! Atlite.cutout_dir c' = None
        /\ (forall p, p_dir p = Atlite.cutout_dir c' -> lookup_file p (st_fs st3) = None)
        /\ prepared st3 = prepared st).
Proof.
  intros Hgo. split.
  - intros Hprep Hpool.
    destruct (geodata_prepare_directory_spec _ _ _ _ _ _ Hprep) as (Hfs & Hpr & _).
    assert (is_Some (fs2 !! Geodata.cutout_dir c)) as [d Hd].
    { apply (elem_of_dom (D := gset string)).
      rewrite (geodata_pool_same_dirs _ _ _ _ Hpool), Hfs, dom_insert_L.
      apply elem_of_union_l, elem_of_singleton. done. }
    unfold Geodata.cutout_prepare, get_prepared. mrun. rewrite Hgo, Hprep.
    unfold Geodata.run_tasks, on_fs. mrun. rewrite Hpool. cbn [st_fs].
    unfold rmtree. rewrite Hd. eexists. split; [reflexivity|].
    cbn [st_fs prepared]. split; [done|]. split; [apply lookup_delete_eq|].
    split; [|done]. intros p Hp. unfold lookup_file. by rewrite Hp, lookup_delete_eq.
  - intros Hprep Hpool.
    destruct (atlite_prepare_directory_spec _ _ _ _ Hprep) as (Hfs & Hpr & _).
    assert (is_Some (fs2 !! Atlite.cutout_dir c')) as [d Hd].
    { apply (elem_of_dom (D := gset string)).
      rewrite (atlite_pool_same_dirs _ _ _ _ Hpool), Hfs, dom_insert_L.
      apply elem_of_union_l, elem_of_singleton. done. }
    unfold Atlite.cutout_prepare, get_prepared. mrun. rewrite Hgo, Hprep.
    unfold Atlite.run_tasks, on_fs. mrun. rewrite Hpool. cbn [st_fs].
    unfold rmtree. rewrite Hd. eexists. split; [reflexivity|].
    cbn [st_fs prepared]. split; [done|]. split; [apply lookup_delete_eq|].
    split; [|done]. intros p Hp. unfold lookup_file. by rewrite Hp, lookup_delete_eq.
Qed.

(** *** The archive directory during a run *)

Global Instance dir_grows_within_preorder dir W : PreOrder (dir_grows_within dir W).
Proof.
  split.
  - intros fs d Hd. exists d. split; [done|]. split; [done|]. intros n Hn. by left.
  - intros fs1 fs2 fs3 H12 H23 d1 Hd1.
    destruct (H12 _ Hd1) as (d2 & Hd2 & Hs12 & Hw12).
    destruct (H23 _ Hd2) as (d3 & Hd3 & Hs23 & Hw23).
    exists d3. split; [done|]. split; [by transitivity (dom d2)|].
    intros n Hn. destruct (Hw23 _ Hn) as [Hn2|?]; [|by right]. by apply Hw12.
Qed.

Lemma to_netcdf_grows_within (dir : string) (W : string -> Prop) (ds : dataset) (fn : path) :
  (p_dir fn = dir -> W (p_name fn)) ->
  respects (dir_grows_within dir W) (to_netcdf ds fn).
Proof.
  intros HW fs r fs'. unfold to_netcdf.
  destruct (fs !! p_dir fn) as [d0|] eqn:Ed; intros [= <- <-]; [|reflexivity].
  intros d Hd. destruct (decide (p_dir fn = dir)) as [Heq|Hne].
  - rewrite Heq in *. rewrite Hd in Ed. injection Ed as <-.
    exists (<[p_name fn := ds]> d). rewrite lookup_insert_eq. split; [done|].
    rewrite dom_insert_L. split; [apply union_subseteq_r|].
    intros n [Hn%elem_of_singleton| Hn]%elem_of_union; [right|by left].
    subst n. by apply HW.
  - exists d. rewrite lookup_insert_ne by done. split; [done|]. split; [done|].
    intros n Hn. by left.
Qed.

Lemma datasetfn_with_id_dir (c : Geodata.cutout) (i : nat) (ym : yearmonth) :
  p_dir (Geodata.datasetfn_with_id c i ym) = Geodata.cutout_dir c.
Proof.
  unfold Geodata.datasetfn_with_id. cbn [Geodata.datasetfn p_dir p_name].
  by destruct (splitext _).
Qed.

Lemma lookup_datasetfns (c : Geodata.cutout) (i : nat) (ym : yearmonth) (fn : path) :
  (list_to_map ((fun ym => (ym, Geodata.datasetfn_with_id c i ym))
                  <$> Geodata.yearmonths c) : gmap yearmonth path) !! ym = Some fn ->
  ym ∈ Geodata.yearmonths c /\ fn = Geodata.datasetfn_with_id c i ym.
Proof.
  intros Hl. apply elem_of_list_to_map_2 in Hl.
  apply list_elem_of_fmap in Hl as (ym' & [= -> ->] & Hin). done.
Qed.

Lemma geodata_pool_writes_staging (c : Geodata.cutout) (tasks0 : list Geodata.task)
    (fs fs' : filesystem) (r : result (list (option (provided (yearmonth * option dataset))))) :
  Geodata.task_count c = length tasks0 ->
  pool_map (fun t => Geodata.cutout_do_task t true)
    (imap (fun i t =>
             Geodata.set_datasetfns
               (list_to_map ((fun ym => (ym, Geodata.datasetfn_with_id c i ym))
                               <$> Geodata.yearmonths c)) t) tasks0) fs = (r, fs') ->
  dir_grows_within (Geodata.cutout_dir c) (is_staging c) fs fs'.
Proof.
  intros Hn. unfold pool_map. apply (respects_map_each (dir_grows_within _ _)).
  intros t (i & t0 & -> & Hi)%elem_of_lookup_imap.
  apply geodata_do_task_respects; [apply _|].
  intros d ym fn ds [= <-] Hl. apply lookup_datasetfns in Hl as [Hin ->].
  apply to_netcdf_grows_within. intros _. exists i, ym.
  split; [|done]. rewrite Hn. by eapply lookup_lt_Some.
Qed.

(** *** The merge loop *)

(** What [naming_ok] checks, as propositions. *)
Lemma naming_ok_spec (c : Geodata.cutout) (ym : yearmonth) :
  Geodata.naming_ok c = true -> ym ∈ Geodata.yearmonths c ->
  Geodata.final_name c ym <> Geodata.meta_name c
  /\ glob_match (Geodata.staging_pattern c ym) (Geodata.meta_name c) = false
  /\ forall ym', ym' ∈ Geodata.yearmonths c ->
       glob_match (Geodata.staging_pattern c ym) (Geodata.final_name c ym') = false
       /\ (Geodata.final_name c ym = Geodata.final_name c ym' -> ym = ym')
       /\ forall i, (i < Geodata.task_count c)%nat ->
            (glob_match (Geodata.staging_pattern c ym) (Geodata.staging_name c i ym') = true
             <-> ym = ym').
Proof.
  unfold Geodata.naming_ok. rewrite forallb_forall. intros Hok Hin.
  apply list_elem_of_In, Hok in Hin.
  rewrite !andb_true_iff, !negb_true_iff, forallb_forall in Hin.
  destruct Hin as ((((_ & _) & Hfm) & Hpm) & Hall).
  split; [by apply String.eqb_neq|]. split; [done|].
  intros ym' Hin'. apply list_elem_of_In, Hall in Hin'.
  rewrite !andb_true_iff, negb_true_iff, orb_true_iff, forallb_forall in Hin'.
  destruct Hin' as ((Hpf & Hinj) & Hst). split; [done|]. split.
  - intros Heq. destruct Hinj as [Hd|Hne]; [by apply bool_decide_eq_true in Hd|].
    apply negb_true_iff, String.eqb_neq in Hne. done.
  - intros i Hi. specialize (Hst i). rewrite in_seq in Hst.
    specialize (Hst ltac:(lia)). apply Bool.eqb_prop in Hst. rewrite Hst.
    apply bool_decide_eq_true.
Qed.

Lemma filter_none {X} (P : X -> Prop) `{forall x, Decision (P x)} (l : list X) :
  (forall x, x ∈ l -> ~ P x) -> filter P l = [].
Proof.
  induction l as [|x l IH]; intros Hl; [done|].
  rewrite filter_cons_False by (apply Hl; left).
  apply IH. intros y Hy. apply Hl. by right.
Qed.

Lemma glob_run (dir pattern : string) (fs : filesystem) (d : gmap string dataset) :
  fs !! dir = Some d ->
  glob dir pattern fs
  = (Return (Path dir <$> filter (fun n => glob_match pattern n = true)
                                 (elements (dom d))), fs).
Proof. unfold glob. by intros ->. Qed.

Lemma elem_of_glob_names (pattern n : string) (d : gmap string dataset) :
  n ∈ filter (fun n => glob_match pattern n = true) (elements (dom d))
  <-> n ∈ dom d /\ glob_match pattern n = true.
Proof. rewrite list_elem_of_filter, elem_of_elements. tauto. Qed.

Lemma merge_inv_step (c : Geodata.cutout) (done_ : list yearmonth) (ym : yearmonth)
    (d d' : gmap string dataset) :
  Geodata.naming_ok c = true -> ym ∈ Geodata.yearmonths c ->
  (forall ym', ym' ∈ done_ -> ym' ∈ Geodata.yearmonths c) ->
  merge_inv c done_ d ->
  dom d' = ({[Geodata.final_name c ym]} ∪ dom d)
           ∖ list_to_set (filter (fun n => glob_match (Geodata.staging_pattern c ym) n = true)
                                 (elements (dom d))) ->
  merge_inv c (ym :: done_) d'.
Proof.
  intros Hok Hin Hdone (Hmeta & Hfin & Hall) Hdom.
  destruct (naming_ok_spec c ym Hok Hin) as (Hfm & Hpm & Hnames).
  assert (forall n, n ∈ dom d' <->
            (n = Geodata.final_name c ym \/ n ∈ dom d)
            /\ ~ (n ∈ dom d /\ glob_match (Geodata.staging_pattern c ym) n = true)) as Hd'.
  { intros n. rewrite Hdom, elem_of_difference, elem_of_union, elem_of_singleton,
      elem_of_list_to_set, elem_of_glob_names. tauto. }
  split; [|split].
  - apply Hd'. split; [by right|]. intros [_ Hm]. congruence.
  - intros ym' [->|Hin']%elem_of_cons; apply Hd'.
    + split; [by left|]. intros [_ Hm].
      destruct (Hnames ym Hin) as (Hpf & _). congruence.
    + split; [right; by apply Hfin|]. intros [_ Hm].
      destruct (Hnames ym' (Hdone _ Hin')) as (Hpf & _). congruence.
  - intros n [[->|Hn] Hnot]%Hd'.
    + right; left. exists ym. split; [left|done].
    + destruct (Hall n Hn) as [->|[(ym' & Hin' & ->)|(i & ym' & Hi & Hin' & Hnd & ->)]].
      * by left.
      * right; left. exists ym'. split; [by right|done].
      * right; right. exists i, ym'. split; [done|]. split; [done|]. split; [|done].
        intros [Heq|?]%elem_of_cons; [|done]. subst ym'. apply Hnot.
        split; [done|]. by apply (Hnames ym Hin).
Qed.

Lemma unlink_loop_dom (dir : string) (names : list string) (st st' : cutout_state)
    (d : gmap string dataset) :
  st_fs st !! dir = Some d ->
  for_each (Path dir <$> names) (fun tfn => on_fs (unlink tfn)) st = (Return tt, st') ->
  exists d', st_fs st' !! dir = Some d' /\ dom d' = dom d ∖ list_to_set names
             /\ prepared st' = prepared st /\ meta st' = meta st.
Proof.
  revert st d. induction names as [|n names IH]; intros st d Hd.
  - intros [= <-]. exists d. split; [done|]. split; [|done].
    rewrite list_to_set_nil. by rewrite difference_empty_L.
  - cbn [fmap list_fmap for_each]. intros Hrun.
    apply bind_inv_return in Hrun as ([] & st1 & Hu & Hrest).
    apply on_fs_inv in Hu as (Hu & Hp1 & Hm1).
    unfold unlink, lookup_file in Hu. cbn [p_dir p_name] in Hu. rewrite Hd in Hu.
    cbn [mbind option_bind] in Hu. destruct (d !! n) as [ds|]; [|done].
    injection Hu as Hu.
    destruct (IH st1 (delete n d)) as (d' & Hd' & Hdom & Hp & Hm).
    + by rewrite <- Hu, lookup_insert_eq.
    + done.
    + exists d'. split; [done|]. split; [|split; congruence].
      rewrite Hdom, dom_delete_L, list_to_set_cons. apply set_eq. intros x.
      rewrite !elem_of_difference, elem_of_union. tauto.
Qed.

Lemma open_mfdataset_state `{XArray} (fns : list path) (fs fs' : filesystem)
    (r : result dataset) :
  Geodata.open_mfdataset fns fs = (r, fs') -> fs' = fs.
Proof.
  intros Hr. symmetry. revert fs r fs' Hr. unfold Geodata.open_mfdataset.
  destruct fns as [|fn0 fns]; [apply (respects_pure eq)|].
  apply (respects_bind eq).
  - apply (respects_map_each eq). intros fn _. apply (respects_open_dataset eq).
  - intros datasets. apply (respects_pure eq).
Qed.

Lemma merge_period_dom `{XArray} (c : Geodata.cutout) (gh : bool) (ym : yearmonth)
    (st st' : cutout_state) (d : gmap string dataset) :
  st_fs st !! Geodata.cutout_dir c = Some d ->
  glob_match (Geodata.staging_pattern c ym) (Geodata.final_name c ym) = false ->
  Geodata.merge_period c gh ym st = (Return tt, st') ->
  exists d', st_fs st' !! Geodata.cutout_dir c = Some d'
    /\ dom d' = ({[Geodata.final_name c ym]} ∪ dom d)
                ∖ list_to_set (filter (fun n => glob_match (Geodata.staging_pattern c ym) n = true)
                                      (elements (dom d)))
    /\ prepared st' = prepared st /\ meta st' = meta st.
Proof.
  intros Hd Hfinal. unfold Geodata.merge_period.
  cbn [Geodata.datasetfn p_dir p_name]. intros Hrun.
  apply bind_inv_return in Hrun as (fns & st0 & Hg & Hrun).
  apply on_fs_inv in Hg as (Hg & Hp0 & Hm0).
  rewrite (glob_run _ _ _ _ Hd) in Hg. injection Hg as <- Hfs0.
  set (names := filter (fun n => glob_match (Geodata.staging_pattern c ym) n = true)
                       (elements (dom d))) in *.
  assert (st_fs st0 !! Geodata.cutout_dir c = Some d) as Hd0 by congruence.
  assert (forall n, n ∈ names -> n ∈ dom d /\ n <> Geodata.final_name c ym) as Hnames.
  { intros n [Hn Hm]%elem_of_glob_names. split; [done|]. intros ->. congruence. }
  assert (forall ds : dataset,
            (ds0 ← on_fs (to_netcdf ds (Path (Geodata.cutout_dir c) (Geodata.final_name c ym)));
             for_each (Path (Geodata.cutout_dir c) <$> names)
                      (fun tfn => on_fs (unlink tfn))) st0 = (Return tt, st') ->
            exists d', st_fs st' !! Geodata.cutout_dir c = Some d'
              /\ dom d' = ({[Geodata.final_name c ym]} ∪ dom d) ∖ list_to_set names
              /\ prepared st' = prepared st /\ meta st' = meta st) as Hwrite.
  { intros ds Hw. apply bind_inv_return in Hw as ([] & st1 & Hw & Hu).
    apply on_fs_inv in Hw as (Hw & Hp1 & Hm1).
    unfold to_netcdf in Hw. cbn [p_dir p_name] in Hw. rewrite Hd0 in Hw.
    injection Hw as Hw.
    destruct (unlink_loop_dom _ _ _ _ (<[Geodata.final_name c ym := ds]> d)
                ltac:(by rewrite <- Hw, lookup_insert_eq) Hu) as (d' & Hd' & Hdom & Hp & Hm).
    exists d'. split; [done|]. split; [|split; congruence].
    by rewrite Hdom, dom_insert_L. }
  assert ((ds ← on_fs (Geodata.open_mfdataset (Path (Geodata.cutout_dir c) <$> names));
           ds ← (if gh then
                   m ← get_meta;
                   match getitem "height" (data_vars m) with
                   | Some height => mret (set_data_var "height" height ds)
                   | None => raise (KeyError "height")
                   end
                 else mret ds);
           on_fs (to_netcdf ds (Path (Geodata.cutout_dir c) (Geodata.final_name c ym)));;
           for_each (Path (Geodata.cutout_dir c) <$> names)
                    (fun tfn => on_fs (unlink tfn))) st0 = (Return tt, st') ->
          exists d', st_fs st' !! Geodata.cutout_dir c = Some d'
            /\ dom d' = ({[Geodata.final_name c ym]} ∪ dom d) ∖ list_to_set names
            /\ prepared st' = prepared st /\ meta st' = meta st) as Hmerge.
  { intros Hm. apply bind_inv_return in Hm as (ds & st1 & Ho & Hm).
    apply on_fs_inv in Ho as (Ho & Hp1 & Hm1).
    apply open_mfdataset_state in Ho.
    assert (st1 = st0) as -> by (destruct st0, st1; simpl in *; congruence).
    apply bind_inv_return in Hm as (ds' & st2 & Hh & Hm).
    assert (st2 = st0) as ->.
    { destruct gh; [|by injection Hh as _ <-].
      revert Hh. unfold get_meta. mrun.
      destruct (getitem "height" (data_vars (meta st0))); by intros [= _ <-]. }
    by apply (Hwrite ds'). }
  destruct names as [|n0 [|n1 names']] eqn:En; cbn [fmap list_fmap] in *.
  - apply Hmerge. by destruct gh.
  - destruct gh; [by apply Hmerge|].
    apply on_fs_inv in Hrun as (Hr & Hp1 & Hm1).
    destruct (Hnames n0 ltac:(left)) as [Hn0 Hne0].
    apply elem_of_dom in Hn0 as [ds0 Hds0].
    unfold rename, lookup_file in Hr. cbn [p_dir p_name] in Hr.
    rewrite Hd0 in Hr. cbn [mbind option_bind] in Hr. rewrite Hds0 in Hr.
    rewrite String.eqb_refl in Hr. injection Hr as Hr.
    eexists. split; [by rewrite <- Hr, lookup_insert_eq|].
    split; [|split; congruence].
    rewrite dom_insert_L, dom_delete_L, list_to_set_cons, list_to_set_nil.
    apply set_eq. intros n. unfold Geodata.final_name in *.
    rewrite !elem_of_difference, !elem_of_union, !elem_of_singleton,
      elem_of_difference, elem_of_singleton.
    split.
    + intros [->|[? ?]]; (split; [tauto|]); intros [?|[]%not_elem_of_empty]; congruence.
    + intros [[->|?] Hnot]; [by left|]. right. split; [done|]. intros ->. apply Hnot. by left.
  - apply Hmerge. by destruct gh.
Qed.

Lemma merge_loop_inv `{XArray} (c : Geodata.cutout) (gh : bool)
    (todo done_ : list yearmonth) (st st' : cutout_state) (d : gmap string dataset) :
  Geodata.naming_ok c = true ->
  (forall ym, ym ∈ todo -> ym ∈ Geodata.yearmonths c) ->
  (forall ym, ym ∈ done_ -> ym ∈ Geodata.yearmonths c) ->
  st_fs st !! Geodata.cutout_dir c = Some d ->
  merge_inv c done_ d ->
  for_each todo (Geodata.merge_period c gh) st = (Return tt, st') ->
  exists d', st_fs st' !! Geodata.cutout_dir c = Some d'
    /\ merge_inv c (reverse todo ++ done_) d' /\ prepared st' = prepared st.
Proof.
  intros Hok. revert done_ st d.
  induction todo as [|ym todo IH]; intros done_ st d Htodo Hdone Hd Hinv.
  - intros [= <-]. exists d. done.
  - cbn [for_each]. intros Hrun.
    apply bind_inv_return in Hrun as ([] & st1 & Hstep & Hrest).
    assert (ym ∈ Geodata.yearmonths c) as Hin by (apply Htodo; left).
    destruct (naming_ok_spec c ym Hok Hin) as (_ & _ & Hnames).
    destruct (Hnames ym Hin) as (Hpf & _).
    destruct (merge_period_dom c gh ym st st1 d Hd Hpf Hstep) as (d1 & Hd1 & Hdom & Hp1 & _).
    pose proof (merge_inv_step c done_ ym d d1 Hok Hin Hdone Hinv Hdom) as Hinv1.
    destruct (IH (ym :: done_) st1 d1) as (d' & Hd' & Hinv' & Hp'); try done.
    + intros ym' Hin'. apply Htodo. by right.
    + intros ym' [->|?]%elem_of_cons; [done|by apply Hdone].
    + exists d'. split; [done|]. split; [|congruence].
      by rewrite reverse_cons, <- app_assoc.
Qed.

(** C3: when [cutout_prepare] runs to its end (it returns [None]) on a
    cutout whose file names pass [naming_ok], in a directory whose path
    holds no character that [glob] reads as a pattern, the archive
    directory holds exactly the meta file and the final file of every
    period, the final files of different periods are different files, no
    staging file is left (no pattern of a period matches anything, and no
    name a task could write is present), and the cutout is marked prepared;
    whatever the tasks are and however many staging files each period
    had. *)
Theorem prepare_success_one_final_per_period `{XArray}
    (c : Geodata.cutout) (overwrite : bool) (nprocesses : option Z)
    (gebco_height : bool) (st st' : cutout_state) :
  has_magic (Geodata.cutout_dir c) = false ->
  Geodata.naming_ok c = true ->
  Geodata.cutout_prepare c overwrite nprocesses gebco_height st = (Return None, st') ->
  exists d,
    st_fs st' !! Geodata.cutout_dir c = Some d
    /\ dom d = {[Geodata.meta_name c]}
               ∪ list_to_set (Geodata.final_name c <$> Geodata.yearmonths c)
    /\ (forall ym ym', ym ∈ Geodata.yearmonths c -> ym' ∈ Geodata.yearmonths c ->
          Geodata.final_name c ym = Geodata.final_name c ym' -> ym = ym')
    /\ (forall ym, ym ∈ Geodata.yearmonths c ->
          glob (Geodata.cutout_dir c) (Geodata.staging_pattern c ym) (st_fs st')
          = (Return [], st_fs st'))
    /\ (forall i ym, (i < Geodata.task_count c)%nat -> ym ∈ Geodata.yearmonths c ->
          Geodata.staging_name c i ym ∉ dom d)
    /\ prepared st' = true.
Proof.
  intros _ Hok. unfold Geodata.cutout_prepare. intros Hrun.
  apply bind_inv_return in Hrun as (p & st0 & Hp & Hrun).
  injection Hp as <- <-.
  destruct (prepared st && negb overwrite); [discriminate|].
  apply bind_inv_return in Hrun as (tasks & st1 & Hprep & Hrun).
  apply bind_inv_return in Hrun as ([] & st2 & Htasks & Hrun).
  apply bind_inv_return in Hrun as ([] & st3 & Hloop & Hrun).
  apply bind_inv_return in Hrun as ([] & st4 & Hset & Hrun).
  injection Hrun as <-. injection Hset as <-.
  destruct (geodata_prepare_directory_spec _ _ _ _ _ _ Hprep)
    as (Hfs1 & _ & series & tasks0 & Hser & Htf & ->).
  assert (Geodata.task_count c = length tasks0) as Hcount.
  { unfold Geodata.task_count. by rewrite Hser, Htf. }
  (* the tasks ran to their end *)
  unfold Geodata.run_tasks, try_except in Htasks.
  destruct ((on_fs (pool_map _ _);; mret ()) st1) as [[[]|e] st2'] eqn:Ebody.
  2:{ apply bind_inv_return in Htasks as (? & ? & _ & [=]). }
  injection Htasks as ->.
  apply bind_inv_return in Ebody as (ys & st2' & Hpool & [= ->]).
  apply on_fs_inv in Hpool as (Hpool & Hp2 & Hm2).
  pose proof (geodata_pool_writes_staging c tasks0 _ _ _ Hcount Hpool) as Hgrow.
  destruct (Hgrow _ ltac:(by rewrite Hfs1, lookup_insert_eq)) as (d2 & Hd2 & Hsub & Hw).
  assert (merge_inv c [] d2) as Hinv2.
  { split; [|split].
    - apply Hsub. rewrite dom_singleton_L. by apply elem_of_singleton.
    - intros ym []%elem_of_nil.
    - intros n Hn. destruct (Hw n Hn) as [Hn1|(i & ym & Hi & Hin & ->)].
      + left. rewrite dom_singleton_L in Hn1. by apply elem_of_singleton in Hn1.
      + right; right. exists i, ym. split; [done|]. split; [done|].
        split; [apply not_elem_of_nil|done]. }
  destruct (merge_loop_inv c gebco_height (Geodata.yearmonths c) [] st2 st3 d2 Hok)
    as (d3 & Hd3 & (Hmeta & Hfin & Hall) & Hp3); try done.
  { intros ym []%elem_of_nil. }
  rewrite app_nil_r in Hfin, Hall.
  assert (forall n, n ∈ dom d3 ->
            n = Geodata.meta_name c
            \/ exists ym, ym ∈ Geodata.yearmonths c /\ n = Geodata.final_name c ym) as Hnames.
  { intros n Hn.
    destruct (Hall n Hn) as [->|[(ym & Hin & ->)|(i & ym & _ & Hin & Hnot & _)]].
    - by left.
    - right. exists ym. by rewrite elem_of_reverse in Hin.
    - destruct Hnot. by rewrite elem_of_reverse. }
  assert (forall ym n, ym ∈ Geodata.yearmonths c -> n ∈ dom d3 ->
            glob_match (Geodata.staging_pattern c ym) n = false) as Hnomatch.
  { intros ym n Hin Hn. destruct (naming_ok_spec c ym Hok Hin) as (_ & Hpm & Hpf).
    destruct (Hnames n Hn) as [->|(ym' & Hin' & ->)]; [done|]. by apply Hpf. }
  exists d3. cbn [st_fs prepared]. split; [done|]. split.
  { apply set_eq. intros n.
    rewrite elem_of_union, elem_of_singleton, elem_of_list_to_set, list_elem_of_fmap.
    split.
    - intros Hn. destruct (Hnames n Hn) as [->|(ym & Hin & ->)]; [by left|].
      right. by exists ym.
    - intros [->|(ym & -> & Hin)]; [done|]. apply Hfin. by rewrite elem_of_reverse. }
  split.
  { intros ym ym' Hin Hin'. destruct (naming_ok_spec c ym Hok Hin) as (_ & _ & Hpf).
    by apply Hpf. }
  split.
  { intros ym Hin. rewrite (glob_run _ _ _ _ Hd3).
    rewrite (filter_none (fun n => glob_match (Geodata.staging_pattern c ym) n = true));
      [done|].
    intros n Hn%elem_of_elements. rewrite (Hnomatch ym n Hin Hn). done. }
  split; [|done].
  intros i ym Hi Hin Hn.
  destruct (naming_ok_spec c ym Hok Hin) as (_ & _ & Hpf).
  destruct (Hpf ym Hin) as (_ & _ & Hst).
  specialize (Hst i Hi). rewrite (Hnomatch ym _ Hin Hn) in Hst.
  destruct Hst as [_ Hst]. by specialize (Hst eq_refl).
Qed.

(** *** What the merge stage does with several staging files *)

Lemma open_all_run (fns : list path) (datasets : list dataset) (fs : filesystem) :
  Forall2 (fun fn ds => lookup_file fn fs = Some ds) fns datasets ->
  map_each open_dataset fns fs = (Return datasets, fs).
Proof.
  induction 1 as [|fn ds fns datasets Hfn _ IH]; [done|].
  cbn [map_each]. rewrite bind_run. unfold open_dataset at 1. rewrite Hfn.
  rewrite bind_run, IH. done.
Qed.

Lemma unlink_loop_run (dir : string) (names : list string) (st : cutout_state)
    (d : gmap string dataset) :
  NoDup names -> st_fs st !! dir = Some d ->
  (forall n, n ∈ names -> is_Some (d !! n)) ->
  exists st' d',
    for_each (Path dir <$> names) (fun tfn => on_fs (unlink tfn)) st = (Return tt, st')
    /\ st_fs st' !! dir = Some d'
    /\ (forall n, n ∉ names -> d' !! n = d !! n)
    /\ dom d' = dom d ∖ list_to_set names.
Proof.
  intros Hnd. revert st d. induction Hnd as [|n names Hn Hnd IH]; intros st d Hd Hin.
  - exists st, d. split; [done|]. split; [done|]. split; [done|].
    by rewrite list_to_set_nil, difference_empty_L.
  - destruct (Hin n ltac:(left)) as [ds Hds].
    destruct (IH (CutoutState (<[dir := delete n d]> (st_fs st)) (prepared st) (meta st))
                 (delete n d)) as (st' & d' & Hrun & Hd' & Hother & Hdom).
    { cbn [st_fs]. by rewrite lookup_insert_eq. }
    { intros n' Hn'. rewrite lookup_delete_ne by (intros ->; done).
      apply Hin. by right. }
    exists st', d'. split; [|split; [done|split]].
    + cbn [fmap list_fmap for_each]. rewrite bind_run.
      rewrite (on_fs_run _ _ (Return tt) (<[dir := delete n d]> (st_fs st))); [done|].
      unfold unlink, lookup_file. cbn [p_dir p_name]. rewrite Hd.
      cbn [mbind option_bind]. by rewrite Hds.
    + intros n' Hn'. rewrite Hother by (intros ?; apply Hn'; by right).
      apply lookup_delete_ne. intros ->. apply Hn'. left.
    + rewrite Hdom, dom_delete_L, list_to_set_cons. apply set_eq. intros x.
      rewrite !elem_of_difference, elem_of_union. tauto.
Qed.

Lemma merge_branch_run `{XArray} (c : Geodata.cutout) (ym : yearmonth)
    (st : cutout_state) (d : gmap string dataset)
    (names : list string) (datasets : list dataset) :
  st_fs st !! Geodata.cutout_dir c = Some d ->
  Forall2 (fun n ds => d !! n = Some ds) names datasets ->
  names <> [] ->
  on_fs (Geodata.open_mfdataset (Path (Geodata.cutout_dir c) <$> names)) st
  = (combine_by_coords datasets, st).
Proof.
  intros Hd Hall Hne. destruct st as [fs p m]. cbn [st_fs] in Hd.
  assert (Forall2 (fun fn ds => lookup_file fn fs = Some ds)
            (Path (Geodata.cutout_dir c) <$> names) datasets) as Hfiles.
  { clear -Hd Hall. induction Hall as [|n ds names datasets Hn _ IH]; [done|].
    cbn [fmap list_fmap]. constructor; [|done].
    unfold lookup_file. cbn [p_dir p_name]. rewrite Hd. done. }
  unfold on_fs, Geodata.open_mfdataset. cbn [st_fs prepared meta].
  destruct names as [|n0 names]; [done|]. cbn [fmap list_fmap] in *.
  rewrite bind_run, (open_all_run _ datasets); done.
Qed.

(** C4, as the code has it.  For a period with several staging files (or
    with one and the elevation overlay), in a directory whose path holds no
    character that [glob] reads as a pattern and for a file name without
    separator or bracket, geodata's merge stage hands the contents of the
    files to [xr.open_mfdataset(combine='by_coords')],
    which does not ask for identical compatibility: the stage raises the
    error of that combination when it fails, leaving the disk as it is, and
    otherwise (without overlay) writes the combined dataset as the final
    file of the period and removes the staging files. *)
Theorem merge_stage_combination `{XArray}
    (c : Geodata.cutout) (gebco_height : bool) (d : gmap string dataset)
    (datasets : list dataset) (ym : yearmonth) (st : cutout_state) :
  let names := filter (fun n => glob_match (Geodata.staging_pattern c ym) n = true)
                      (elements (dom d)) in
  let final := Geodata.final_name c ym in
  has_magic (Geodata.cutout_dir c) = false -> plain_name final = true ->
  st_fs st !! Geodata.cutout_dir c = Some d ->
  Forall2 (fun n ds => d !! n = Some ds) names datasets ->
  names <> [] -> length names <> 1%nat \/ gebco_height = true ->
  (forall e, combine_by_coords datasets = Raise e ->
             Geodata.merge_period c gebco_height ym st = (Raise e, st))
  /\ (forall ds, combine_by_coords datasets = Return ds ->
                 gebco_height = false ->
                 glob_match (Geodata.staging_pattern c ym) final = false ->
                 exists st' d',
                   Geodata.merge_period c gebco_height ym st = (Return tt, st')
                   /\ st_fs st' !! Geodata.cutout_dir c = Some d'
                   /\ d' !! final = Some ds
                   /\ dom d' = ({[final]} ∪ dom d) ∖ list_to_set names).
Proof.
  intros names final _ _ Hd Hall Hne Hmany.
  assert (Geodata.merge_period c gebco_height ym st =
          (ds ← on_fs (Geodata.open_mfdataset (Path (Geodata.cutout_dir c) <$> names));
           ds ← (if gebco_height then
                   m ← get_meta;
                   match getitem "height" (data_vars m) with
                   | Some height => mret (set_data_var "height" height ds)
                   | None => raise (KeyError "height")
                   end
                 else mret ds);
           on_fs (to_netcdf ds (Path (Geodata.cutout_dir c) final));;
           for_each (Path (Geodata.cutout_dir c) <$> names)
                    (fun tfn => on_fs (unlink tfn))) st) as ->.
  { unfold Geodata.merge_period. cbn [Geodata.datasetfn p_dir p_name].
    rewrite bind_run.
    rewrite (on_fs_run _ st (Return (Path (Geodata.cutout_dir c) <$> names)) (st_fs st))
      by (by apply glob_run).
    replace (CutoutState (st_fs st) (prepared st) (meta st)) with st by (by destruct st).
    fold names. destruct names as [|n0 [|n1 names']]; [done| |done].
    destruct gebco_height; [done|]. by destruct Hmany. }
  rewrite bind_run, (merge_branch_run c ym st d names datasets Hd Hall Hne).
  split.
  - intros e ->. done.
  - intros ds -> -> Hfinal. rewrite bind_run. cbn [mret M_ret]. rewrite bind_run.
    rewrite (on_fs_run _ st (Return tt)
               (<[Geodata.cutout_dir c := <[final := ds]> d]> (st_fs st)))
      by (unfold to_netcdf; cbn [p_dir p_name]; by rewrite Hd).
    destruct (unlink_loop_run (Geodata.cutout_dir c) names
                (CutoutState (<[Geodata.cutout_dir c := <[final := ds]> d]> (st_fs st))
                             (prepared st) (meta st))
                (<[final := ds]> d)) as (st' & d' & Hrun & Hd' & Hother & Hdom).
    + apply NoDup_filter, NoDup_elements.
    + cbn [st_fs]. by rewrite lookup_insert_eq.
    + intros n [Hn Hm]%elem_of_glob_names. apply elem_of_dom.
      rewrite dom_insert_L. by apply elem_of_union_r.
    + exists st', d'. split; [done|]. split; [done|]. split.
      * rewrite Hother; [apply lookup_insert_eq|].
        intros [_ Hm]%elem_of_glob_names. congruence.
      * by rewrite Hdom, dom_insert_L.
Qed.

(** *** File names built from digits

    The names of the scenarios pass [naming_ok] for every list of periods
    with years from 0 and months 1 to 12, and for every number of tasks. *)

Lemma pretty_N_char_digit (x : N) : is_digit (pretty_N_char x) = true.
Proof. unfold pretty_N_char. repeat case_match; reflexivity. Qed.

Lemma pretty_N_go_digits (x : N) (s : string) :
  all_digits s = true -> all_digits (pretty_N_go x s) = true.
Proof.
  revert s. induction (N.lt_wf_0 x) as [x _ IH]; intros s Hs.
  assert (x = 0 \/ 0 < x)%N as [->|Hpos] by lia.
  - by rewrite pretty_N_go_0.
  - rewrite pretty_N_go_step by done. apply IH; [by apply N.div_lt|].
    cbn [all_digits]. by rewrite pretty_N_char_digit.
Qed.

Lemma pretty_N_digits (x : N) : all_digits (pretty x) = true.
Proof.
  unfold pretty, pretty_N. case_decide; [reflexivity|].
  by apply pretty_N_go_digits.
Qed.

Lemma pretty_Z_digits (y : Z) : 0 <= y -> all_digits (pretty y) = true.
Proof.
  destruct y as [|q|q]; intros Hy; [reflexivity| |lia].
  apply (pretty_N_digits (Npos q)).
Qed.

Lemma all_digits_app (a b : string) :
  all_digits (a +:+ b) = all_digits a && all_digits b.
Proof.
  induction a as [|c a IH]; [done|]. simpl.
  by rewrite IH, andb_assoc.
Qed.

(** A digit is none of the characters with a meaning in a path or a
    pattern. *)
Lemma digit_not_special (c x : ascii) :
  is_digit c = true -> is_digit x = false -> Ascii.eqb c x = false.
Proof.
  intros Hc Hx. apply Ascii.eqb_neq. intros ->. congruence.
Qed.

Lemma split_last_dot_digits (s : string) :
  all_digits s = true -> split_last_dot (s +:+ ".nc") = Some (s, ".nc").
Proof.
  induction s as [|c s IH]; [reflexivity|]. simpl.
  intros [Hc Hs]%andb_true_iff. by rewrite (IH Hs).
Qed.

Lemma splitext_digits (s : string) :
  all_digits s = true -> s <> "" -> splitext (s +:+ ".nc") = (s, ".nc").
Proof.
  intros Hs Hne. unfold splitext. rewrite (split_last_dot_digits s Hs).
  destruct s as [|c s]; [done|]. simpl in Hs. apply andb_true_iff in Hs as [Hc _].
  simpl. by rewrite (digit_not_special c "." Hc).
Qed.

Lemma contains_char_digits (x : ascii) (s : string) :
  all_digits s = true -> is_digit x = false -> contains_char x (s +:+ ".nc") =
                                               contains_char x ".nc".
Proof.
  intros Hs Hx. induction s as [|c s IH]; [done|].
  simpl in Hs. apply andb_true_iff in Hs as [Hc Hs]. simpl.
  rewrite Ascii.eqb_sym, (digit_not_special c x Hc Hx). by apply IH.
Qed.

Lemma fnmatch_digits_same (s p n : string) :
  all_digits s = true -> fnmatch (s +:+ p) (s +:+ n) = fnmatch p n.
Proof.
  induction s as [|c s IH]; [done|]. simpl.
  intros [Hc Hs]%andb_true_iff.
  rewrite (digit_not_special c "*" Hc) by done.
  by rewrite Ascii.eqb_refl, orb_true_r, (IH Hs).
Qed.

Lemma fnmatch_digits_prefix (s s' p n : string) (c c' : ascii) :
  all_digits s = true -> all_digits s' = true ->
  is_digit c = false -> is_digit c' = false ->
  Ascii.eqb c "*" = false -> Ascii.eqb c "?" = false ->
  fnmatch (s +:+ String c p) (s' +:+ String c' n) = true -> s = s'.
Proof.
  intros Hs Hs' Hc Hc' Hstar Hq. revert s' Hs'.
  induction s as [|a s IH]; intros [|d s'] Hs'; simpl.
  - done.
  - rewrite Hstar, Hq. simpl in Hs'. apply andb_true_iff in Hs' as [Hd _].
    rewrite Ascii.eqb_sym, (digit_not_special d c Hd Hc). done.
  - simpl in Hs. apply andb_true_iff in Hs as [Ha _].
    rewrite (digit_not_special a "*" Ha), (digit_not_special a "?" Ha),
      (digit_not_special a c' Ha Hc') by done. done.
  - simpl in Hs, Hs'. apply andb_true_iff in Hs as [Ha Hs].
    apply andb_true_iff in Hs' as [Hd Hs'].
    rewrite (digit_not_special a "*" Ha), (digit_not_special a "?" Ha) by done.
    intros [Had Hrest]%andb_true_iff. simpl in Had.
    apply Ascii.eqb_eq in Had as ->. f_equal. by apply IH.
Qed.

Lemma fnmatch_star (q a b : string) :
  fnmatch q b = true -> fnmatch (String "*" q) (a +:+ b) = true.
Proof.
  intros Hq. induction a as [|x a IH]; simpl in *.
  - change ("" +:+ b) with b. destruct b; by rewrite Hq.
  - by rewrite IH, orb_true_r.
Qed.

Lemma length_append (a b : string) :
  String.length (a +:+ b) = (String.length a + String.length b)%nat.
Proof. induction a as [|c a IH]; [done|]. simpl. by rewrite IH. Qed.

Lemma append_nil_l (b : string) : "" +:+ b = b.
Proof. reflexivity. Qed.

Lemma append_cons (c : ascii) (a b : string) : String c a +:+ b = String c (a +:+ b).
Proof. reflexivity. Qed.

Lemma append_inj_r (a a' b b' : string) :
  String.length b = String.length b' -> a +:+ b = a' +:+ b' -> a = a' /\ b = b'.
Proof.
  intros Hlen. revert a'. induction a as [|c a IH]; intros [|c' a'];
    rewrite ?append_nil_l, ?append_cons.
  - done.
  - intros ->. simpl in Hlen. rewrite length_append in Hlen. lia.
  - intros <-. simpl in Hlen. rewrite length_append in Hlen. lia.
  - intros [= -> Heq]. destruct (IH _ Heq) as [-> ->]. done.
Qed.

Lemma month_cases (m : Z) :
  1 <= m <= 12 ->
  m = 1 \/ m = 2 \/ m = 3 \/ m = 4 \/ m = 5 \/ m = 6 \/
  m = 7 \/ m = 8 \/ m = 9 \/ m = 10 \/ m = 11 \/ m = 12.
Proof. lia. Qed.

Ltac each_month H :=
  apply month_cases in H; repeat (destruct H as [H|H]); subst.

Lemma stem_digits (ym : yearmonth) :
  plain_period ym -> all_digits (Scenario.stem ym) = true /\ Scenario.stem ym <> "".
Proof.
  destruct ym as [y m]. intros [Hy Hm]. cbn [fst snd] in *.
  unfold Scenario.stem. cbn [fst snd]. split.
  - rewrite all_digits_app, (pretty_Z_digits y Hy). each_month Hm; reflexivity.
  - intros Hempty. apply (f_equal String.length) in Hempty.
    rewrite length_append in Hempty. each_month Hm; simpl in Hempty; lia.
Qed.

Lemma stem_inj (ym ym' : yearmonth) :
  plain_period ym -> plain_period ym' ->
  Scenario.stem ym = Scenario.stem ym' -> ym = ym'.
Proof.
  destruct ym as [y m], ym' as [y' m']. intros [_ Hm] [_ Hm']. cbn [fst snd] in *.
  unfold Scenario.stem. cbn [fst snd]. intros Heq.
  apply append_inj_r in Heq as [Hy Hpad].
  - apply (inj pretty) in Hy. subst y'. f_equal.
    each_month Hm; each_month Hm'; first [reflexivity | by vm_compute in Hpad].
  - each_month Hm; each_month Hm'; reflexivity.
Qed.

Lemma names_of_plain (c : Geodata.cutout) (ym : yearmonth) :
  Geodata.datasetfn_name c = Scenario.name_of -> plain_period ym ->
  Geodata.final_name c ym = Scenario.stem ym +:+ String "." "nc"
  /\ Geodata.staging_pattern c ym = Scenario.stem ym +:+ String "-" "*.nc"
  /\ forall i, Geodata.staging_name c i ym
               = Scenario.stem ym +:+ String "-" (pretty i +:+ ".nc").
Proof.
  intros Hname Hplain. destruct (stem_digits ym Hplain) as [Hd Hne].
  unfold Geodata.final_name, Geodata.staging_pattern, Geodata.staging_name,
    Geodata.datasetfn_with_id, Geodata.datasetfn.
  cbn [p_name p_dir]. rewrite Hname. cbn [Scenario.name_of].
  rewrite (splitext_digits _ Hd Hne). done.
Qed.

Lemma glob_match_digits (s n : string) :
  all_digits s = true -> s <> "" ->
  glob_match (s +:+ String "-" "*.nc") n
  = negb (_ishidden n) && fnmatch (s +:+ String "-" "*.nc") n.
Proof.
  intros Hs Hne. unfold glob_match. destruct s as [|d s]; [done|].
  simpl in Hs. apply andb_true_iff in Hs as [Hd _].
  rewrite append_cons. cbn [_ishidden].
  by rewrite (digit_not_special d "." Hd).
Qed.

Lemma not_hidden_digits (s t : string) :
  all_digits s = true -> s <> "" -> _ishidden (s +:+ t) = false.
Proof.
  intros Hs Hne. destruct s as [|d s]; [done|].
  simpl in Hs. apply andb_true_iff in Hs as [Hd _].
  rewrite append_cons. cbn [_ishidden]. by apply digit_not_special.
Qed.

(** With the names of the scenarios, every cutout on plain periods
    passes [naming_ok], whatever its tasks are. *)
Lemma naming_ok_name_of (c : Geodata.cutout) :
  Geodata.datasetfn_name c = Scenario.name_of ->
  Forall plain_period (Geodata.yearmonths c) ->
  Geodata.naming_ok c = true.
Proof.
  intros Hname Hplain. rewrite Forall_forall in Hplain.
  unfold Geodata.naming_ok. apply forallb_forall.
  intros ym Hin%list_elem_of_In. specialize (Hplain ym Hin) as Hp.
  destruct (stem_digits ym Hp) as [Hd Hne].
  destruct (names_of_plain c ym Hname Hp) as (Hfinal & Hpat & Hstag).
  assert (Geodata.meta_name c = String "m" "eta.nc") as Hmeta.
  { unfold Geodata.meta_name. by rewrite Hname. }
  rewrite Hfinal, Hpat, Hmeta.
  rewrite !andb_true_iff, !negb_true_iff. repeat split.
  - by rewrite (contains_char_digits "/" _ Hd).
  - by rewrite (contains_char_digits "[" _ Hd).
  - apply String.eqb_neq. intros Heq.
    destruct (Scenario.stem ym) as [|d s]; [done|].
    rewrite append_cons in Heq. injection Heq as -> _. done.
  - rewrite (glob_match_digits _ _ Hd Hne). apply andb_false_intro2.
    apply not_true_is_false. intros Hm.
    apply (fnmatch_digits_prefix _ "" _ _ "-" "m") in Hm; done.
  - apply forallb_forall. intros ym' Hin'%list_elem_of_In.
    specialize (Hplain ym' Hin') as Hp'.
    destruct (stem_digits ym' Hp') as [Hd' Hne'].
    destruct (names_of_plain c ym' Hname Hp') as (Hfinal' & _ & Hstag').
    rewrite Hfinal'. rewrite !andb_true_iff, negb_true_iff. repeat split.
    + rewrite (glob_match_digits _ _ Hd Hne). apply andb_false_intro2.
      apply not_true_is_false. intros Hm.
      pose proof (fnmatch_digits_prefix _ _ _ _ "-" "." Hd Hd'
                    eq_refl eq_refl eq_refl eq_refl Hm) as Heq.
      rewrite <- Heq, (fnmatch_digits_same _ _ _ Hd) in Hm. done.
    + destruct (decide (ym = ym')) as [->|Hneq]; [by rewrite bool_decide_true|].
      rewrite bool_decide_false by done. cbn [orb]. apply negb_true_iff, String.eqb_neq.
      intros Heq. apply append_inj_r in Heq as [Heq _]; [|done].
      by apply stem_inj in Heq.
    + apply forallb_forall. intros i _. rewrite Hstag'.
      rewrite (glob_match_digits _ _ Hd Hne), (not_hidden_digits _ _ Hd' Hne').
      cbn [negb andb]. destruct (decide (ym = ym')) as [->|Hneq].
      * rewrite bool_decide_true by done.
        rewrite (fnmatch_digits_same _ _ _ Hd').
        change (fnmatch (String "-" "*.nc") (String "-" (pretty i +:+ ".nc")))
          with (fnmatch (String "*" ".nc") (pretty i +:+ ".nc")).
        by rewrite fnmatch_star.
      * rewrite bool_decide_false by done.
        destruct (fnmatch _ _) eqn:Hm; [|done].
        apply (fnmatch_digits_prefix _ _ _ _ "-" "-") in Hm; try done.
        by apply stem_inj in Hm.
Qed.

(** *** The statements at the scenarios *)

(** A run is fixed by its outcome: the state is whatever the run leaves. *)
Lemma outcome_fixes_run {A S : Type} (r : result A * S) (a : result A) :
  r.1 = a -> r = (a, r.2).
Proof. intros <-. by destruct r. Qed.

Lemma prepare_task_failure_purges_witness :
  (exists st3,
     Geodata.cutout_prepare (H := XrRef.xarray) Scenario.failing_cutout false None false
       Scenario.fresh
     = (Raise (Exn "IOError" ["download failed"]), st3)
     /\ st_fs st3 !! "/data/europe" = None)
  /\ (exists st3,
        Atlite.cutout_prepare Scenario.atl_failing_cutout false Scenario.fresh
        = (Raise (Exn "IOError" ["download failed"]), st3)
        /\ st_fs st3 !! "/data/europe" = None).
Proof.
  split.
  - pose (tasks := imap (fun i t =>
                     Geodata.set_datasetfns
                       (list_to_map ((fun ym => (ym, Geodata.datasetfn_with_id
                                                       Scenario.failing_cutout i ym))
                                       <$> [Scenario.jan])) t)
                     [Scenario.first_half; Scenario.failing_task]).
    pose (st1 := (Geodata.prepare_directory_and_tasks Scenario.failing_cutout None false
                    Scenario.fresh).2).
    pose (fs2 := (pool_map (fun t => Geodata.cutout_do_task t true) tasks (st_fs st1)).2).
    destruct (prepare_task_failure_purges (H := XrRef.xarray) Scenario.failing_cutout
                None false tasks Scenario.atl_failing_cutout [] false Scenario.fresh
                st1 (Exn "IOError" ["download failed"]) fs2 eq_refl) as [Hg _].
    destruct Hg as (st3 & Hr & _ & Hnone & _).
    + apply outcome_fixes_run. reflexivity.
    + apply outcome_fixes_run. vm_compute. reflexivity.
    + exists st3. split; [exact Hr|exact Hnone].
  - pose (tasks := Atlite.set_datasetfns
                     (list_to_map ((fun ym => (ym, Atlite.datasetfn
                                                     Scenario.atl_failing_cutout ym))
                                     <$> (None :: (Some <$> [Scenario.jan]))))
                   <$> [Scenario.atl_task "prepare_broken"
                          (Raise (Exn "IOError" ["download failed"]))]).
    pose (st1 := (Atlite.prepare_directory_and_tasks Scenario.atl_failing_cutout
                    Scenario.fresh).2).
    pose (fs2 := (pool_map (fun t => Atlite.cutout_do_task t true) tasks (st_fs st1)).2).
    destruct (prepare_task_failure_purges (H := XrRef.xarray) Scenario.failing_cutout
                None false [] Scenario.atl_failing_cutout tasks false Scenario.fresh
                st1 (Exn "IOError" ["download failed"]) fs2 eq_refl) as [_ Ha].
    destruct Ha as (st3 & Hr & _ & Hnone & _).
    + apply outcome_fixes_run. reflexivity.
    + apply outcome_fixes_run. vm_compute. reflexivity.
    + exists st3. split; [exact Hr|exact Hnone].
Defined.

(** On a prepared cutout geodata's [cutout_prepare] returns [True]: it
    does not raise. *)
Lemma prepared_cutout_returns_True :
  Geodata.cutout_prepare (H := XrRef.xarray) Scenario.monthly_cutout false None false
    Scenario.already_prepared
  = (Return (Some true), Scenario.already_prepared)
  /\ ~ exists e st',
         Geodata.cutout_prepare (H := XrRef.xarray) Scenario.monthly_cutout false None false
           Scenario.already_prepared = (Raise e, st').
Proof.
  split; [reflexivity|]. intros (e & st' & He). vm_compute in He. discriminate.
Qed.

Lemma prepare_already_prepared_witness :
  Geodata.cutout_prepare (H := XrRef.xarray) Scenario.monthly_cutout false None false
    Scenario.already_prepared
  = (Return (Some true), Scenario.already_prepared)
  /\ Atlite.cutout_prepare Scenario.atl_failing_cutout false Scenario.already_prepared
     = (Raise (NameError "ArgumentError"), Scenario.already_prepared).
Proof.
  apply (prepare_already_prepared (H := XrRef.xarray) Scenario.monthly_cutout None false
           Scenario.atl_failing_cutout Scenario.already_prepared).
  reflexivity.
Defined.

Lemma prepare_success_one_final_per_period_witness :
  exists d,
    st_fs (Geodata.cutout_prepare (H := XrRef.xarray) Scenario.halves_cutout false None false
             Scenario.fresh).2 !! "/data/europe" = Some d
    /\ dom d = {["meta.nc"]} ∪ list_to_set ["201101.nc"].
Proof.
  destruct (prepare_success_one_final_per_period (H := XrRef.xarray)
              Scenario.halves_cutout false None false Scenario.fresh
              (Geodata.cutout_prepare (H := XrRef.xarray) Scenario.halves_cutout false None
                 false Scenario.fresh).2)
    as (d & Hd & Hdom & _).
  { reflexivity. }
  { vm_compute. reflexivity. }
  { apply outcome_fixes_run. vm_compute. reflexivity. }
  exists d. split; [exact Hd|exact Hdom].
Defined.

(** Two staging files of one period report different values of the
    shared coordinate [time]; geodata's merge stage does not fail: it
    writes their concatenation as the final file. *)
Lemma merge_accepts_differing_coordinates :
  lookup_file (Path "/data/europe" "201101-0.nc") (st_fs Scenario.staged)
  = Some (Scenario.series_ds "wnd" [0; 1] [5; 6])
  /\ lookup_file (Path "/data/europe" "201101-1.nc") (st_fs Scenario.staged)
     = Some (Scenario.series_ds "wnd" [2; 3] [7; 8])
  /\ exists st',
       Geodata.merge_period (H := XrRef.xarray) Scenario.halves_cutout false Scenario.jan
         Scenario.staged = (Return tt, st')
       /\ map_to_list <$> (st_fs st' !! "/data/europe")
          = Some [("meta.nc", Scenario.meta_ds);
                  ("201101.nc", Scenario.series_ds "wnd" [0; 1; 2; 3] [5; 6; 7; 8])].
Proof.
  split; [reflexivity|]. split; [reflexivity|].
  eexists. split; vm_compute; reflexivity.
Qed.

Lemma merge_stage_combination_witness :
  exists st' d',
    Geodata.merge_period (H := XrRef.xarray) Scenario.halves_cutout false Scenario.jan
      Scenario.staged = (Return tt, st')
    /\ st_fs st' !! "/data/europe" = Some d'
    /\ d' !! "201101.nc" = Some (Scenario.series_ds "wnd" [0; 1; 2; 3] [5; 6; 7; 8]).
Proof.
  destruct (merge_stage_combination (H := XrRef.xarray) Scenario.halves_cutout false
              {["meta.nc" := Scenario.meta_ds;
                "201101-0.nc" := Scenario.series_ds "wnd" [0; 1] [5; 6];
                "201101-1.nc" := Scenario.series_ds "wnd" [2; 3] [7; 8]]}
              [Scenario.series_ds "wnd" [2; 3] [7; 8]; Scenario.series_ds "wnd" [0; 1] [5; 6]]
              Scenario.jan Scenario.staged) as [_ Hok].
  { reflexivity. }
  { reflexivity. }
  { reflexivity. }
  { vm_compute. repeat constructor. }
  { vm_compute. discriminate. }
  { left. vm_compute. discriminate. }
  destruct (Hok (Scenario.series_ds "wnd" [0; 1; 2; 3] [5; 6; 7; 8]))
    as (st' & d' & Hr & Hd & Hf & _).
  { vm_compute. reflexivity. }
  { reflexivity. }
  { vm_compute. reflexivity. }
  exists st', d'. split; [exact Hr|]. split; [exact Hd|exact Hf].
Defined.

(** A task whose prepare function is a generator with two results for
    the period asked for: the query does not fail its assertion, it raises
    the [TypeError] of [len(data)] on the generator. *)
Lemma query_of_a_generator_raises_TypeError :
  Geodata.cutout_produce_specific_dataseries Cases.lazy_cutout Scenario.jan "era5"
    Scenario.empty_disk
  = (Raise generator_has_no_len, Scenario.empty_disk)
  /\ Raise (A := option dataset) generator_has_no_len <> Raise AssertionError.
Proof. split; [reflexivity|discriminate]. Qed.

Lemma produce_specific_dataseries_asserts_witness :
  Geodata.cutout_produce_specific_dataseries Scenario.halves_cutout Scenario.jan "era5"
    Scenario.empty_disk
  = (Raise AssertionError, Scenario.empty_disk)
  /\ Geodata.cutout_produce_specific_dataseries Cases.lazy_single_cutout Scenario.jan "era5"
       Scenario.empty_disk
     = (Raise generator_has_no_len, Scenario.empty_disk).
Proof.
  split.
  - destruct (produce_specific_dataseries_asserts Scenario.halves_cutout
                (Geodata.Series (fun _ => Return [Scenario.first_half; Scenario.second_half]))
                [Scenario.first_half; Scenario.second_half]
                Scenario.atl_failing_cutout (Atlite.Series (fun _ => Return [])) []
                Scenario.jan "era5" Scenario.empty_disk) as [Hg _].
    destruct Hg as [Hlen _]; [reflexivity|reflexivity|].
    apply Hlen. simpl. lia.
  - destruct (produce_specific_dataseries_asserts Cases.lazy_single_cutout
                (Geodata.Series (fun _ => Return [Cases.lazy_single_task]))
                [Cases.lazy_single_task]
                Scenario.atl_failing_cutout (Atlite.Series (fun _ => Return [])) []
                Scenario.jan "era5" Scenario.empty_disk) as [Hg _].
    destruct Hg as (_ & _ & Hlazy); [reflexivity|reflexivity|].
    exact (Hlazy Cases.lazy_single_task
             [(Scenario.jan, Some (Scenario.series_ds "wnd" [0; 1] [5; 6]))] None
             eq_refl eq_refl).
Defined.

Lemma produce_specific_dataseries_result_witness :
  exists series t,
    getitem "era5" (Geodata.weather_data_config Scenario.single_cutout) = Some series
    /\ Geodata.tasks_func series [Scenario.jan] = Return [t]
    /\ Geodata.prepare_func t (Geodata.kwargs t)
       = Return (Eager (Some [(Scenario.jan,
                               Some (Scenario.series_ds "wnd" [0; 1] [5; 6]))])).
Proof.
  destruct (produce_specific_dataseries_result Scenario.single_cutout Scenario.jan "era5"
              Scenario.empty_disk Scenario.empty_disk
              (Return (Some (Scenario.series_ds "wnd" [0; 1] [5; 6])))) as [_ Hr].
  { vm_compute. reflexivity. }
  exact (Hr _ eq_refl).
Defined.

(** In atlite a result without dataset makes the task raise. *)
Lemma atlite_do_task_raises_on_absent_dataset :
  Atlite.cutout_do_task Scenario.atl_sparse_task true Scenario.archive_disk
  = (Raise NoneType_data_vars, Scenario.archive_disk).
Proof. reflexivity. Qed.

Lemma do_task_absent_dataset_witness :
  Geodata.cutout_do_task Scenario.sparse_task true Scenario.archive_disk
  = Geodata.cutout_do_task
      (with_results Scenario.sparse_task
         (Eager (Some [(Scenario.feb, Some (Scenario.series_ds "wnd" [2; 3] [7; 8]))])))
      true Scenario.archive_disk
  /\ Atlite.cutout_do_task Scenario.atl_sparse_task true Scenario.archive_disk
     = (Raise NoneType_data_vars, Scenario.archive_disk).
Proof.
  destruct (do_task_absent_dataset Scenario.sparse_task
              (Eager (Some [(Scenario.jan, None);
                            (Scenario.feb, Some (Scenario.series_ds "wnd" [2; 3] [7; 8]))]))
              Scenario.atl_sparse_task
              {[Some Scenario.jan := Path "/data/europe" "201101.nc"]}
              (Eager (Some [(Some Scenario.jan, None)]))
              [] [] (Some Scenario.jan) Scenario.archive_disk Scenario.archive_disk)
    as [Hg Ha].
  split.
  - destruct (Hg eq_refl) as [Heq _]. exact Heq.
  - apply Ha; [reflexivity|by intros [? [=]]|reflexivity|reflexivity|reflexivity].
Defined.

(** ** Further properties of the pipeline *)

(** *** Latitude direction and the metadata resolver *)

(** X1: the slice that [_prepare_lat_direction] returns always runs in
    the direction of the dataset; a slice that already does is returned
    unchanged; any other slice has its bounds swapped, and its step negated
    only when the dataset runs north to south (the step is kept as it is
    when it runs south to north). *)
Theorem prepare_lat_direction_oriented {A} `{PyNum A}
    (lat_direction : bool) (ys : slice A) :
  let r := _prepare_lat_direction lat_direction ys in
  oriented lat_direction r = true
  /\ (oriented lat_direction ys = true -> r = ys)
  /\ (oriented lat_direction ys = false ->
      start r = stop ys /\ stop r = start ys
      /\ step r = if lat_direction then step ys else py_neg <$> step ys).
Proof.
  destruct ys as [a b s]. unfold _prepare_lat_direction, oriented.
  destruct lat_direction; cbn [negb andb start stop step].
  - destruct (py_lt b a) eqn:E; cbn [start stop step negb].
    + rewrite (py_lt_asym _ _ E). split; [done|]. split; [done|].
      intros _. by destruct s.
    + rewrite E. done.
  - destruct (py_gt b a) eqn:E; cbn [start stop step negb].
    + rewrite (py_gt_asym _ _ E). split; [done|]. split; [done|].
      intros _. by destruct s.
    + rewrite E. done.
Qed.

Lemma geodata_get_meta_shape {A} `{PyNum A}
    (cutout : meta_cutout A) (xs ys : slice A) (years : slice Z)
    (months : option (slice Z)) (dataset_params : gmap string string)
    (meta : meta_dataset) :
  Geodata.cutout_get_meta cutout xs ys years months dataset_params = Return meta ->
  exists ds t,
    meta_prepare_func cutout xs (_prepare_lat_direction (lat_direction cutout) ys)
      (stop years) (stop (months_or_default months)) = Return ds
    /\ meta = stack_year_month
                (set_time t
                   (set_month (py_range (start (months_or_default months))
                                        (stop (months_or_default months) + 1))
                      (set_year (py_range (start years) (stop years + 1))
                         (attrs_update dataset_params ds)))).
Proof.
  unfold Geodata.cutout_get_meta.
  destruct (meta_prepare_func _ _ _ _ _) as [ds|e]; [|done].
  destruct (Timestamp_ym _ _) as [ms|e]; [|done].
  match goal with
  | |- match ?tm with _ => _ end = _ -> _ => destruct tm as [t|e]; [|done]
  end.
  intros [= <-]. eauto.
Qed.

Lemma atlite_get_meta_shape {A}
    (prepare_func : slice A -> slice A -> Z -> Z -> result meta_dataset)
    (lons lats : slice A) (years : slice Z)
    (months : option (slice Z)) (dataset_params : gmap string string)
    (meta : meta_dataset) :
  Atlite.cutout_get_meta prepare_func lons lats years months dataset_params = Return meta ->
  exists ds t,
    prepare_func lons lats (stop years) (stop (months_or_default months)) = Return ds
    /\ meta = stack_year_month
                (set_month (py_range (start (months_or_default months))
                                     (stop (months_or_default months) + 1))
                   (set_year (py_range (start years) (stop years + 1))
                      (set_time t (attrs_update dataset_params ds)))).
Proof.
  unfold Atlite.cutout_get_meta.
  destruct (prepare_func _ _ _ _) as [ds|e]; [|done].
  repeat case_match; try done. intros [= <-]. eauto.
Qed.

Lemma elem_of_py_range (a b x : Z) : x ∈ py_range a b <-> a <= x < b.
Proof. unfold py_range. rewrite elem_of_seqZ. lia. Qed.

Lemma year_month_product (ys ms : list Z) :
  (forall y m, (y, m) ∈ (y ← ys; m ← ms; [(y, m)]) <-> y ∈ ys /\ m ∈ ms)
  /\ length (y ← ys; m ← ms; [(y, m)]) = (length ys * length ms)%nat
  /\ (NoDup ys -> NoDup ms -> NoDup (y ← ys; m ← ms; [(y, m)])).
Proof.
  assert (forall y y' m' : Z, (y', m') ∈ (m ← ms; [(y, m)]) <-> y' = y /\ m' ∈ ms) as Hrow.
  { intros y y' m'. rewrite list_elem_of_bind. split.
    - intros (m & [= -> ->]%list_elem_of_singleton & Hm). done.
    - intros [-> Hm]. exists m'. split; [by apply list_elem_of_singleton|done]. }
  split; [|split].
  - intros y m. rewrite list_elem_of_bind. split.
    + intros (y' & [-> Hm]%Hrow & Hy). done.
    + intros [Hy Hm]. exists y. split; [by apply Hrow|done].
  - induction ys as [|y ys IH]; [done|].
    cbn [mbind list_bind]. rewrite length_app. cbn [length Nat.mul].
    f_equal; [|exact IH].
    clear. induction ms as [|m ms IH]; [done|]. cbn [mbind list_bind app length] in *. by rewrite IH.
  - intros Hys Hms. induction Hys as [|y ys Hy Hys IH]; [constructor|].
    cbn [mbind list_bind]. apply NoDup_app. split; [|split; [|exact IH]].
    + clear -Hms. induction Hms as [|m ms Hm Hms IH]; [constructor|].
      cbn [mbind list_bind app] in *. constructor; [|done].
      intros Hin. apply list_elem_of_bind in Hin as (m' & [= ->]%list_elem_of_singleton & Hm').
      done.
    + intros [y' m'] [-> _]%Hrow Hin'.
      apply list_elem_of_bind in Hin' as (y2 & [-> _]%Hrow & Hy2). done.
Qed.

(** X2: whenever [cutout_get_meta] returns (geodata or atlite), the
    index [year-month] is the full product of the years and of the months
    from start to stop included (months 1 to 12 by default), year-major and
    without repetition: every year of the range with every month of the
    range, and nothing else.  The coordinates [year] and [month] are the two
    levels of that index: entry by entry, the year and the month of the
    period. *)
Theorem get_meta_year_month_index {A} `{PyNum A}
    (cutout : meta_cutout A) (xs ys : slice A) (years : slice Z)
    (months : option (slice Z)) (dataset_params : gmap string string)
    (meta : meta_dataset) :
  Geodata.cutout_get_meta cutout xs ys years months dataset_params = Return meta
  \/ Atlite.cutout_get_meta (meta_prepare_func cutout) xs ys years months dataset_params
     = Return meta ->
  let ms := months_or_default months in
  md_year_month meta
  = (y ← py_range (start years) (stop years + 1);
     m ← py_range (start ms) (stop ms + 1); [(y, m)])
  /\ md_year meta = (md_year_month meta).*1
  /\ md_month meta = (md_year_month meta).*2
  /\ (forall y m, (y, m) ∈ md_year_month meta
                  <-> start years <= y <= stop years /\ start ms <= m <= stop ms)
  /\ length (md_year_month meta)
     = (Z.to_nat (stop years + 1 - start years) * Z.to_nat (stop ms + 1 - start ms))%nat
  /\ NoDup (md_year_month meta).
Proof.
  intros Hr ms.
  assert (md_year_month meta
          = (y ← py_range (start years) (stop years + 1);
             m ← py_range (start ms) (stop ms + 1); [(y, m)])
          /\ md_year meta = (md_year_month meta).*1
          /\ md_month meta = (md_year_month meta).*2)
    as (Hym & Hy & Hm).
  { destruct Hr as [Hr|Hr].
    - apply geodata_get_meta_shape in Hr as (ds & t & _ & ->). done.
    - apply atlite_get_meta_shape in Hr as (ds & t & _ & ->). done. }
  destruct (year_month_product (py_range (start years) (stop years + 1))
              (py_range (start ms) (stop ms + 1))) as (Hin & Hlen & Hnd).
  split; [done|]. split; [done|]. split; [done|]. rewrite Hym. split; [|split].
  - intros y m. rewrite Hin, !elem_of_py_range. lia.
  - rewrite Hlen. unfold py_range. by rewrite !length_seqZ.
  - apply Hnd; apply NoDup_seqZ.
Qed.

Lemma month_index_inv (y m : Z) :
  valid_month m = true ->
  month_index y m / 12 = y /\ month_index y m mod 12 + 1 = m.
Proof.
  unfold valid_month, month_index. intros Hm.
  assert (1 <= m <= 12) as Hr by lia. clear Hm.
  Z.div_mod_to_equations. lia.
Qed.

Lemma month_of_index (k : Z) :
  valid_month (k mod 12 + 1) = true /\ month_index (k / 12) (k mod 12 + 1) = k.
Proof.
  unfold valid_month, month_index. Z.div_mod_to_equations. lia.
Qed.

Lemma days_before_year_succ (y : Z) :
  _days_before_year (y + 1) = _days_before_year y + 365 + (if isleap y then 1 else 0).
Proof.
  unfold _days_before_year, isleap. cbv zeta.
  replace (y + 1 - 1) with y by lia.
  destruct (y mod 4 =? 0) eqn:E4; destruct (y mod 100 =? 0) eqn:E100;
    destruct (y mod 400 =? 0) eqn:E400; cbn [andb orb negb];
    Z.div_mod_to_equations; lia.
Qed.

(** From the first of a month to the first of the next one. *)
Lemma first_of_month_succ (k : Z) :
  _ymd2ord ((k + 1) / 12) ((k + 1) mod 12 + 1) 1
  = _ymd2ord (k / 12) (k mod 12 + 1) 1 + days_in_month (k / 12) (k mod 12 + 1).
Proof.
  destruct (month_of_index k) as [Hm _].
  set (y := k / 12). set (m := k mod 12 + 1). fold m in Hm.
  assert ((m = 12 /\ (k + 1) / 12 = y + 1 /\ (k + 1) mod 12 + 1 = 1)
          \/ (m < 12 /\ (k + 1) / 12 = y /\ (k + 1) mod 12 + 1 = m + 1)) as Hcase.
  { subst y m. Z.div_mod_to_equations. lia. }
  destruct Hcase as [(Hm12 & -> & ->)|(Hlt & -> & ->)].
  - rewrite Hm12. unfold _ymd2ord. rewrite days_before_year_succ.
    unfold _days_before_month, days_in_month. simpl. destruct (isleap y); simpl; lia.
  - unfold _ymd2ord, _days_before_month, days_in_month.
    apply valid_month_cases in Hm.
    repeat (destruct Hm as [Hm|Hm]); rewrite ?Hm in *; try lia;
      simpl; destruct (isleap y); simpl; lia.
Qed.

Lemma np_take_first_second_last (l : list Z) (t0 t1 tl : Z) :
  l !! 0%nat = Some t0 -> l !! 1%nat = Some t1 -> last l = Some tl ->
  np_take l [0; 1; -1] = Return [t0; t1; tl].
Proof.
  intros H0 H1 Hl. pose proof (lookup_lt_Some _ _ _ H1) as Hlen.
  rewrite last_lookup in Hl.
  unfold np_take, np_index.
  replace (0 <? 0) with false by lia. replace (1 <? 0) with false by lia.
  replace (-1 <? 0) with true by lia.
  replace ((0 <=? 0) && (0 <? Z.of_nat (length l))) with true by lia.
  replace ((0 <=? 1) && (1 <? Z.of_nat (length l))) with true by lia.
  replace ((0 <=? -1 + Z.of_nat (length l)) && (-1 + Z.of_nat (length l) <? Z.of_nat (length l)))
    with true by lia.
  change (Z.to_nat 0) with 0%nat. change (Z.to_nat 1) with 1%nat.
  replace (Z.to_nat (-1 + Z.of_nat (length l))) with (pred (length l)) by lia.
  by rewrite H0, H1, Hl.
Qed.

Lemma date_range_regular (s e f : Z) :
  0 < f -> s <= e ->
  date_range s e f = Return ((fun k => s + k * f) <$> seqZ 0 ((e - s) / f + 1))
  /\ forall t, t ∈ (fun k => s + k * f) <$> seqZ 0 ((e - s) / f + 1)
               <-> exists k, 0 <= k /\ t = s + k * f /\ t <= e.
Proof.
  intros Hf Hse. split.
  - unfold date_range. replace (f <=? 0) with false by lia.
    by replace (e <? s) with false by lia.
  - intros t. rewrite list_elem_of_fmap. setoid_rewrite elem_of_seqZ. split.
    + intros (k & -> & Hk). exists k. split; [lia|]. split; [done|].
      assert (k <= (e - s) / f) as Hle by lia.
      pose proof (Z.mul_div_le (e - s) f Hf). nia.
    + intros (k & Hk & -> & Hle). exists k. split; [done|].
      assert (k <= (e - s) / f); [|lia].
      apply Z.div_le_lower_bound; [done|]. lia.
Qed.

Lemma month_index_year_range (y0 m0 y1 m1 k : Z) :
  valid_month m0 = true -> valid_month m1 = true ->
  month_index y0 m0 <= k <= month_index y1 m1 -> y0 <= k / 12 <= y1.
Proof.
  unfold valid_month, month_index. intros H0 H1 Hk.
  assert (1 <= m0 <= 12 /\ 1 <= m1 <= 12) as Hr by lia. clear H0 H1.
  Z.div_mod_to_equations. lia.
Qed.

Lemma Timestamp_ym_of_index (k : Z) :
  1678 <= k / 12 <= 2261 ->
  Timestamp_ym (k / 12) (k mod 12 + 1)
  = Return (ts_of_ordinal (_ymd2ord (k / 12) (k mod 12 + 1) 1)).
Proof.
  intros Hy. destruct (month_of_index k) as [Hm _].
  pose proof (days_in_month_range (k / 12) _ Hm).
  apply Timestamp_ymd_in_range; [done|done|lia].
Qed.

(** X3: with monthly granularity and a range of months whose start does
    not lie after its end (years 1678 to 2261), the time axis is the first
    day of every calendar month from the start month to the end month, each
    once and in order: consecutive entries lie one month length apart. *)
Theorem get_meta_monthly_time_axis {A} `{PyNum A}
    (cutout : meta_cutout A) (xs ys : slice A) (years : slice Z)
    (months : option (slice Z)) (dataset_params : gmap string string)
    (ds : meta_dataset) :
  let y0 := start years in
  let y1 := stop years in
  let m0 := start (months_or_default months) in
  let m1 := stop (months_or_default months) in
  let k0 := month_index y0 m0 in
  let k1 := month_index y1 m1 in
  file_granularity cutout = "monthly" ->
  meta_prepare_func cutout xs (_prepare_lat_direction (lat_direction cutout) ys)
    y1 m1 = Return ds ->
  valid_month m0 = true -> valid_month m1 = true ->
  1678 <= y0 -> y1 <= 2261 -> k0 <= k1 ->
  exists meta,
    Geodata.cutout_get_meta cutout xs ys years months dataset_params = Return meta
    /\ length (md_time meta) = Z.to_nat (k1 - k0 + 1)
    /\ (forall t, t ∈ md_time meta <->
          exists y m, valid_month m = true /\ k0 <= month_index y m <= k1
                      /\ Timestamp_ym y m = Return t)
    /\ (forall (i : nat) a b,
          md_time meta !! i = Some a -> md_time meta !! S i = Some b ->
          exists y m, valid_month m = true /\ month_index y m = k0 + Z.of_nat i
                      /\ Timestamp_ym y m = Return a
                      /\ b = a + days_in_month y m * ns_per_day).
Proof.
  intros y0 y1 m0 m1 k0 k1 Hg Hp Hm0 Hm1 Hy0 Hy1 Hk.
  assert (forall k, k0 <= k <= k1 -> 1678 <= k / 12 <= 2261) as Hyear.
  { intros k Hkk. pose proof (month_index_year_range y0 m0 y1 m1 k Hm0 Hm1 Hkk). lia. }
  assert (y0 <= y1) as Hy.
  { pose proof (month_index_year_range y0 m0 y1 m1 k0 Hm0 Hm1 ltac:(lia)) as Hr.
    destruct (month_index_inv y0 m0 Hm0) as [Hd _]. fold k0 in Hd. lia. }
  pose proof (days_in_month_range y0 m0 Hm0). pose proof (days_in_month_range y1 m1 Hm1).
  assert (Timestamp_ym y0 m0 = Return (ts_of_ordinal (_ymd2ord y0 m0 1))) as Hts0
    by (apply Timestamp_ymd_in_range; first [assumption | lia]).
  assert (Timestamp_ym y1 m1 = Return (ts_of_ordinal (_ymd2ord y1 m1 1))) as Hts1
    by (apply Timestamp_ymd_in_range; first [assumption | lia]).
  unfold Geodata.cutout_get_meta. fold y0 y1 m0 m1. rewrite Hp, Hg.
  cbn [String.eqb Ascii.eqb Bool.eqb]. rewrite Hts1, Hts0.
  eexists. split; [reflexivity|]. cbn [md_time set_time stack_year_month].
  unfold date_range_MS. fold k0 k1. split; [|split].
  - by rewrite length_fmap, length_seqZ.
  - intros t. rewrite list_elem_of_fmap. setoid_rewrite elem_of_seqZ. split.
    + intros (k & -> & Hkk). exists (k / 12), (k mod 12 + 1).
      destruct (month_of_index k) as [Hm ->]. split; [done|]. split; [lia|].
      apply Timestamp_ym_of_index, Hyear. lia.
    + intros (y & m & Hm & Hkk & Ht). exists (month_index y m).
      split; [|lia]. destruct (month_index_inv y m Hm) as [Hd Hmod].
      pose proof (Timestamp_ym_of_index (month_index y m) (Hyear _ Hkk)) as Hts.
      rewrite Hd, Hmod in *. congruence.
  - intros i a b. rewrite !list_lookup_fmap. intros Ha Hb.
    destruct (seqZ _ _ !! i) as [ka|] eqn:Ea; [|discriminate].
    destruct (seqZ _ _ !! S i) as [kb|] eqn:Eb; [|discriminate].
    apply lookup_seqZ in Ea as [-> Hi]. apply lookup_seqZ in Eb as [-> Hi'].
    simpl in Ha, Hb. injection Ha as <-. injection Hb as <-.
    exists ((k0 + Z.of_nat i) / 12), ((k0 + Z.of_nat i) mod 12 + 1).
    destruct (month_of_index (k0 + Z.of_nat i)) as [Hm Hidx].
    split; [done|]. split; [done|].
    split; [apply Timestamp_ym_of_index, Hyear; lia|].
    replace (k0 + Z.of_nat (S i)) with (k0 + Z.of_nat i + 1) by lia.
    rewrite first_of_month_succ. unfold ts_of_ordinal. lia.
Qed.

Lemma components_hours_whole (h : Z) :
  0 <= h <= 23 -> components_hours (h * ns_per_hour) = h.
Proof.
  intros Hh. unfold components_hours, ns_per_day.
  assert (0 < ns_per_hour) as Hpos by (vm_compute; reflexivity).
  rewrite Z.mod_small by nia. by apply Z.div_mul, Z.neq_sym, Z.lt_neq.
Qed.

Lemma check_bounds_in_range (v : Z) :
  ts_min <= v <= ts_max -> check_bounds v = Return v.
Proof.
  intros Hv. unfold check_bounds.
  replace (ts_min <=? v) with true by lia. by replace (v <=? ts_max) with true by lia.
Qed.

Lemma add_MonthBegin_in_range (y m : Z) :
  1678 <= y <= 2260 -> valid_month m = true ->
  exists next_month, add_MonthBegin y m = Return next_month.
Proof.
  intros Hy Hm. unfold add_MonthBegin, Timestamp_ym.
  destruct (m =? 12) eqn:E.
  - rewrite Timestamp_ymd_in_range; [eauto|lia|done|vm_compute; done].
  - assert (valid_month (m + 1) = true) as Hm' by (unfold valid_month in *; lia).
    pose proof (days_in_month_range y _ Hm').
    rewrite Timestamp_ymd_in_range; [eauto|lia|done|lia].
Qed.

(** The computation of the [daily] policy once the three samples are
    read. *)
Lemma geodata_daily_result {A} `{PyNum A}
    (cutout : meta_cutout A) (xs ys : slice A) (years : slice Z)
    (months : option (slice Z)) (dataset_params : gmap string string)
    (ds : meta_dataset) (t0 t1 tl : Z) :
  let y0 := start years in
  let y1 := stop years in
  let m0 := start (months_or_default months) in
  let m1 := stop (months_or_default months) in
  let s := ts_of_ordinal (_ymd2ord y0 m0 1) + (t0 - ts_of_ordinal (_ymd2ord y1 m1 1)) in
  file_granularity cutout = "daily" ->
  meta_prepare_func cutout xs (_prepare_lat_direction (lat_direction cutout) ys)
    y1 m1 = Return ds ->
  md_time ds !! 0%nat = Some t0 -> md_time ds !! 1%nat = Some t1 ->
  last (md_time ds) = Some tl ->
  valid_month m0 = true -> valid_month m1 = true ->
  1678 <= y0 <= 2261 -> 1678 <= y1 <= 2260 ->
  ts_min <= s <= ts_max -> ts_min <= tl <= ts_max ->
  exists base,
    md_attrs base = dataset_params ∪ md_attrs ds
    /\ Geodata.cutout_get_meta cutout xs ys years months dataset_params
       = match date_range s tl (components_hours (t1 - t0) * ns_per_hour) with
         | Return t => Return (stack_year_month (set_time t base))
         | Raise e => Raise e
         end.
Proof.
  intros y0 y1 m0 m1 s Hg Hp H0 H1 Hl Hm0 Hm1 Hy0 Hy1 Hs Htl.
  pose proof (days_in_month_range y0 m0 Hm0). pose proof (days_in_month_range y1 m1 Hm1).
  destruct (add_MonthBegin_in_range y1 m1 Hy1 Hm1) as [nm Hnm].
  unfold Geodata.cutout_get_meta. fold y0 y1 m0 m1. rewrite Hp, Hg.
  unfold Timestamp_ym. cbn [String.eqb Ascii.eqb Bool.eqb].
  rewrite !Timestamp_ymd_in_range by first [assumption | lia].
  cbn [md_time attrs_update set_year set_month].
  rewrite (np_take_first_second_last _ _ _ _ H0 H1 Hl), Hnm.
  fold s. rewrite (check_bounds_in_range s Hs).
  replace (nm + (tl - nm)) with tl by lia. rewrite (check_bounds_in_range tl Htl).
  eexists. split; [|reflexivity]. reflexivity.
Qed.

(** X4: with daily granularity, the time axis starts at the first sample
    of the probe moved from the end month back to the start month, advances
    by the whole hours between the first two samples of the probe, and holds
    every such instant up to the last sample of the probe. *)
Theorem get_meta_daily_time_axis {A} `{PyNum A}
    (cutout : meta_cutout A) (xs ys : slice A) (years : slice Z)
    (months : option (slice Z)) (dataset_params : gmap string string)
    (ds : meta_dataset) (t0 t1 tl : Z) :
  let y0 := start years in
  let y1 := stop years in
  let m0 := start (months_or_default months) in
  let m1 := stop (months_or_default months) in
  let h := components_hours (t1 - t0) in
  let s := ts_of_ordinal (_ymd2ord y0 m0 1) + (t0 - ts_of_ordinal (_ymd2ord y1 m1 1)) in
  file_granularity cutout = "daily" ->
  meta_prepare_func cutout xs (_prepare_lat_direction (lat_direction cutout) ys)
    y1 m1 = Return ds ->
  md_time ds !! 0%nat = Some t0 -> md_time ds !! 1%nat = Some t1 ->
  last (md_time ds) = Some tl ->
  valid_month m0 = true -> valid_month m1 = true ->
  1678 <= y0 <= 2261 -> 1678 <= y1 <= 2260 ->
  1 <= h -> ts_min <= s -> s <= tl -> tl <= ts_max ->
  exists meta,
    Geodata.cutout_get_meta cutout xs ys years months dataset_params = Return meta
    /\ head (md_time meta) = Some s
    /\ (forall t, t ∈ md_time meta <->
          exists k, 0 <= k /\ t = s + k * (h * ns_per_hour) /\ t <= tl)
    /\ (forall (i : nat) a b,
          md_time meta !! i = Some a -> md_time meta !! S i = Some b ->
          b = a + h * ns_per_hour).
Proof.
  intros y0 y1 m0 m1 h s Hg Hp H0 H1 Hl Hm0 Hm1 Hy0 Hy1 Hh Hs Hse Htl.
  destruct (geodata_daily_result cutout xs ys years months dataset_params ds t0 t1 tl
              Hg Hp H0 H1 Hl Hm0 Hm1 Hy0 Hy1) as (base & _ & ->).
  { fold y0 y1 m0 m1 s. lia. }
  { lia. }
  fold y0 y1 m0 m1 s h.
  assert (0 < h * ns_per_hour) as Hf by (unfold ns_per_hour; lia).
  destruct (date_range_regular s tl _ Hf Hse) as [-> Hin].
  eexists. split; [reflexivity|]. cbn [md_time set_time stack_year_month].
  split; [|split; [exact Hin|]].
  - assert (0 <= (tl - s) / (h * ns_per_hour)) by (apply Z.div_pos; lia).
    rewrite seqZ_cons by lia. simpl. f_equal. lia.
  - intros i a b. rewrite !list_lookup_fmap. intros Ha Hb.
    destruct (seqZ _ _ !! i) as [ka|] eqn:Ea; [|discriminate].
    destruct (seqZ _ _ !! S i) as [kb|] eqn:Eb; [|discriminate].
    apply lookup_seqZ in Ea as [-> _]. apply lookup_seqZ in Eb as [-> _].
    simpl in Ha, Hb. injection Ha as <-. injection Hb as <-. lia.
Qed.

(** X5: with daily granularity and a request for a single month, a probe
    whose samples are regular, a whole number of hours (1 to 23) apart,
    gets its own time axis back. *)
Theorem get_meta_daily_single_month_round_trip {A} `{PyNum A}
    (cutout : meta_cutout A) (xs ys : slice A) (year month : Z)
    (step_y step_m : option Z) (dataset_params : gmap string string)
    (ds : meta_dataset) (t0 h n : Z) :
  file_granularity cutout = "daily" ->
  meta_prepare_func cutout xs (_prepare_lat_direction (lat_direction cutout) ys)
    year month = Return ds ->
  md_time ds = (fun k => t0 + k * (h * ns_per_hour)) <$> seqZ 0 n ->
  2 <= n -> 1 <= h <= 23 ->
  valid_month month = true -> 1678 <= year <= 2260 ->
  ts_min <= t0 -> t0 + (n - 1) * (h * ns_per_hour) <= ts_max ->
  exists meta,
    Geodata.cutout_get_meta cutout xs ys (Slice year year step_y)
      (Some (Slice month month step_m)) dataset_params = Return meta
    /\ md_time meta = md_time ds.
Proof.
  intros Hg Hp Ht Hn Hh Hm Hy Hlo Hhi.
  assert (0 < h * ns_per_hour) as Hf by (unfold ns_per_hour; lia).
  set (tl := t0 + (n - 1) * (h * ns_per_hour)) in *.
  assert (md_time ds !! 0%nat = Some t0) as H0.
  { rewrite Ht, list_lookup_fmap, seqZ_cons by lia. simpl. f_equal. lia. }
  assert (md_time ds !! 1%nat = Some (t0 + h * ns_per_hour)) as H1.
  { rewrite Ht, list_lookup_fmap.
    rewrite (lookup_seqZ_lt 0 n 1) by lia. simpl. f_equal. lia. }
  assert (last (md_time ds) = Some tl) as Hl.
  { rewrite Ht, fmap_last, last_lookup, length_seqZ.
    rewrite (lookup_seqZ_lt 0 n (Nat.pred (Z.to_nat n))) by lia. simpl. unfold tl.
    f_equal. f_equal. lia. }
  destruct (geodata_daily_result cutout xs ys (Slice year year step_y)
              (Some (Slice month month step_m)) dataset_params ds t0 _ tl
              Hg Hp H0 H1 Hl Hm Hm) as (base & _ & ->);
    cbn [start stop months_or_default]; try lia; try (unfold tl; nia).
  replace (t0 + h * ns_per_hour - t0) with (h * ns_per_hour) by lia.
  rewrite components_hours_whole by lia.
  replace (ts_of_ordinal (_ymd2ord year month 1)
           + (t0 - ts_of_ordinal (_ymd2ord year month 1))) with t0 by lia.
  destruct (date_range_regular t0 tl _ Hf ltac:(unfold tl; nia)) as [-> _].
  eexists. split; [reflexivity|]. cbn [md_time set_time stack_year_month].
  rewrite Ht. do 2 f_equal. unfold tl.
  replace (t0 + (n - 1) * (h * ns_per_hour) - t0) with ((n - 1) * (h * ns_per_hour)) by lia.
  rewrite Z.div_mul by lia. lia.
Qed.

(** X6: with daily-means or monthly granularity, geodata's
    [cutout_get_meta] never reads the time coordinate of the probe:
    replacing that coordinate by any other list changes nothing of what the
    function returns or raises. *)
Theorem get_meta_ignores_probe_time {A} `{PyNum A}
    (cutout : meta_cutout A) (xs ys : slice A) (years : slice Z)
    (months : option (slice Z)) (dataset_params : gmap string string)
    (time : list Z) :
  file_granularity cutout = "dailymeans" \/ file_granularity cutout = "monthly" ->
  Geodata.cutout_get_meta (with_probe_time time cutout) xs ys years months dataset_params
  = Geodata.cutout_get_meta cutout xs ys years months dataset_params.
Proof.
  intros Hg. unfold Geodata.cutout_get_meta, with_probe_time.
  cbn [lat_direction meta_prepare_func file_granularity].
  destruct (meta_prepare_func cutout _ _ _ _) as [ds|e]; [|done].
  destruct (Timestamp_ym _ _) as [ms|e]; [|done].
  destruct Hg as [-> | ->]; cbn [String.eqb Ascii.eqb Bool.eqb]; repeat case_match; done.
Qed.

(** X7: with daily granularity, geodata's [cutout_get_meta] returns a
    dataset exactly when atlite's [cutout_get_meta], called on the
    normalised latitude slice, returns it. *)
Theorem geodata_daily_get_meta_is_atlite {A} `{PyNum A}
    (cutout : meta_cutout A) (xs ys : slice A) (years : slice Z)
    (months : option (slice Z)) (dataset_params : gmap string string)
    (meta : meta_dataset) :
  file_granularity cutout = "daily" ->
  Geodata.cutout_get_meta cutout xs ys years months dataset_params = Return meta
  <-> Atlite.cutout_get_meta (meta_prepare_func cutout) xs
        (_prepare_lat_direction (lat_direction cutout) ys) years months dataset_params
      = Return meta.
Proof.
  intros Hg. unfold Geodata.cutout_get_meta, Atlite.cutout_get_meta. rewrite Hg.
  cbn [String.eqb Ascii.eqb Bool.eqb].
  destruct (meta_prepare_func cutout _ _ _ _) as [ds|e]; [|done].
  cbn [md_time attrs_update set_year set_month].
  destruct (np_take (md_time ds) [0; 1; -1]) as [[|t0 [|t1 [|tl [|? ?]]]]|e];
    destruct (Timestamp_ym (stop years) _) as [ms|e1]; try done.
  destruct (add_MonthBegin _ _) as [nm|e2]; [|done].
  destruct (Timestamp_ym (start years) _) as [first|e3]; [|done].
  destruct (check_bounds (first + _)) as [rs|e4]; [|done].
  destruct (check_bounds (nm + _)) as [re|e5]; [|done].
  destruct (date_range _ _ _) as [t|e6]; done.
Qed.

(** *** The task executor: errors and contents *)

(** X8: when the call of the prepare function of a task raises [e], the
    task raises [e] and has written nothing, in write mode and in query
    mode, in geodata and in atlite; unless [e] has no [args]: then the
    handler, which reads [e.args[0]] for its log message, raises
    [IndexError] in its place.  A prepare function that is a generator
    raises only as it is iterated: in write mode the results it yielded
    before stay written, and what it raises goes through the same handler;
    in query mode the task hands the generator back without running it and
    raises nothing. *)
Theorem do_task_reraises_provider_error
    (t : Geodata.task) (t' : Atlite.task) (w : bool) (fs fs1 fs1' : filesystem) (e : exn)
    (d : gmap yearmonth path) (yields : list (yearmonth * option dataset))
    (d' : gmap (option yearmonth) path)
    (yields' : list (option yearmonth * option dataset)) (ending : option exn) :
  (Geodata.prepare_func t (Geodata.kwargs t) = Raise e ->
   (w = true -> is_Some (Geodata.datasetfns t)) ->
   Geodata.cutout_do_task t w fs = (Raise (reraised e), fs))
  /\ (source_opens t' fs ->
      Atlite.prepare_func t' (Atlite.kwargs t') (source_dataset t' fs) = Raise e ->
      (w = true -> is_Some (Atlite.datasetfns t')) ->
      Atlite.cutout_do_task t' w fs = (Raise (reraised e), fs))
  /\ (Geodata.datasetfns t = Some d ->
      Geodata.prepare_func t (Geodata.kwargs t) = Return (Generator yields (Some e)) ->
      for_each yields (Geodata.write_result d) fs = (Return tt, fs1) ->
      Geodata.cutout_do_task t true fs = (Raise (reraised e), fs1))
  /\ (Atlite.datasetfns t' = Some d' -> source_opens t' fs ->
      Atlite.prepare_func t' (Atlite.kwargs t') (source_dataset t' fs)
      = Return (Generator yields' (Some e)) ->
      for_each yields' (Atlite.write_result d') fs = (Return tt, fs1') ->
      Atlite.cutout_do_task t' true fs = (Raise (reraised e), fs1'))
  /\ (Geodata.prepare_func t (Geodata.kwargs t) = Return (Generator yields ending) ->
      Geodata.cutout_do_task t false fs = (Return (Some (Generator yields ending)), fs))
  /\ (source_opens t' fs ->
      Atlite.prepare_func t' (Atlite.kwargs t') (source_dataset t' fs)
      = Return (Generator yields' ending) ->
      Atlite.cutout_do_task t' false fs = (Return (Some (Generator yields' ending)), fs)).
Proof.
  split; [|split; [|split; [|split; [|split]]]].
  - intros He Hd. by apply geodata_do_task_provider_error.
  - intros Hopen He Hd. unfold Atlite.cutout_do_task.
    pose proof (atlite_source_run t' fs Hopen) as Hsrc.
    unfold reraised. destruct w.
    + destruct (Hd eq_refl) as [d0 ->]. rewrite !bind_run. cbn [mret M_ret].
      unfold try_except. rewrite !bind_run, Hsrc. rewrite !bind_run. unfold call at 1.
      rewrite He. by destruct (exn_args e).
    + rewrite !bind_run. cbn [mret M_ret].
      unfold try_except. rewrite !bind_run, Hsrc. rewrite !bind_run. unfold call at 1.
      rewrite He. by destruct (exn_args e).
  - intros Hd Hp Hw.
    rewrite (geodata_do_task_write t d _ fs Hd Hp). cbn [results_of ending_of].
    by rewrite Hw.
  - intros Hd Hopen Hp Hw.
    rewrite (atlite_do_task_write t' d' _ fs Hd Hopen Hp). cbn [results_of ending_of].
    by rewrite Hw.
  - intros Hp. unfold Geodata.cutout_do_task. mrun. by rewrite Hp.
  - intros Hopen Hp. by rewrite (atlite_do_task_query t' _ fs Hopen Hp).
Qed.

(** X9: in atlite's write loop, a result whose dataset has no data
    variable makes the task raise [IndexError]: [next(iter(ds.data_vars))]
    raises a [StopIteration] without [args], which the handler replaces.
    The results before it stay written. *)
Theorem atlite_do_task_dataset_without_variables
    (t : Atlite.task) (d : gmap (option yearmonth) path)
    (data : provided (option yearmonth * option dataset))
    (pre post : list (option yearmonth * option dataset)) (ym : option yearmonth)
    (ds : dataset) (fs fs1 : filesystem) :
  Atlite.datasetfns t = Some d -> source_opens t fs ->
  Atlite.prepare_func t (Atlite.kwargs t) (source_dataset t fs) = Return data ->
  results_of data = pre ++ (ym, Some ds) :: post ->
  data_vars ds = [] ->
  for_each pre (Atlite.write_result d) fs = (Return tt, fs1) ->
  Atlite.cutout_do_task t true fs = (Raise (IndexError "tuple index out of range"), fs1).
Proof.
  intros Hd Hopen Hp Hres Hv Hpre.
  rewrite (atlite_do_task_write t d data fs Hd Hopen Hp), Hres, for_each_app, Hpre.
  cbn [for_each]. rewrite bind_run. unfold Atlite.write_result.
  rewrite bind_run. unfold call, Atlite.first_data_var. rewrite Hv. reflexivity.
Qed.

(** X10: in geodata's write loop, a result for a period that has no
    destination in [datasetfns] makes the task raise [KeyError]; the files
    of the results before it stay written. *)
Theorem geodata_do_task_unknown_period
    (t : Geodata.task) (d : gmap yearmonth path)
    (data : provided (yearmonth * option dataset))
    (pre post : list (yearmonth * option dataset)) (ym : yearmonth)
    (ds : dataset) (fs fs1 : filesystem) :
  Geodata.datasetfns t = Some d ->
  Geodata.prepare_func t (Geodata.kwargs t) = Return data ->
  results_of data = pre ++ (ym, Some ds) :: post ->
  d !! ym = None ->
  for_each pre (Geodata.write_result d) fs = (Return tt, fs1) ->
  Geodata.cutout_do_task t true fs = (Raise (KeyError (ym_str ym)), fs1).
Proof.
  intros Hd Hp Hres Hym Hpre.
  rewrite (geodata_do_task_write t d data fs Hd Hp), Hres, for_each_app, Hpre.
  cbn [for_each]. rewrite bind_run. unfold Geodata.write_result.
  rewrite Hym, bind_run. reflexivity.
Qed.

Lemma lookup_file_to_netcdf_ok (ds : dataset) (fn p : path) (fs fs' : filesystem) :
  to_netcdf ds fn fs = (Return tt, fs') ->
  lookup_file p fs' = if decide (fn = p) then Some ds else lookup_file p fs.
Proof.
  unfold to_netcdf. destruct (fs !! p_dir fn) as [d|] eqn:Ed; intros [= <-].
  case_decide as Hp.
  - subst p. unfold lookup_file. by rewrite lookup_insert_eq; simpl; rewrite lookup_insert_eq.
  - unfold lookup_file. destruct (decide (p_dir p = p_dir fn)) as [Hd|Hd].
    + rewrite Hd, lookup_insert_eq, Ed. simpl.
      rewrite lookup_insert_ne; [done|]. intros Hn. apply Hp.
      destruct p, fn; simpl in *; congruence.
    + rewrite lookup_insert_ne by done. done.
Qed.

Lemma write_loop_last_written (d : gmap yearmonth path) (data : partial_results)
    (fs fs' : filesystem) (p : path) :
  for_each data (Geodata.write_result d) fs = (Return tt, fs') ->
  lookup_file p fs' = match last_written d data p with
                      | Some ds => Some ds
                      | None => lookup_file p fs
                      end.
Proof.
  revert fs. induction data as [|[ym ods] data IH]; intros fs.
  - by intros [= <-].
  - cbn [for_each last_written]. intros Hrun.
    apply bind_inv_return in Hrun as ([] & fs1 & Hw & Hrest).
    rewrite (IH _ Hrest). destruct (last_written d data p) as [ds'|]; [done|].
    destruct ods as [ds|]; [|by injection Hw as <-].
    cbn [Geodata.write_result] in Hw. destruct (d !! ym) as [fn|]; [|done].
    rewrite (lookup_file_to_netcdf_ok ds fn p fs fs1 Hw). by case_decide.
Qed.

(** X11: when a geodata task returns in write mode, it returns [None],
    and every file holds the dataset of the last result written to it, or
    what it held before when no result was written to it; a prepare
    function that returns [None] writes nothing. *)
Theorem geodata_do_task_last_write_wins
    (t : Geodata.task) (d : gmap yearmonth path)
    (data : provided (yearmonth * option dataset)) (fs fs' : filesystem)
    (r : option (provided (yearmonth * option dataset))) (p : path) :
  Geodata.datasetfns t = Some d ->
  Geodata.prepare_func t (Geodata.kwargs t) = Return data ->
  Geodata.cutout_do_task t true fs = (Return r, fs') ->
  r = None
  /\ lookup_file p fs' = match last_written d (results_of data) p with
                         | Some ds => Some ds
                         | None => lookup_file p fs
                         end.
Proof.
  intros Hd Hp. rewrite (geodata_do_task_write t d data fs Hd Hp).
  destruct (for_each _ _ fs) as [[[]|e] fs1] eqn:Ew; [|intros [=]].
  destruct (ending_of data) as [e|]; intros [= <- <-].
  split; [done|]. by apply write_loop_last_written.
Qed.

(** *** Staging names and the pattern of the merge loop *)

Lemma append_nil_r (a : string) : a +:+ "" = a.
Proof. induction a as [|c a IH]; [done|]. by rewrite append_cons, IH. Qed.

Lemma split_last_dot_join (s b e : string) :
  split_last_dot s = Some (b, e) -> b +:+ e = s.
Proof.
  revert b e. induction s as [|c s IH]; intros b e; [done|]. cbn [split_last_dot].
  destruct (split_last_dot s) as [[b' e']|].
  - intros [= <- <-]. rewrite append_cons. f_equal. by apply IH.
  - destruct (Ascii.eqb c "."); [|done]. by intros [= <- <-].
Qed.

(** [os.path.splitext]: the two parts make up the name. *)
Lemma splitext_join (p : string) : (splitext p).1 +:+ (splitext p).2 = p.
Proof.
  unfold splitext. destruct (split_last_dot p) as [[b e]|] eqn:E.
  - destruct (only_dots b); cbn [fst snd].
    + apply append_nil_r.
    + by apply split_last_dot_join.
  - apply append_nil_r.
Qed.

Lemma fnmatch_star_unfold (q n : string) :
  fnmatch (String "*" q) n
  = fnmatch q n || match n with
                   | EmptyString => false
                   | String _ n' => fnmatch (String "*" q) n'
                   end.
Proof. destruct n; reflexivity. Qed.

Lemma fnmatch_cons (c : ascii) (p : string) (d : ascii) (n : string) :
  Ascii.eqb c "*" = false ->
  fnmatch (String c p) (String d n) = (Ascii.eqb c "?" || Ascii.eqb c d) && fnmatch p n.
Proof. intros Hc. simpl. by rewrite Hc. Qed.

(** A pattern and a name that start with the same text match when what
    follows matches: every character matches itself. *)
Lemma fnmatch_prefix (a p n : string) :
  fnmatch p n = true -> fnmatch (a +:+ p) (a +:+ n) = true.
Proof.
  intros Hpn. induction a as [|c a IH]; [done|].
  rewrite !append_cons. destruct (Ascii.eqb c "*") eqn:Ec.
  - apply Ascii.eqb_eq in Ec as ->.
    rewrite fnmatch_star_unfold, (fnmatch_star_unfold _ (a +:+ n)), IH.
    by rewrite orb_true_r.
  - rewrite fnmatch_cons by done. by rewrite Ascii.eqb_refl, orb_true_r, IH.
Qed.

Lemma fnmatch_refl (s : string) : fnmatch s s = true.
Proof.
  pose proof (fnmatch_prefix s "" "" eq_refl) as Hs.
  by rewrite append_nil_r in Hs.
Qed.

Lemma count_char_app (c : ascii) (a b : string) :
  count_char c (a +:+ b) = (count_char c a + count_char c b)%nat.
Proof.
  induction a as [|x a IH]; [done|]. rewrite append_cons. cbn [count_char]. rewrite IH. lia.
Qed.

(** A literal character of the pattern is used up by a character of the
    name. *)
Lemma fnmatch_count (c : ascii) (p n : string) :
  Ascii.eqb c "*" = false -> Ascii.eqb c "?" = false ->
  fnmatch p n = true -> (count_char c p <= count_char c n)%nat.
Proof.
  intros Hstar Hq. revert n. induction p as [|x p IH]; intros n.
  - destruct n; [done|discriminate].
  - destruct (Ascii.eqb x "*") eqn:Ex.
    + apply Ascii.eqb_eq in Ex as ->. cbn [count_char]. rewrite Hstar. cbn [Nat.add].
      induction n as [|d n IHn]; rewrite fnmatch_star_unfold.
      * rewrite orb_false_r. apply IH.
      * intros [Hm|Hm]%orb_true_iff; [by apply IH|].
        specialize (IHn Hm). cbn [count_char]. lia.
    + destruct n as [|d n]; [cbn [fnmatch]; by rewrite Ex|]. rewrite fnmatch_cons by done.
      intros [Hxd Hm]%andb_true_iff. specialize (IH _ Hm). cbn [count_char].
      destruct (Ascii.eqb c x) eqn:Ecx; [|lia].
      apply Ascii.eqb_eq in Ecx as <-. rewrite Hq in Hxd. cbn [orb] in Hxd.
      rewrite Hxd. lia.
Qed.

Lemma append_inj_l (a b b' : string) : a +:+ b = a +:+ b' -> b = b'.
Proof.
  induction a as [|c a IH]; [done|]. rewrite !append_cons. intros [= Heq]. by apply IH.
Qed.

Lemma staging_names (c : Geodata.cutout) (ym : yearmonth) :
  exists base ext,
    Geodata.final_name c ym = base +:+ ext
    /\ Geodata.staging_pattern c ym = base +:+ String "-" (String "*" ext)
    /\ forall i, Geodata.staging_name c i ym = base +:+ String "-" (pretty i +:+ ext).
Proof.
  unfold Geodata.final_name, Geodata.staging_pattern, Geodata.staging_name,
    Geodata.datasetfn_with_id, Geodata.datasetfn. cbn [p_name p_dir].
  pose proof (splitext_join (Geodata.datasetfn_name c (Some ym))) as Hj.
  destruct (splitext _) as [base ext]. exists base, ext. done.
Qed.

Lemma ishidden_prefix (base : string) (x : ascii) (a b : string) :
  _ishidden (base +:+ String x a) = _ishidden (base +:+ String x b).
Proof. by destruct base. Qed.

Lemma staging_name_matches (c : Geodata.cutout) (i : nat) (ym : yearmonth) :
  glob_match (Geodata.staging_pattern c ym) (Geodata.staging_name c i ym) = true.
Proof.
  destruct (staging_names c ym) as (base & ext & _ & -> & Hs). rewrite Hs.
  unfold glob_match. rewrite (ishidden_prefix base "-" _ (pretty i +:+ ext)).
  rewrite orb_negb_r. cbn [andb]. apply fnmatch_prefix.
  rewrite fnmatch_cons by done. rewrite Ascii.eqb_refl, orb_true_r. cbn [andb].
  apply fnmatch_star, fnmatch_refl.
Qed.

Lemma final_name_not_matched (c : Geodata.cutout) (ym : yearmonth) :
  glob_match (Geodata.staging_pattern c ym) (Geodata.final_name c ym) = false.
Proof.
  destruct (staging_names c ym) as (base & ext & -> & -> & _).
  unfold glob_match. apply andb_false_intro2, not_true_is_false. intros Hm.
  apply (fnmatch_count "-") in Hm; [|done|done].
  rewrite !count_char_app in Hm. cbn [count_char] in Hm.
  change (Ascii.eqb "-" "-") with true in Hm. change (Ascii.eqb "-" "*") with false in Hm.
  cbv iota in Hm. lia.
Qed.

(** X12: the file that task [i] writes for a period is among the files
    that the merge loop globs for that period (for a directory without
    pattern characters and a file name without separator and bracket, where
    [glob] above is Python's). *)
Theorem glob_finds_what_a_task_writes (c : Geodata.cutout) (i : nat) (ym : yearmonth)
    (ds : dataset) (fs fs' : filesystem) :
  has_magic (Geodata.cutout_dir c) = false ->
  plain_name (Geodata.final_name c ym) = true ->
  to_netcdf ds (Geodata.datasetfn_with_id c i ym) fs = (Return tt, fs') ->
  exists fns,
    glob (Geodata.cutout_dir c) (Geodata.staging_pattern c ym) fs' = (Return fns, fs')
    /\ Geodata.datasetfn_with_id c i ym ∈ fns.
Proof.
  intros _ _. unfold to_netcdf. rewrite datasetfn_with_id_dir.
  destruct (fs !! Geodata.cutout_dir c) as [d|] eqn:Ed; [|done]. intros [= <-].
  unfold glob. rewrite lookup_insert_eq. eexists. split; [reflexivity|].
  apply list_elem_of_fmap. exists (Geodata.staging_name c i ym). split.
  - unfold Geodata.staging_name. pose proof (datasetfn_with_id_dir c i ym).
    destruct (Geodata.datasetfn_with_id c i ym); simpl in *; congruence.
  - apply list_elem_of_filter. split; [apply staging_name_matches|].
    apply elem_of_elements, elem_of_dom. unfold Geodata.staging_name.
    rewrite lookup_insert_eq. eauto.
Qed.

(** X13: the merge loop never takes the final file of a period for one
    of its staging files: the pattern of a period does not match the final
    name of that period (same names as in X12). *)
Theorem glob_never_finds_the_final_file (c : Geodata.cutout) (ym : yearmonth)
    (fs fs' : filesystem) (fns : list path) :
  has_magic (Geodata.cutout_dir c) = false ->
  plain_name (Geodata.final_name c ym) = true ->
  glob (Geodata.cutout_dir c) (Geodata.staging_pattern c ym) fs = (Return fns, fs') ->
  Geodata.datasetfn c (Some ym) ∉ fns.
Proof.
  intros _ _. unfold glob.
  destruct (fs !! Geodata.cutout_dir c) as [d|]; intros [= <- <-];
    [|apply not_elem_of_nil].
  intros (n & [= Hn] & Hin)%list_elem_of_fmap.
  apply list_elem_of_filter in Hin as [Hm _]. subst n.
  pose proof (final_name_not_matched c ym) as Hf. unfold Geodata.final_name in Hf.
  congruence.
Qed.

(** X14: a task never writes to the final file of a period, and two
    tasks never write to the same file of a period: the staging paths
    differ from the final path and differ for different task numbers. *)
Theorem staging_files_are_separate (c : Geodata.cutout) (i j : nat) (ym : yearmonth) :
  Geodata.datasetfn_with_id c i ym <> Geodata.datasetfn c (Some ym)
  /\ (i <> j -> Geodata.datasetfn_with_id c i ym <> Geodata.datasetfn_with_id c j ym).
Proof.
  destruct (staging_names c ym) as (base & ext & Hf & _ & Hs).
  split.
  - intros Heq. apply (f_equal p_name) in Heq.
    change (Geodata.staging_name c i ym = Geodata.final_name c ym) in Heq.
    rewrite Hs, Hf in Heq. apply append_inj_l in Heq.
    apply (f_equal String.length) in Heq. cbn [String.length] in Heq.
    rewrite length_append in Heq. lia.
  - intros Hne Heq. apply Hne. apply (f_equal p_name) in Heq.
    change (Geodata.staging_name c i ym = Geodata.staging_name c j ym) in Heq.
    rewrite !Hs in Heq. apply append_inj_l in Heq. injection Heq as Heq.
    apply append_inj_r in Heq as [Heq _]; [|done]. by apply (inj pretty) in Heq.
Qed.

(** *** What [cutout_prepare] leaves untouched *)

Section keeping.
Context {S : Type} (R : relation S) `{!PreOrder R}.

Lemma keeps_pure {A} (r : result A) : keeps R (fun s => (r, s)).
Proof. intros s r' s' [= <- <-]. reflexivity. Qed.

Lemma keeps_read {A} (m : M S A) : (forall s, (m s).2 = s) -> keeps R m.
Proof. intros Hm s r s' Hr. specialize (Hm s). rewrite Hr in Hm. simpl in Hm. by subst s'. Qed.

Lemma keeps_bind_post {A B} (Q : A -> Prop) (m : M S A) (f : A -> M S B) :
  keeps R m -> (forall s a s', m s = (Return a, s') -> Q a) ->
  (forall a, Q a -> keeps R (f a)) -> keeps R (m ≫= f).
Proof.
  intros Hm HQ Hf s r s' Hb.
  apply bind_inv in Hb as [(a & s1 & H1 & H2)|(e & H1 & _)].
  - transitivity s1; [eapply Hm, H1|]. eapply Hf; [eapply HQ, H1|exact H2].
  - eapply Hm, H1.
Qed.

Lemma keeps_bind {A B} (m : M S A) (f : A -> M S B) :
  keeps R m -> (forall a, keeps R (f a)) -> keeps R (m ≫= f).
Proof.
  intros Hm Hf. apply (keeps_bind_post (fun _ => True)); [done|done|]. intros a _. apply Hf.
Qed.

Lemma keeps_for_each {X} (xs : list X) (body : X -> M S unit) :
  (forall x, x ∈ xs -> keeps R (body x)) -> keeps R (for_each xs body).
Proof.
  induction xs as [|x xs IH]; intros Hb; [apply keeps_pure|].
  cbn [for_each]. apply keeps_bind; [apply Hb; left|].
  intros _. apply IH. intros y Hy. apply Hb. by right.
Qed.

Lemma keeps_try_except {A} (body : M S A) (handler : exn -> M S A) :
  keeps R body -> (forall e, keeps R (handler e)) -> keeps R (try_except body handler).
Proof.
  intros Hb Hh s r s'. unfold try_except.
  destruct (body s) as [[a|e] s1] eqn:Eb.
  - intros [= <- <-]. eapply Hb, Eb.
  - intros Hr. transitivity s1; [eapply Hb, Eb|eapply Hh, Hr].
Qed.

Lemma keeps_when (b : bool) (body : M S unit) : keeps R body -> keeps R (when b body).
Proof. intros Hb. destruct b; [exact Hb|apply keeps_pure]. Qed.
End keeping.

Global Instance outside_preorder dir : PreOrder (outside dir).
Proof.
  split.
  - by intros fs dir' _.
  - intros fs1 fs2 fs3 H12 H23 dir' Hne. by rewrite H23, H12.
Qed.

Global Instance touches_only_preorder dir : PreOrder (touches_only dir).
Proof.
  split.
  - intros st. split; [done|reflexivity].
  - intros st1 st2 st3 [Hp12 H12] [Hp23 H23]. split; [congruence|by transitivity (st_fs st2)].
Qed.

Lemma keeps_on_fs (dir : string) {A} (m : M filesystem A) :
  respects (outside dir) m -> keeps (touches_only dir) (on_fs m).
Proof.
  intros Hm st r st' Hr. apply on_fs_inv in Hr as (Hr & Hp & _).
  split; [done|]. eapply Hm, Hr.
Qed.

Lemma rmtree_outside (dir : string) : respects (outside dir) (rmtree dir).
Proof.
  intros fs r fs'. unfold rmtree. destruct (fs !! dir); intros [= <- <-]; [|reflexivity].
  intros dir' Hne. by apply lookup_delete_ne.
Qed.

Lemma mkdir_outside (dir : string) : respects (outside dir) (mkdir dir).
Proof.
  intros fs r fs'. unfold mkdir. destruct (fs !! dir); intros [= <- <-]; [reflexivity|].
  intros dir' Hne. by apply lookup_insert_ne.
Qed.

Lemma to_netcdf_outside (dir : string) (ds : dataset) (fn : path) :
  p_dir fn = dir -> respects (outside dir) (to_netcdf ds fn).
Proof.
  intros <- fs r fs'. unfold to_netcdf.
  destruct (fs !! p_dir fn); intros [= <- <-]; [|reflexivity].
  intros dir' Hne. by apply lookup_insert_ne.
Qed.

Lemma unlink_outside (dir : string) (fn : path) :
  p_dir fn = dir -> respects (outside dir) (unlink fn).
Proof.
  intros <- fs r fs'. unfold unlink.
  destruct (fs !! p_dir fn); [destruct (lookup_file fn fs)|];
    intros [= <- <-]; try reflexivity.
  intros dir' Hne. by apply lookup_insert_ne.
Qed.

Lemma rename_outside (dir : string) (src dst : path) :
  p_dir src = dir -> respects (outside dir) (rename src dst).
Proof.
  intros <- fs r fs'. unfold rename.
  destruct (fs !! p_dir src); [destruct (lookup_file src fs)|];
    [destruct (String.eqb _ _)| |]; intros [= <- <-]; try reflexivity.
  intros dir' Hne. by apply lookup_insert_ne.
Qed.

Lemma glob_dir (dir pattern : string) (fs fs' : filesystem) (fns : list path) :
  glob dir pattern fs = (Return fns, fs') ->
  fs' = fs /\ Forall (fun fn => p_dir fn = dir) fns.
Proof.
  unfold glob. destruct (fs !! dir); intros [= <- <-]; (split; [done|]); [|constructor].
  apply Forall_fmap, Forall_forall. done.
Qed.

Lemma glob_run_any (dir pattern : string) (fs fs' : filesystem) (r : result (list path)) :
  glob dir pattern fs = (r, fs') -> fs' = fs.
Proof. unfold glob. by destruct (fs !! dir); intros [= <- <-]. Qed.

Lemma isdir_state (dir : string) (fs fs' : filesystem) (r : result bool) :
  isdir dir fs = (r, fs') -> fs' = fs.
Proof. by intros [= <- <-]. Qed.

Lemma Pool_keeps {S} (R : relation S) `{!PreOrder R} (np : option Z) : keeps R (Pool np).
Proof.
  destruct np as [n|]; [|apply (keeps_pure R)]. unfold Pool.
  destruct (n <? 1); apply (keeps_pure R).
Qed.

Section frame.
Context `{XArray}.

Lemma geodata_collect_tasks_spec (c : Geodata.cutout) (st st' : cutout_state)
    (r : result (list Geodata.task)) :
  Geodata.collect_tasks c st = (r, st') ->
  st' = st
  /\ forall tasks, r = Return tasks ->
       forall t d ym fn, t ∈ tasks -> Geodata.datasetfns t = Some d -> d !! ym = Some fn ->
                         p_dir fn = Geodata.cutout_dir c.
Proof.
  unfold Geodata.collect_tasks. mrun.
  destruct (getitem _ _) as [series|]; [|by intros [= <- <-]].
  destruct (Geodata.tasks_func series _) as [tasks0|e]; intros [= <- <-]; [|done].
  split; [done|]. intros tasks [= <-] t d ym fn (i & t0 & -> & _)%elem_of_lookup_imap.
  intros [= <-] [_ ->]%lookup_datasetfns. apply datasetfn_with_id_dir.
Qed.

Lemma geodata_prepare_directory_keeps (c : Geodata.cutout) (np : option Z) (gh : bool) :
  keeps (touches_only (Geodata.cutout_dir c)) (Geodata.prepare_directory_and_tasks c np gh).
Proof.
  set (R := touches_only (Geodata.cutout_dir c)).
  assert (forall A (r : cutout_state -> result A * cutout_state),
            (forall st, prepared (r st).2 = prepared st /\ st_fs (r st).2 = st_fs st) ->
            keeps R r) as Hsame.
  { intros A r Hr st res st' Hres. specialize (Hr st). rewrite Hres in Hr.
    destruct Hr as [Hp Hfs]. split; [done|]. simpl in Hfs. rewrite Hfs. reflexivity. }
  unfold Geodata.prepare_directory_and_tasks.
  apply (keeps_bind R).
  { apply (keeps_when R). apply (keeps_bind R); [apply (keeps_pure R)|]. intros h.
    apply (keeps_bind R); [by apply (keeps_read R)|]. intros m. by apply Hsame. }
  intros _. apply (keeps_bind R); [by apply keeps_on_fs, (keeps_read (outside _))|].
  intros is_dir. apply (keeps_bind R).
  { apply (keeps_when R), keeps_on_fs, rmtree_outside. }
  intros _. apply (keeps_bind R); [apply keeps_on_fs, mkdir_outside|].
  intros _. apply (keeps_bind R); [by apply (keeps_read R)|]. intros m.
  apply (keeps_bind R); [by apply keeps_on_fs, to_netcdf_outside|].
  intros _. apply (keeps_bind R).
  { intros st r st' Hr. apply geodata_collect_tasks_spec in Hr as [-> _]. reflexivity. }
  intros tasks. apply (keeps_bind R); [apply (Pool_keeps R)|].
  intros _. apply (keeps_pure R).
Qed.

Lemma geodata_prepare_directory_tasks (c : Geodata.cutout) (np : option Z) (gh : bool)
    (st st1 : cutout_state) (tasks : list Geodata.task) :
  Geodata.prepare_directory_and_tasks c np gh st = (Return tasks, st1) ->
  forall t d ym fn, t ∈ tasks -> Geodata.datasetfns t = Some d -> d !! ym = Some fn ->
                    p_dir fn = Geodata.cutout_dir c.
Proof.
  intros Hr. apply geodata_prepare_directory_spec in Hr as (_ & _ & series & tasks0 & _ & _ & ->).
  intros t d ym fn (i & t0 & -> & _)%elem_of_lookup_imap.
  intros [= <-] [_ ->]%lookup_datasetfns. apply datasetfn_with_id_dir.
Qed.

Lemma geodata_run_tasks_keeps (c : Geodata.cutout) (tasks : list Geodata.task) :
  (forall t d ym fn, t ∈ tasks -> Geodata.datasetfns t = Some d -> d !! ym = Some fn ->
                     p_dir fn = Geodata.cutout_dir c) ->
  keeps (touches_only (Geodata.cutout_dir c)) (Geodata.run_tasks c tasks).
Proof.
  intros Hdest. set (R := touches_only (Geodata.cutout_dir c)).
  unfold Geodata.run_tasks. apply (keeps_try_except R).
  - apply (keeps_bind R); [|intros; apply (keeps_pure R)].
    apply keeps_on_fs. unfold pool_map. apply (respects_map_each (outside _)).
    intros t Ht. apply geodata_do_task_respects; [apply _|].
    intros d ym fn ds Hd Hfn. apply to_netcdf_outside. by eapply Hdest.
  - intros e. apply (keeps_bind R); [apply keeps_on_fs, rmtree_outside|].
    intros _. apply (keeps_pure R).
Qed.

Lemma geodata_merge_period_keeps (c : Geodata.cutout) (gh : bool) (ym : yearmonth) :
  keeps (touches_only (Geodata.cutout_dir c)) (Geodata.merge_period c gh ym).
Proof.
  set (R := touches_only (Geodata.cutout_dir c)). unfold Geodata.merge_period.
  cbn [Geodata.datasetfn p_dir p_name].
  apply (keeps_bind_post R (Forall (fun fn => p_dir fn = Geodata.cutout_dir c))).
  { apply keeps_on_fs. intros fs r fs' Hr. apply glob_run_any in Hr as ->. reflexivity. }
  { intros st fns st' Hr. apply on_fs_inv in Hr as (Hr & _). by apply glob_dir in Hr as [_ ?]. }
  intros fns Hfns.
  assert (keeps R
            (ds ← on_fs (Geodata.open_mfdataset fns);
             ds ← (if gh then
                     m ← get_meta;
                     match getitem "height" (data_vars m) with
                     | Some height => mret (set_data_var "height" height ds)
                     | None => raise (KeyError "height")
                     end
                   else mret ds);
             on_fs (to_netcdf ds (Path (Geodata.cutout_dir c)
                                      (Geodata.datasetfn_name c (Some ym))));;
             for_each fns (fun tfn => on_fs (unlink tfn)))) as Hmerge.
  { apply (keeps_bind R).
    { apply keeps_on_fs. intros fs r fs' Hr. apply open_mfdataset_state in Hr as ->.
      reflexivity. }
    intros ds. apply (keeps_bind R).
    { destruct gh; [|apply (keeps_pure R)].
      apply (keeps_bind R); [by apply (keeps_read R)|]. intros m.
      destruct (getitem _ _); apply (keeps_pure R). }
    intros ds'. apply (keeps_bind R); [by apply keeps_on_fs, to_netcdf_outside|].
    intros _. apply (keeps_for_each R). intros tfn Htfn.
    apply keeps_on_fs, unlink_outside. rewrite Forall_forall in Hfns. by apply Hfns. }
  destruct fns as [|fn0 [|fn1 fns]]; [done| |done].
  destruct gh; [done|]. apply keeps_on_fs, rename_outside. by inversion Hfns.
Qed.

(** What [cutout_prepare] of geodata leaves: every other directory as
    it was, and the flag [prepared] set when it returns, untouched when it
    raises. *)
Lemma geodata_prepare_frame (c : Geodata.cutout) (overwrite : bool) (np : option Z)
    (gh : bool) (st st' : cutout_state) (r : result (option bool)) :
  Geodata.cutout_prepare c overwrite np gh st = (r, st') ->
  outside (Geodata.cutout_dir c) (st_fs st) (st_fs st')
  /\ prepared st' = match r with Return _ => true | Raise _ => prepared st end.
Proof.
  set (R := touches_only (Geodata.cutout_dir c)).
  unfold Geodata.cutout_prepare, get_prepared. rewrite bind_run.
  destruct (prepared st && negb overwrite) eqn:Ego.
  { intros [= <- <-]. split; [reflexivity|]. by apply andb_true_iff in Ego as [-> _]. }
  rewrite bind_run.
  destruct (Geodata.prepare_directory_and_tasks c np gh st) as [[tasks|e] st1] eqn:Eprep;
    pose proof (geodata_prepare_directory_keeps c np gh _ _ _ Eprep) as [Hp1 Hf1].
  2:{ by intros [= <- <-]. }
  pose proof (geodata_prepare_directory_tasks c np gh _ _ _ Eprep) as Hdest.
  rewrite bind_run.
  destruct (Geodata.run_tasks c tasks st1) as [[[]|e] st2] eqn:Erun;
    pose proof (geodata_run_tasks_keeps c tasks Hdest _ _ _ Erun) as [Hp2 Hf2].
  2:{ intros [= <- <-]. split; [by transitivity (st_fs st1)|congruence]. }
  rewrite bind_run.
  destruct (for_each _ _ st2) as [[[]|e] st3] eqn:Eloop;
    pose proof (keeps_for_each R _ _
                  (fun ym _ => geodata_merge_period_keeps c gh ym) _ _ _ Eloop) as [Hp3 Hf3].
  2:{ intros [= <- <-].
      split; [by transitivity (st_fs st1); [|transitivity (st_fs st2)]|congruence]. }
  intros [= <- <-]. cbn [st_fs prepared].
  split; [by transitivity (st_fs st1); [|transitivity (st_fs st2)]|done].
Qed.

Lemma var_path_dir (p : path) (var : string) : p_dir (Atlite.var_path p var) = p_dir p.
Proof. unfold Atlite.var_path. by destruct (splitext _). Qed.

Lemma atlite_collect_tasks_dest (c : Atlite.cutout) (st st' : cutout_state)
    (tasks : list Atlite.task) :
  Atlite.collect_tasks c st = (Return tasks, st') ->
  forall t d ym fn, t ∈ tasks -> Atlite.datasetfns t = Some d -> d !! ym = Some fn ->
                    p_dir fn = Atlite.cutout_dir c.
Proof.
  unfold Atlite.collect_tasks. mrun.
  destruct (Atlite.collect_series_tasks _ _ st) as [[tasks0|e] st1]; [|done].
  intros [= <- <-] t d ym fn (t0 & -> & _)%list_elem_of_fmap [= <-] Hl.
  apply lookup_insert_Some in Hl as [[<- <-]|[_ Hl]]; [done|].
  apply elem_of_list_to_map_2 in Hl.
  by apply list_elem_of_fmap in Hl as (ym' & [= -> ->] & _).
Qed.

Lemma atlite_prepare_directory_keeps (c : Atlite.cutout) :
  keeps (touches_only (Atlite.cutout_dir c)) (Atlite.prepare_directory_and_tasks c).
Proof.
  set (R := touches_only (Atlite.cutout_dir c)).
  unfold Atlite.prepare_directory_and_tasks.
  apply (keeps_bind R); [by apply keeps_on_fs, (keeps_read (outside _))|].
  intros is_dir. apply (keeps_bind R).
  { apply (keeps_when R), keeps_on_fs, rmtree_outside. }
  intros _. apply (keeps_bind R); [apply keeps_on_fs, mkdir_outside|].
  intros _. apply (keeps_bind R).
  { intros st r st' Hr. apply atlite_collect_tasks_state in Hr as ->. reflexivity. }
  intros tasks. apply (keeps_bind R); [apply (Pool_keeps R)|].
  intros _. apply (keeps_pure R).
Qed.

Lemma atlite_prepare_directory_tasks (c : Atlite.cutout)
    (st st1 : cutout_state) (tasks : list Atlite.task) :
  Atlite.prepare_directory_and_tasks c st = (Return tasks, st1) ->
  forall t d ym fn, t ∈ tasks -> Atlite.datasetfns t = Some d -> d !! ym = Some fn ->
                    p_dir fn = Atlite.cutout_dir c.
Proof.
  unfold Atlite.prepare_directory_and_tasks. intros Hr.
  apply bind_inv_return in Hr as (is_dir & s1 & _ & Hr).
  apply bind_inv_return in Hr as ([] & s2 & _ & Hr).
  apply bind_inv_return in Hr as ([] & s3 & _ & Hr).
  apply bind_inv_return in Hr as (tasks0 & s4 & Hc & Hr).
  apply bind_inv_return in Hr as ([] & s5 & _ & Hr).
  injection Hr as <- <-. by eapply atlite_collect_tasks_dest.
Qed.

Lemma atlite_run_tasks_keeps (c : Atlite.cutout) (tasks : list Atlite.task) :
  (forall t d ym fn, t ∈ tasks -> Atlite.datasetfns t = Some d -> d !! ym = Some fn ->
                     p_dir fn = Atlite.cutout_dir c) ->
  keeps (touches_only (Atlite.cutout_dir c)) (Atlite.run_tasks c tasks).
Proof.
  intros Hdest. set (R := touches_only (Atlite.cutout_dir c)).
  unfold Atlite.run_tasks. apply (keeps_try_except R).
  - apply (keeps_bind R); [|intros; apply (keeps_pure R)].
    apply keeps_on_fs. unfold pool_map. apply (respects_map_each (outside _)).
    intros t Ht. apply atlite_do_task_respects; [apply _|].
    intros d ym fn var ds Hd Hfn. apply to_netcdf_outside.
    rewrite var_path_dir. by eapply Hdest.
  - intros e. apply (keeps_bind R); [apply keeps_on_fs, rmtree_outside|].
    intros _. apply (keeps_pure R).
Qed.

Lemma atlite_merge_period_keeps (c : Atlite.cutout) (ym : yearmonth) :
  keeps (touches_only (Atlite.cutout_dir c)) (Atlite.merge_period c ym).
Proof.
  set (R := touches_only (Atlite.cutout_dir c)). unfold Atlite.merge_period.
  apply (keeps_bind R).
  { apply keeps_on_fs, (respects_map_each (outside _)). intros fn _.
    apply (respects_open_dataset (outside _)). }
  intros datasets. apply (keeps_bind R).
  { destruct datasets; apply (keeps_pure R). }
  intros merged. apply (keeps_bind R); [by apply keeps_on_fs, to_netcdf_outside|].
  intros _. apply (keeps_for_each R). intros varfn (var & -> & _)%list_elem_of_fmap.
  apply keeps_on_fs, unlink_outside. by rewrite var_path_dir.
Qed.

Lemma atlite_prepare_frame (c : Atlite.cutout) (overwrite : bool)
    (st st' : cutout_state) (r : result unit) :
  Atlite.cutout_prepare c overwrite st = (r, st') ->
  outside (Atlite.cutout_dir c) (st_fs st) (st_fs st')
  /\ prepared st' = match r with Return _ => true | Raise _ => prepared st end.
Proof.
  set (R := touches_only (Atlite.cutout_dir c)).
  unfold Atlite.cutout_prepare, get_prepared. rewrite bind_run.
  destruct (prepared st && negb overwrite) eqn:Ego.
  { intros [= <- <-]. split; [reflexivity|done]. }
  rewrite bind_run.
  destruct (Atlite.prepare_directory_and_tasks c st) as [[tasks|e] st1] eqn:Eprep;
    pose proof (atlite_prepare_directory_keeps c _ _ _ Eprep) as [Hp1 Hf1].
  2:{ by intros [= <- <-]. }
  pose proof (atlite_prepare_directory_tasks c _ _ _ Eprep) as Hdest.
  rewrite bind_run.
  destruct (Atlite.run_tasks c tasks st1) as [[[]|e] st2] eqn:Erun;
    pose proof (atlite_run_tasks_keeps c tasks Hdest _ _ _ Erun) as [Hp2 Hf2].
  2:{ intros [= <- <-]. split; [by transitivity (st_fs st1)|congruence]. }
  rewrite bind_run.
  destruct (for_each _ _ st2) as [[[]|e] st3] eqn:Eloop;
    pose proof (keeps_for_each R _ _
                  (fun ym _ => atlite_merge_period_keeps c ym) _ _ _ Eloop) as [Hp3 Hf3].
  2:{ intros [= <- <-].
      split; [by transitivity (st_fs st1); [|transitivity (st_fs st2)]|congruence]. }
  intros [= <- <-]. cbn [st_fs prepared].
  split; [by transitivity (st_fs st1); [|transitivity (st_fs st2)]|done].
Qed.

Lemma prefix_same (s : string) : String.prefix s s = true.
Proof. induction s as [|a s IH]; [done|]. cbn. by destruct (Ascii.ascii_dec a a). Qed.

(** X15: whatever [cutout_prepare] returns or raises, in geodata without
    the elevation overlay and in atlite, every directory whose path does not
    begin with the path of [cutout_dir] (the archive itself and whatever
    lies inside it) is on the disk as it was before the call; in geodata,
    for an archive whose path holds no character that [glob] reads as a
    pattern.  (With the overlay, [_prepare_gebco_height] works in a
    temporary directory of its own, which it leaves behind when it
    fails.) *)
Theorem prepare_touches_only_cutout_dir
    (c : Geodata.cutout) (overwrite : bool) (nprocesses : option Z)
    (c' : Atlite.cutout) (st stg sta : cutout_state)
    (rg : result (option bool)) (ra : result unit) (dir : string) :
  (has_magic (Geodata.cutout_dir c) = false ->
   Geodata.cutout_prepare c overwrite nprocesses false st = (rg, stg) ->
   String.prefix (Geodata.cutout_dir c) dir = false ->
   st_fs stg !! dir = st_fs st !! dir)
  /\ (Atlite.cutout_prepare c' overwrite st = (ra, sta) ->
      String.prefix (Atlite.cutout_dir c') dir = false ->
      st_fs sta !! dir = st_fs st !! dir).
Proof.
  split.
  - intros _ Hr Hne. apply geodata_prepare_frame in Hr as [Hf _]. apply Hf.
    intros ->. by rewrite prefix_same in Hne.
  - intros Hr Hne. apply atlite_prepare_frame in Hr as [Hf _]. apply Hf.
    intros ->. by rewrite prefix_same in Hne.
Qed.

(** X16: [cutout_prepare] never clears the flag [prepared]: when it
    returns the flag is set, and when it raises the flag is what it was
    before the call, also when the archive has been purged or is left half
    merged. *)
Theorem prepare_never_clears_prepared
    (c : Geodata.cutout) (overwrite : bool) (nprocesses : option Z) (gebco_height : bool)
    (c' : Atlite.cutout) (st stg sta : cutout_state)
    (rg : result (option bool)) (ra : result unit) :
  (Geodata.cutout_prepare c overwrite nprocesses gebco_height st = (rg, stg) ->
   prepared stg = match rg with Return _ => true | Raise _ => prepared st end)
  /\ (Atlite.cutout_prepare c' overwrite st = (ra, sta) ->
      prepared sta = match ra with Return _ => true | Raise _ => prepared st end).
Proof.
  split.
  - intros Hr. by apply geodata_prepare_frame in Hr as [_ Hp].
  - intros Hr. by apply atlite_prepare_frame in Hr as [_ Hp].
Qed.
End frame.

(** *** Failures outside the worker pool *)

Lemma geodata_set_up_run (c : Geodata.cutout) (st : cutout_state) :
  (is_dir ← on_fs (isdir (Geodata.cutout_dir c));
   when is_dir (on_fs (rmtree (Geodata.cutout_dir c)));;
   on_fs (mkdir (Geodata.cutout_dir c));;
   m ← get_meta;
   on_fs (to_netcdf (Geodata.meta_clean c m) (Geodata.datasetfn c None))) st
  = (Return tt, archive_set_up c st).
Proof.
  unfold archive_set_up, Geodata.meta_name, on_fs, isdir, rmtree, mkdir, to_netcdf,
    get_meta, Geodata.datasetfn.
  mrun. cbn [st_fs prepared meta p_dir p_name].
  destruct (st_fs st !! Geodata.cutout_dir c) eqn:Ed;
    [rewrite bool_decide_true by eauto
    |rewrite bool_decide_false by (intros [? ?]; congruence)];
    cbn [st_fs prepared meta]; rewrite ?Ed; cbn [st_fs prepared meta];
    rewrite ?lookup_delete_eq; cbn [st_fs prepared meta];
    rewrite ?lookup_insert_eq; cbn [st_fs prepared meta];
    by rewrite insert_insert_eq, ?insert_delete_eq.
Qed.

Section before_pool.
Context `{XArray}.


End before_pool.

Lemma getitem_setitem {V} (k : string) (v : V) (d : list (string * V)) :
  getitem k (setitem k v d) = Some v.
Proof.
  induction d as [|[k' v'] d IH]; cbn [setitem getitem].
  - by rewrite String.eqb_refl.
  - destruct (String.eqb k' k) eqn:E; cbn [getitem]; rewrite ?String.eqb_refl, ?E; done.
Qed.

Lemma getitem_setitem_ne {V} (k k' : string) (v : V) (d : list (string * V)) :
  k' <> k -> getitem k' (setitem k v d) = getitem k' d.
Proof.
  intros Hne. induction d as [|[k0 v0] d IH]; cbn [setitem getitem].
  - by apply String.eqb_neq in Hne; rewrite String.eqb_sym, Hne.
  - destruct (String.eqb k0 k) eqn:E; cbn [getitem].
    + apply String.eqb_eq in E as ->.
      apply String.eqb_neq in Hne. by rewrite String.eqb_sym, Hne.
    + by rewrite IH.
Qed.

Section merge.
Context `{XArray}.

Lemma glob_names_run (c : Geodata.cutout) (ym : yearmonth) (st : cutout_state)
    (d : gmap string dataset) :
  st_fs st !! Geodata.cutout_dir c = Some d ->
  on_fs (glob (Geodata.cutout_dir c) (Geodata.staging_pattern c ym)) st
  = (Return (Path (Geodata.cutout_dir c) <$>
             filter (fun n => glob_match (Geodata.staging_pattern c ym) n = true)
                    (elements (dom d))), st).
Proof.
  intros Hd. rewrite (on_fs_run _ st _ (st_fs st) (glob_run _ _ _ _ Hd)). by destruct st.
Qed.

(** X18: in geodata, a period for which the glob of the merge loop finds
    no staging file makes the merge stage raise the [OSError] of
    [open_mfdataset] on an empty list, with the disk untouched. *)
Theorem merge_without_staging_file
    (c : Geodata.cutout) (gebco_height : bool) (ym : yearmonth) (st : cutout_state) :
  glob (Geodata.cutout_dir c) (Geodata.staging_pattern c ym) (st_fs st)
  = (Return [], st_fs st) ->
  Geodata.merge_period c gebco_height ym st = (Raise Geodata.no_files_to_open, st).
Proof.
  intros Hglob. unfold Geodata.merge_period. cbn [Geodata.datasetfn p_dir p_name].
  rewrite bind_run, (on_fs_run _ st _ _ Hglob).
  unfold Geodata.open_mfdataset, on_fs, raise. mrun.
  destruct gebco_height; by destruct st.
Qed.

(** A period with exactly one staging file and no overlay: the file is
    renamed. *)
Lemma merge_single_staging_file_is_renamed
    (c : Geodata.cutout) (ym : yearmonth) (st : cutout_state)
    (d : gmap string dataset) (n0 : string) (ds0 : dataset) :
  st_fs st !! Geodata.cutout_dir c = Some d ->
  filter (fun n => glob_match (Geodata.staging_pattern c ym) n = true) (elements (dom d))
  = [n0] ->
  d !! n0 = Some ds0 ->
  Geodata.merge_period c false ym st
  = (Return tt,
     CutoutState
       (<[Geodata.cutout_dir c := <[Geodata.final_name c ym := ds0]> (delete n0 d)]>
          (st_fs st))
       (prepared st) (meta st)).
Proof.
  intros Hd Hnames Hn0. unfold Geodata.merge_period.
  cbn [Geodata.datasetfn p_dir p_name].
  rewrite bind_run, (glob_names_run c ym st d Hd), Hnames. cbn [fmap list_fmap].
  apply on_fs_run. unfold rename, lookup_file. cbn [p_dir p_name].
  rewrite Hd. cbn [mbind option_bind]. by rewrite Hn0, String.eqb_refl.
Qed.

(** X21: with the elevation overlay, in a directory whose path holds no
    character that [glob] reads as a pattern and for a file name without
    separator or bracket, the merge stage of geodata writes the combined
    dataset with the variable [height] of [cutout.meta]
    set and every other variable as combined, and removes the staging files;
    when [cutout.meta] has no [height] it raises [KeyError] and leaves the
    disk untouched. *)
Theorem merge_with_overlay_adds_height
    (c : Geodata.cutout) (ym : yearmonth) (st : cutout_state)
    (d : gmap string dataset) (datasets : list dataset) (ds : dataset) :
  let names := filter (fun n => glob_match (Geodata.staging_pattern c ym) n = true)
                      (elements (dom d)) in
  let final := Geodata.final_name c ym in
  has_magic (Geodata.cutout_dir c) = false -> plain_name final = true ->
  st_fs st !! Geodata.cutout_dir c = Some d ->
  Forall2 (fun n ds => d !! n = Some ds) names datasets ->
  names <> [] ->
  combine_by_coords datasets = Return ds ->
  (getitem "height" (data_vars (meta st)) = None ->
   Geodata.merge_period c true ym st = (Raise (KeyError "height"), st))
  /\ (forall height,
        getitem "height" (data_vars (meta st)) = Some height ->
        glob_match (Geodata.staging_pattern c ym) final = false ->
        exists st' d',
          Geodata.merge_period c true ym st = (Return tt, st')
          /\ st_fs st' !! Geodata.cutout_dir c = Some d'
          /\ d' !! final = Some (set_data_var "height" height ds)
          /\ getitem "height" (data_vars (set_data_var "height" height ds)) = Some height
          /\ (forall k, k <> "height" ->
                getitem k (data_vars (set_data_var "height" height ds))
                = getitem k (data_vars ds))
          /\ dom d' = ({[final]} ∪ dom d) ∖ list_to_set names).
Proof.
  intros names final _ _ Hd Hall Hne Hcomb.
  assert (Geodata.merge_period c true ym st =
          (ds ← on_fs (Geodata.open_mfdataset (Path (Geodata.cutout_dir c) <$> names));
           ds ← (m ← get_meta;
                 match getitem "height" (data_vars m) with
                 | Some height => mret (set_data_var "height" height ds)
                 | None => raise (KeyError "height")
                 end);
           on_fs (to_netcdf ds (Path (Geodata.cutout_dir c) final));;
           for_each (Path (Geodata.cutout_dir c) <$> names)
                    (fun tfn => on_fs (unlink tfn))) st) as ->.
  { unfold Geodata.merge_period. cbn [Geodata.datasetfn p_dir p_name].
    rewrite bind_run, (glob_names_run c ym st d Hd). fold names.
    by destruct names as [|n0 [|n1 names']]. }
  rewrite bind_run, (merge_branch_run c ym st d names datasets Hd Hall Hne), Hcomb.
  split.
  - intros Hh. rewrite bind_run. unfold get_meta. mrun. by rewrite Hh.
  - intros height Hh Hfinal. rewrite bind_run. unfold get_meta. mrun. rewrite Hh.
    set (ds' := set_data_var "height" height ds).
    rewrite (on_fs_run _ st (Return tt)
               (<[Geodata.cutout_dir c := <[final := ds']> d]> (st_fs st)))
      by (unfold to_netcdf; cbn [p_dir p_name]; by rewrite Hd).
    destruct (unlink_loop_run (Geodata.cutout_dir c) names
                (CutoutState (<[Geodata.cutout_dir c := <[final := ds']> d]> (st_fs st))
                             (prepared st) (meta st))
                (<[final := ds']> d)) as (st' & d' & Hrun & Hd' & Hother & Hdom).
    + apply NoDup_filter, NoDup_elements.
    + cbn [st_fs]. by rewrite lookup_insert_eq.
    + intros n [Hn Hm]%elem_of_glob_names. apply elem_of_dom.
      rewrite dom_insert_L. by apply elem_of_union_r.
    + exists st', d'. split; [done|]. split; [done|]. split; [|split; [|split]].
      * rewrite Hother; [apply lookup_insert_eq|].
        intros [_ Hm]%elem_of_glob_names. congruence.
      * apply getitem_setitem.
      * intros k Hk. by apply getitem_setitem_ne.
      * by rewrite Hdom, dom_insert_L.
Qed.

(** atlite's merge of a period raises, whatever is on the disk, and
    leaves the state as it found it. *)
Lemma atlite_merge_period_raises (c : Atlite.cutout) (ym : yearmonth)
    (st st' : cutout_state) (r : result unit) :
  Atlite.merge_period c ym st = (r, st') -> st' = st /\ exists e, r = Raise e.
Proof.
  unfold Atlite.merge_period. rewrite bind_run.
  destruct (on_fs (map_each open_dataset _) st) as [[datasets|e] st1] eqn:Eopen.
  - apply on_fs_inv in Eopen as (Hopen & Hp & Hm).
    assert (st_fs st1 = st_fs st) as Hfs.
    { symmetry. eapply (respects_map_each eq); [|exact Hopen].
      intros fn _. apply respects_open_dataset, _. }
    intros [= <- <-]. split; [|eauto].
    destruct st, st1; cbn in *; congruence.
  - apply on_fs_inv in Eopen as (Hopen & Hp & Hm).
    assert (st_fs st1 = st_fs st) as Hfs.
    { symmetry. eapply (respects_map_each eq); [|exact Hopen].
      intros fn _. apply respects_open_dataset, _. }
    intros [= <- <-]. split; [|eauto].
    destruct st, st1; cbn in *; congruence.
Qed.

(** X23: atlite's merge stage never merges.  It opens one file per
    series, named after the key of the series: when the file of a series is
    missing it raises [FileNotFoundError]; when every file is there, or
    there is no series at all, it raises [NameError], for the name [reduce]
    that the module calls and does not import.  In every case the disk is
    untouched.  So [cutout_prepare] of atlite returns only on a cutout
    without periods. *)
Theorem atlite_merge_stage_never_merges
    (c : Atlite.cutout) (ym : yearmonth) (st st' : cutout_state)
    (pre post : list string) (k : string) (overwrite : bool) :
  let fn := Atlite.datasetfn c (Some ym) in
  ((forall k', k' ∈ (Atlite.weather_data_config c).*1 ->
               is_Some (lookup_file (Atlite.var_path fn k') (st_fs st))) ->
   Atlite.merge_period c ym st = (Raise (NameError "reduce"), st))
  /\ ((Atlite.weather_data_config c).*1 = pre ++ k :: post ->
      (forall k', k' ∈ pre -> is_Some (lookup_file (Atlite.var_path fn k') (st_fs st))) ->
      lookup_file (Atlite.var_path fn k) (st_fs st) = None ->
      Atlite.merge_period c ym st
      = (Raise (FileNotFoundError (path_str (Atlite.var_path fn k))), st))
  /\ (Atlite.cutout_prepare c overwrite st = (Return tt, st') -> Atlite.yearmonths c = []).
Proof.
  intros fn. split; [|split].
  - intros Hall. unfold Atlite.merge_period. fold fn. rewrite bind_run.
    assert (exists datasets,
              map_each open_dataset
                ((fun var => Atlite.var_path fn var) <$> (Atlite.weather_data_config c).*1)
                (st_fs st)
              = (Return datasets, st_fs st)) as [datasets Hopen].
    { induction ((Atlite.weather_data_config c).*1) as [|k0 ks IH];
        cbn [fmap list_fmap map_each]; [by eexists|].
      destruct (Hall k0 ltac:(left)) as [ds0 Hds0].
      destruct IH as [datasets IH]; [intros k' Hk'; apply Hall; by right|].
      exists (ds0 :: datasets). rewrite bind_run. unfold open_dataset at 1.
      rewrite Hds0. rewrite bind_run. cbn [fmap list_fmap] in IH. by rewrite IH. }
    rewrite (on_fs_run _ st _ _ Hopen). by destruct st.
  - intros Hc Hpre Hk. unfold Atlite.merge_period. fold fn. rewrite Hc.
    rewrite bind_run.
    assert (map_each open_dataset ((fun var => Atlite.var_path fn var) <$> pre ++ k :: post)
              (st_fs st)
            = (Raise (FileNotFoundError (path_str (Atlite.var_path fn k))), st_fs st)) as Hopen.
    { clear Hc. induction pre as [|k0 pre IH]; cbn [app fmap list_fmap map_each].
      - rewrite bind_run. unfold open_dataset at 1. by rewrite Hk.
      - rewrite bind_run. unfold open_dataset at 1.
        destruct (Hpre k0 ltac:(left)) as [ds0 ->]. rewrite bind_run.
        cbn [fmap list_fmap] in IH. rewrite IH; [done|].
        intros k' Hk'. apply Hpre. by right. }
    rewrite (on_fs_run _ st _ _ Hopen). by destruct st.
  - unfold Atlite.cutout_prepare. intros Hrun.
    apply bind_inv_return in Hrun as (p & st0 & Hp & Hrun).
    destruct (p && negb overwrite); [discriminate|].
    apply bind_inv_return in Hrun as (tasks & st1 & _ & Hrun).
    apply bind_inv_return in Hrun as ([] & st2 & _ & Hrun).
    apply bind_inv_return in Hrun as ([] & st3 & Hloop & _).
    destruct (Atlite.yearmonths c) as [|ym0 yms]; [done|].
    cbn [for_each] in Hloop.
    apply bind_inv_return in Hloop as ([] & st4 & Hm & _).
    by apply atlite_merge_period_raises in Hm as [_ [e [=]]].
Qed.
End merge.

Global Instance dir_stays_preorder dir : PreOrder (dir_stays dir).
Proof.
  split.
  - intros fs Hd. exact Hd.
  - intros fs1 fs2 fs3 H12 H23 H1. by apply H23, H12.
Qed.

Global Instance archive_stays_preorder dir : PreOrder (archive_stays dir).
Proof.
  split.
  - intros st. split; [done|reflexivity].
  - intros st1 st2 st3 [Hp12 H12] [Hp23 H23]. split; [congruence|by transitivity (st_fs st2)].
Qed.

Lemma stays_on_fs (dir : string) {A} (m : M filesystem A) :
  respects (dir_stays dir) m -> keeps (archive_stays dir) (on_fs m).
Proof.
  intros Hm st r st' Hr. apply on_fs_inv in Hr as (Hr & Hp & _).
  split; [done|]. eapply Hm, Hr.
Qed.

Lemma insert_dir_stays (dir dir' : string) (d : gmap string dataset) (fs : filesystem) :
  dir_stays dir fs (<[dir' := d]> fs).
Proof.
  intros Hd. destruct (decide (dir = dir')) as [->|Hne].
  - rewrite lookup_insert_eq. eauto.
  - by rewrite lookup_insert_ne.
Qed.

Lemma to_netcdf_stays (dir : string) (ds : dataset) (fn : path) :
  respects (dir_stays dir) (to_netcdf ds fn).
Proof.
  intros fs r fs'. unfold to_netcdf.
  destruct (fs !! p_dir fn); intros [= <- <-]; [apply insert_dir_stays|reflexivity].
Qed.

Lemma unlink_stays (dir : string) (fn : path) : respects (dir_stays dir) (unlink fn).
Proof.
  intros fs r fs'. unfold unlink.
  destruct (fs !! p_dir fn); [destruct (lookup_file fn fs)|];
    intros [= <- <-]; try reflexivity. apply insert_dir_stays.
Qed.

Lemma rename_stays (dir : string) (src dst : path) : respects (dir_stays dir) (rename src dst).
Proof.
  intros fs r fs'. unfold rename.
  destruct (fs !! p_dir src); [destruct (lookup_file src fs)|];
    [destruct (String.eqb _ _)| |]; intros [= <- <-]; try reflexivity.
  apply insert_dir_stays.
Qed.

Section merge_failure.
Context `{XArray}.

Lemma geodata_merge_period_stays (c : Geodata.cutout) (gh : bool) (ym : yearmonth) :
  keeps (archive_stays (Geodata.cutout_dir c)) (Geodata.merge_period c gh ym).
Proof.
  set (R := archive_stays (Geodata.cutout_dir c)). unfold Geodata.merge_period.
  apply (keeps_bind R).
  { apply stays_on_fs. intros fs r fs' Hr. apply glob_run_any in Hr as ->. reflexivity. }
  intros fns.
  assert (keeps R
            (ds ← on_fs (Geodata.open_mfdataset fns);
             ds ← (if gh then
                     m ← get_meta;
                     match getitem "height" (data_vars m) with
                     | Some height => mret (set_data_var "height" height ds)
                     | None => raise (KeyError "height")
                     end
                   else mret ds);
             on_fs (to_netcdf ds (Geodata.datasetfn c (Some ym)));;
             for_each fns (fun tfn => on_fs (unlink tfn)))) as Hmerge.
  { apply (keeps_bind R).
    { apply stays_on_fs. intros fs r fs' Hr. apply open_mfdataset_state in Hr as ->.
      reflexivity. }
    intros ds. apply (keeps_bind R).
    { destruct gh; [|apply (keeps_pure R)].
      apply (keeps_bind R); [by apply (keeps_read R)|]. intros m.
      destruct (getitem _ _); apply (keeps_pure R). }
    intros ds'. apply (keeps_bind R); [apply stays_on_fs, to_netcdf_stays|].
    intros _. apply (keeps_for_each R). intros tfn _. apply stays_on_fs, unlink_stays. }
  destruct fns as [|fn0 [|fn1 fns]]; [done| |done].
  destruct gh; [done|]. apply stays_on_fs, rename_stays.
Qed.

Lemma atlite_merge_period_stays (c : Atlite.cutout) (ym : yearmonth) :
  keeps (archive_stays (Atlite.cutout_dir c)) (Atlite.merge_period c ym).
Proof.
  set (R := archive_stays (Atlite.cutout_dir c)). unfold Atlite.merge_period.
  apply (keeps_bind R).
  { apply stays_on_fs, (respects_map_each (dir_stays _)). intros fn _.
    apply (respects_open_dataset (dir_stays _)). }
  intros datasets. apply (keeps_bind R).
  { destruct datasets; apply (keeps_pure R). }
  intros merged. apply (keeps_bind R); [apply stays_on_fs, to_netcdf_stays|].
  intros _. apply (keeps_for_each R). intros varfn _. apply stays_on_fs, unlink_stays.
Qed.

Lemma geodata_run_tasks_inv (c : Geodata.cutout) (tasks : list Geodata.task)
    (st1 st2 : cutout_state) :
  Geodata.run_tasks c tasks st1 = (Return tt, st2) ->
  exists rs,
    pool_map (fun t => Geodata.cutout_do_task t true) tasks (st_fs st1)
    = (Return rs, st_fs st2)
    /\ prepared st2 = prepared st1 /\ meta st2 = meta st1.
Proof.
  unfold Geodata.run_tasks, try_except.
  destruct ((on_fs (pool_map _ _);; mret ()) st1) as [[[]|e] st2'] eqn:Ebody.
  - intros [= ->]. apply bind_inv_return in Ebody as (rs & s & Hpool & [= ->]).
    apply on_fs_inv in Hpool. eauto.
  - intros Hh. apply bind_inv_return in Hh as (? & ? & _ & [=]).
Qed.

Lemma atlite_run_tasks_inv (c : Atlite.cutout) (tasks : list Atlite.task)
    (st1 st2 : cutout_state) :
  Atlite.run_tasks c tasks st1 = (Return tt, st2) ->
  exists rs,
    pool_map (fun t => Atlite.cutout_do_task t true) tasks (st_fs st1)
    = (Return rs, st_fs st2)
    /\ prepared st2 = prepared st1 /\ meta st2 = meta st1.
Proof.
  unfold Atlite.run_tasks, try_except.
  destruct ((on_fs (pool_map _ _);; mret ()) st1) as [[[]|e] st2'] eqn:Ebody.
  - intros [= ->]. apply bind_inv_return in Ebody as (rs & s & Hpool & [= ->]).
    apply on_fs_inv in Hpool. eauto.
  - intros Hh. apply bind_inv_return in Hh as (? & ? & _ & [=]).
Qed.

(** X19: when the tasks have run and the merge loop raises [e], in
    geodata and in atlite, [cutout_prepare] raises [e] and leaves the state
    in which the failing merge left it: the archive directory is still
    there, and the flag [prepared] is as before the call. *)
Theorem prepare_merge_failure_is_not_purged
    (c : Geodata.cutout) (nprocesses : option Z) (gebco_height : bool)
    (tasks : list Geodata.task)
    (c' : Atlite.cutout) (tasks' : list Atlite.task)
    (overwrite : bool) (st st1 st2 st3 : cutout_state) (e : exn) :
  prepared st && negb overwrite = false ->
  (Geodata.prepare_directory_and_tasks c nprocesses gebco_height st = (Return tasks, st1) ->
   Geodata.run_tasks c tasks st1 = (Return tt, st2) ->
   for_each (Geodata.yearmonths c) (Geodata.merge_period c gebco_height) st2
   = (Raise e, st3) ->
   Geodata.cutout_prepare c overwrite nprocesses gebco_height st = (Raise e, st3)
   /\ is_Some (st_fs st3 !! Geodata.cutout_dir c)
   /\ prepared st3 = prepared st)
  /\ (Atlite.prepare_directory_and_tasks c' st = (Return tasks', st1) ->
      Atlite.run_tasks c' tasks' st1 = (Return tt, st2) ->
      for_each (Atlite.yearmonths c') (Atlite.merge_period c') st2 = (Raise e, st3) ->
      Atlite.cutout_prepare c' overwrite st = (Raise e, st3)
      /\ is_Some (st_fs st3 !! Atlite.cutout_dir c')
      /\ prepared st3 = prepared st).
Proof.
  intros Hgo. split.
  - intros Hprep Hrun Hloop.
    destruct (geodata_prepare_directory_spec _ _ _ _ _ _ Hprep) as (Hfs & Hpr & _).
    destruct (geodata_run_tasks_inv _ _ _ _ Hrun) as (rs & Hpool & Hp2 & _).
    pose proof (keeps_for_each (archive_stays (Geodata.cutout_dir c)) _ _
                  (fun ym _ => geodata_merge_period_stays c gebco_height ym) _ _ _ Hloop)
      as [Hp3 Hd3].
    split; [|split; [|congruence]].
    + unfold Geodata.cutout_prepare, get_prepared. mrun. by rewrite Hgo, Hprep, Hrun, Hloop.
    + apply Hd3. apply (elem_of_dom (D := gset string)).
      rewrite (geodata_pool_same_dirs _ _ _ _ Hpool), Hfs, dom_insert_L.
      apply elem_of_union_l, elem_of_singleton. done.
  - intros Hprep Hrun Hloop.
    destruct (atlite_prepare_directory_spec _ _ _ _ Hprep) as (Hfs & Hpr & _).
    destruct (atlite_run_tasks_inv _ _ _ _ Hrun) as (rs & Hpool & Hp2 & _).
    pose proof (keeps_for_each (archive_stays (Atlite.cutout_dir c')) _ _
                  (fun ym _ => atlite_merge_period_stays c' ym) _ _ _ Hloop)
      as [Hp3 Hd3].
    split; [|split; [|congruence]].
    + unfold Atlite.cutout_prepare, get_prepared. mrun. by rewrite Hgo, Hprep, Hrun, Hloop.
    + apply Hd3. apply (elem_of_dom (D := gset string)).
      rewrite (atlite_pool_same_dirs _ _ _ _ Hpool), Hfs, dom_insert_L.
      apply elem_of_union_l, elem_of_singleton. done.
Qed.
End merge_failure.

(** *** The contents of the archive after a successful run *)

Global Instance file_kept_preorder p : PreOrder (file_kept p).
Proof.
  split.
  - by intros fs.
  - intros fs1 fs2 fs3 H12 H23. unfold file_kept in *. congruence.
Qed.

Lemma to_netcdf_file_kept (p fn : path) (ds : dataset) :
  fn <> p -> respects (file_kept p) (to_netcdf ds fn).
Proof.
  intros Hne fs r fs' Hr.
  destruct (lookup_file_to_netcdf _ _ p _ _ _ Hr) as [?|[-> _]]; done.
Qed.

Lemma unlink_loop_frame (dir : string) (names : list string) (st st' : cutout_state)
    (d : gmap string dataset) :
  st_fs st !! dir = Some d ->
  for_each (Path dir <$> names) (fun tfn => on_fs (unlink tfn)) st = (Return tt, st') ->
  exists d', st_fs st' !! dir = Some d' /\ forall n, n ∉ names -> d' !! n = d !! n.
Proof.
  revert st d. induction names as [|n0 names IH]; intros st d Hd.
  - intros [= <-]. exists d. done.
  - cbn [fmap list_fmap for_each]. intros Hrun.
    apply bind_inv_return in Hrun as ([] & st1 & Hu & Hrest).
    apply on_fs_inv in Hu as (Hu & _).
    unfold unlink, lookup_file in Hu. cbn [p_dir p_name] in Hu. rewrite Hd in Hu.
    cbn [mbind option_bind] in Hu. destruct (d !! n0) as [ds|]; [|done].
    injection Hu as Hu.
    destruct (IH st1 (delete n0 d)) as (d' & Hd' & Hother).
    + by rewrite <- Hu, lookup_insert_eq.
    + done.
    + exists d'. split; [done|]. intros n Hn.
      rewrite Hother by (intros ?; apply Hn; by right).
      apply lookup_delete_ne. intros ->. apply Hn. left.
Qed.

Section contents.
Context `{XArray}.

Lemma merge_period_frame (c : Geodata.cutout) (gh : bool) (ym : yearmonth)
    (st st' : cutout_state) (d : gmap string dataset) :
  st_fs st !! Geodata.cutout_dir c = Some d ->
  Geodata.merge_period c gh ym st = (Return tt, st') ->
  exists d', st_fs st' !! Geodata.cutout_dir c = Some d'
    /\ (forall n, n <> Geodata.final_name c ym ->
                  glob_match (Geodata.staging_pattern c ym) n = false ->
                  d' !! n = d !! n)
    /\ meta st' = meta st.
Proof.
  intros Hd. unfold Geodata.merge_period.
  cbn [Geodata.datasetfn p_dir p_name]. intros Hrun.
  rewrite bind_run, (glob_names_run c ym st d Hd) in Hrun.
  set (names := filter (fun n => glob_match (Geodata.staging_pattern c ym) n = true)
                       (elements (dom d))) in *.
  assert (forall n, glob_match (Geodata.staging_pattern c ym) n = false -> n ∉ names)
    as Hnot.
  { intros n Hn [_ Hm]%elem_of_glob_names. congruence. }
  assert ((ds ← on_fs (Geodata.open_mfdataset (Path (Geodata.cutout_dir c) <$> names));
           ds ← (if gh then
                   m ← get_meta;
                   match getitem "height" (data_vars m) with
                   | Some height => mret (set_data_var "height" height ds)
                   | None => raise (KeyError "height")
                   end
                 else mret ds);
           on_fs (to_netcdf ds (Path (Geodata.cutout_dir c) (Geodata.final_name c ym)));;
           for_each (Path (Geodata.cutout_dir c) <$> names)
                    (fun tfn => on_fs (unlink tfn))) st = (Return tt, st') ->
          exists d', st_fs st' !! Geodata.cutout_dir c = Some d'
            /\ (forall n, n <> Geodata.final_name c ym ->
                          glob_match (Geodata.staging_pattern c ym) n = false ->
                          d' !! n = d !! n)
            /\ meta st' = meta st) as Hmerge.
  { intros Hm. apply bind_inv_return in Hm as (ds & st1 & Ho & Hm).
    apply on_fs_inv in Ho as (Ho & Hp1 & Hm1).
    apply open_mfdataset_state in Ho.
    assert (st1 = st) as -> by (destruct st, st1; simpl in *; congruence).
    apply bind_inv_return in Hm as (ds' & st2 & Hh & Hm).
    assert (st2 = st) as ->.
    { destruct gh; [|by injection Hh as _ <-].
      revert Hh. unfold get_meta. mrun.
      destruct (getitem "height" (data_vars (meta st))); by intros [= _ <-]. }
    apply bind_inv_return in Hm as ([] & st3 & Hw & Hu).
    apply on_fs_inv in Hw as (Hw & Hp3 & Hm3).
    unfold to_netcdf in Hw. cbn [p_dir p_name] in Hw. rewrite Hd in Hw.
    injection Hw as Hw.
    destruct (unlink_loop_dom _ _ _ _ (<[Geodata.final_name c ym := ds']> d)
                ltac:(by rewrite <- Hw, lookup_insert_eq) Hu) as (_ & _ & _ & _ & Hm4).
    destruct (unlink_loop_frame _ _ _ _ (<[Geodata.final_name c ym := ds']> d)
                ltac:(by rewrite <- Hw, lookup_insert_eq) Hu) as (d' & Hd' & Hother).
    exists d'. split; [done|]. split; [|congruence].
    intros n Hn Hmatch. rewrite Hother by (by apply Hnot). by apply lookup_insert_ne. }
  destruct names as [|n0 [|n1 names']] eqn:En; cbn [fmap list_fmap] in *.
  - apply Hmerge. by destruct gh.
  - destruct gh; [by apply Hmerge|].
    apply on_fs_inv in Hrun as (Hr & Hp1 & Hm1).
    unfold rename, lookup_file in Hr. cbn [p_dir p_name] in Hr.
    rewrite Hd in Hr. cbn [mbind option_bind] in Hr.
    destruct (d !! n0) as [ds0|]; [|done].
    rewrite String.eqb_refl in Hr. injection Hr as Hr.
    eexists. split; [by rewrite <- Hr, lookup_insert_eq|]. split; [|done].
    intros n Hn Hmatch. rewrite lookup_insert_ne by done.
    apply lookup_delete_ne. intros ->. apply (Hnot _ Hmatch). left.
  - apply Hmerge. by destruct gh.
Qed.

Lemma merge_loop_frame (c : Geodata.cutout) (gh : bool) (todo : list yearmonth)
    (st st' : cutout_state) (d : gmap string dataset) (n : string) :
  st_fs st !! Geodata.cutout_dir c = Some d ->
  (forall ym, ym ∈ todo ->
     n <> Geodata.final_name c ym /\ glob_match (Geodata.staging_pattern c ym) n = false) ->
  for_each todo (Geodata.merge_period c gh) st = (Return tt, st') ->
  exists d', st_fs st' !! Geodata.cutout_dir c = Some d' /\ d' !! n = d !! n
             /\ meta st' = meta st.
Proof.
  revert st d. induction todo as [|ym todo IH]; intros st d Hd Hn.
  - intros [= <-]. exists d. done.
  - cbn [for_each]. intros Hrun.
    apply bind_inv_return in Hrun as ([] & st1 & Hstep & Hrest).
    destruct (merge_period_frame c gh ym st st1 d Hd Hstep) as (d1 & Hd1 & Hf1 & Hm1).
    destruct (IH st1 d1 Hd1) as (d' & Hd' & Hf' & Hm'); [|done|].
    + intros ym' Hin. apply Hn. by right.
    + exists d'. split; [done|]. split; [|congruence].
      rewrite Hf'. destruct (Hn ym ltac:(left)) as [Hne Hnm]. by apply Hf1.
Qed.

Lemma geodata_prepare_directory_meta (c : Geodata.cutout) (np : option Z) (gh : bool)
    (st st1 : cutout_state) (tasks : list Geodata.task) :
  Geodata.prepare_directory_and_tasks c np gh st = (Return tasks, st1) ->
  if gh then exists height, Geodata.gebco c = Return height
                            /\ meta st1 = set_data_var "height" height (meta st)
  else meta st1 = meta st.
Proof.
  unfold Geodata.prepare_directory_and_tasks. intros Hr.
  apply bind_inv_return in Hr as ([] & s0 & Hg & Hr).
  assert (if gh then exists height, Geodata.gebco c = Return height
                                    /\ meta s0 = set_data_var "height" height (meta st)
          else meta s0 = meta st) as Hs0.
  { destruct gh; [|by injection Hg as <-].
    revert Hg. cbn [when]. unfold get_meta, set_meta. mrun.
    destruct (Geodata.gebco c) as [h|e]; [|done]. intros [= <-]. eauto. }
  apply bind_inv_return in Hr as (is_dir & s1 & H1 & Hr). apply on_fs_inv in H1 as (_ & _ & Hm1).
  apply bind_inv_return in Hr as ([] & s2 & H2 & Hr).
  assert (meta s2 = meta s1) as Hm2.
  { destruct is_dir; [by apply on_fs_inv in H2 as (_ & _ & ?)|by injection H2 as <-]. }
  apply bind_inv_return in Hr as ([] & s3 & H3 & Hr). apply on_fs_inv in H3 as (_ & _ & Hm3).
  apply bind_inv_return in Hr as (m & s4 & H4 & Hr). injection H4 as <- <-.
  apply bind_inv_return in Hr as ([] & s5 & H5 & Hr). apply on_fs_inv in H5 as (_ & _ & Hm5).
  apply bind_inv_return in Hr as (tasks0 & s6 & H6 & Hr).
  apply geodata_collect_tasks_spec in H6 as [-> _].
  apply bind_inv_return in Hr as ([] & s7 & H7 & Hr).
  assert (s7 = s5) as ->.
  { revert H7. unfold Pool. destruct np as [n|]; [destruct (n <? 1)|]; by intros [= <-]. }
  injection Hr as _ <-.
  assert (meta s5 = meta s0) as Hm by congruence.
  destruct gh; [|congruence]. destruct Hs0 as (h & ? & ?). exists h. split; [done|congruence].
Qed.

Lemma geodata_prepare_inv (c : Geodata.cutout) (overwrite : bool) (np : option Z)
    (gh : bool) (st st' : cutout_state) :
  Geodata.cutout_prepare c overwrite np gh st = (Return None, st') ->
  exists tasks st1 st2 st3,
    Geodata.prepare_directory_and_tasks c np gh st = (Return tasks, st1)
    /\ Geodata.run_tasks c tasks st1 = (Return tt, st2)
    /\ for_each (Geodata.yearmonths c) (Geodata.merge_period c gh) st2 = (Return tt, st3)
    /\ st' = CutoutState (st_fs st3) true (meta st3).
Proof.
  unfold Geodata.cutout_prepare. intros Hrun.
  apply bind_inv_return in Hrun as (p & st0 & Hp & Hrun). injection Hp as <- <-.
  destruct (prepared st && negb overwrite); [discriminate|].
  apply bind_inv_return in Hrun as (tasks & st1 & Hprep & Hrun).
  apply bind_inv_return in Hrun as ([] & st2 & Htasks & Hrun).
  apply bind_inv_return in Hrun as ([] & st3 & Hloop & Hrun).
  apply bind_inv_return in Hrun as ([] & st4 & Hset & Hrun).
  injection Hrun as <-. injection Hset as <-. by exists tasks, st1, st2, st3.
Qed.

(** The archive directory when the tasks have run: the meta file as it
    was written, and staging files. *)
Lemma geodata_after_tasks (c : Geodata.cutout) (np : option Z) (gh : bool)
    (st st1 st2 : cutout_state) (tasks : list Geodata.task) :
  Geodata.naming_ok c = true ->
  Geodata.prepare_directory_and_tasks c np gh st = (Return tasks, st1) ->
  Geodata.run_tasks c tasks st1 = (Return tt, st2) ->
  exists d2, st_fs st2 !! Geodata.cutout_dir c = Some d2
    /\ merge_inv c [] d2
    /\ d2 !! Geodata.meta_name c = Some (Geodata.meta_clean c (meta st1))
    /\ meta st2 = meta st1.
Proof.
  intros Hok Hprep Hrun.
  destruct (geodata_prepare_directory_spec _ _ _ _ _ _ Hprep)
    as (Hfs1 & _ & series & tasks0 & Hser & Htf & ->).
  assert (Geodata.task_count c = length tasks0) as Hcount.
  { unfold Geodata.task_count. by rewrite Hser, Htf. }
  destruct (geodata_run_tasks_inv _ _ _ _ Hrun) as (rs & Hpool & _ & Hm2).
  pose proof (geodata_pool_writes_staging c tasks0 _ _ _ Hcount Hpool) as Hgrow.
  destruct (Hgrow _ ltac:(by rewrite Hfs1, lookup_insert_eq)) as (d2 & Hd2 & Hsub & Hw).
  exists d2. split; [done|]. split; [|split; [|done]].
  - split; [|split].
    + apply Hsub. rewrite dom_singleton_L. by apply elem_of_singleton.
    + intros ym []%elem_of_nil.
    + intros n Hn. destruct (Hw n Hn) as [Hn1|(i & ym & Hi & Hin & ->)].
      * left. rewrite dom_singleton_L in Hn1. by apply elem_of_singleton in Hn1.
      * right; right. exists i, ym. split; [done|]. split; [done|].
        split; [apply not_elem_of_nil|done].
  - assert (file_kept (Geodata.datasetfn c None) (st_fs st1) (st_fs st2)) as Hkept.
    { revert Hpool. unfold pool_map. apply (respects_map_each (file_kept _)).
      intros t (i & t0 & -> & Hi)%elem_of_lookup_imap.
      apply geodata_do_task_respects; [apply _|].
      intros d ym fn ds [= <-] Hl. apply lookup_datasetfns in Hl as [Hin ->].
      apply to_netcdf_file_kept. intros Heq. apply (f_equal p_name) in Heq.
      change (Geodata.staging_name c i ym = Geodata.meta_name c) in Heq.
      destruct (naming_ok_spec c ym Hok Hin) as (_ & Hpm & Hnames).
      destruct (Hnames ym Hin) as (_ & _ & Hst).
      assert (i < Geodata.task_count c)%nat as Hlt
        by (rewrite Hcount; by eapply lookup_lt_Some).
      destruct (Hst i Hlt) as [_ Hmatch]. specialize (Hmatch eq_refl). congruence. }
    unfold file_kept, lookup_file in Hkept. cbn [Geodata.datasetfn p_dir p_name] in Hkept.
    rewrite Hd2, Hfs1, lookup_insert_eq in Hkept. cbn [mbind option_bind] in Hkept.
    fold (Geodata.meta_name c) in Hkept. by rewrite lookup_singleton_eq in Hkept.
Qed.

(** X22: after a successful [cutout_prepare] of geodata on a cutout
    whose names pass [naming_ok], the meta file holds [meta_clean] of
    [cutout.meta], which is the meta of before the call, with the resampled
    [height] set when the overlay is asked for. *)
Theorem prepare_success_meta_file
    (c : Geodata.cutout) (overwrite : bool) (nprocesses : option Z)
    (gebco_height : bool) (st st' : cutout_state) :
  Geodata.naming_ok c = true ->
  Geodata.cutout_prepare c overwrite nprocesses gebco_height st = (Return None, st') ->
  lookup_file (Geodata.datasetfn c None) (st_fs st')
  = Some (Geodata.meta_clean c (meta st'))
  /\ if gebco_height
     then exists height, Geodata.gebco c = Return height
                         /\ meta st' = set_data_var "height" height (meta st)
     else meta st' = meta st.
Proof.
  intros Hok Hrun.
  apply geodata_prepare_inv in Hrun as (tasks & st1 & st2 & st3 & Hprep & Htasks & Hloop & ->).
  destruct (geodata_after_tasks c _ _ _ _ _ _ Hok Hprep Htasks) as (d2 & Hd2 & _ & Hmeta & Hm2).
  destruct (merge_loop_frame c gebco_height _ _ _ d2 (Geodata.meta_name c) Hd2
              (fun ym Hin => match naming_ok_spec c ym Hok Hin with
                             | conj Hfm (conj Hpm _) => conj (not_eq_sym Hfm) Hpm
                             end) Hloop)
    as (d3 & Hd3 & Hf3 & Hm3).
  cbn [st_fs meta]. split.
  - unfold lookup_file. cbn [Geodata.datasetfn p_dir p_name]. rewrite Hd3.
    cbn [mbind option_bind]. fold (Geodata.meta_name c). rewrite Hf3, Hmeta. congruence.
  - pose proof (geodata_prepare_directory_meta _ _ _ _ _ _ Hprep) as Hm1.
    destruct gebco_height.
    + destruct Hm1 as (h & ? & ?). exists h. split; [done|congruence].
    + congruence.
Qed.

Lemma filter_singleton {X} (P : X -> Prop) `{forall x, Decision (P x)} (l : list X) (x0 : X) :
  NoDup l -> x0 ∈ l -> P x0 -> (forall x, x ∈ l -> P x -> x = x0) -> filter P l = [x0].
Proof.
  intros Hnd Hin HP Huniq. induction Hnd as [|x l Hx Hnd IH]; [by apply elem_of_nil in Hin|].
  destruct (decide (P x)) as [HPx|HPx].
  - rewrite filter_cons_True by done.
    assert (x = x0) as -> by (apply Huniq; [left|done]).
    f_equal. apply filter_none. intros y Hy HPy.
    assert (y = x0) by (apply Huniq; [by right|done]). by subst y.
  - rewrite filter_cons_False by done. apply IH.
    + apply elem_of_cons in Hin as [->|?]; done.
    + intros y Hy. apply Huniq. by right.
Qed.

(** X20: in geodata without the overlay, on a cutout whose names pass
    [naming_ok], whose periods are distinct and whose directory has a path
    without any character that [glob] reads as a pattern: if after the
    tasks a period has the staging file of one task only, then after a
    successful [cutout_prepare] the final file of that period holds exactly
    the dataset of that staging file. *)
Theorem prepare_single_staging_file_round_trip
    (c : Geodata.cutout) (overwrite : bool) (nprocesses : option Z)
    (st st1 st2 st' : cutout_state) (tasks : list Geodata.task)
    (ym : yearmonth) (i : nat) (ds : dataset) :
  has_magic (Geodata.cutout_dir c) = false ->
  Geodata.naming_ok c = true -> NoDup (Geodata.yearmonths c) ->
  Geodata.prepare_directory_and_tasks c nprocesses false st = (Return tasks, st1) ->
  Geodata.run_tasks c tasks st1 = (Return tt, st2) ->
  Geodata.cutout_prepare c overwrite nprocesses false st = (Return None, st') ->
  ym ∈ Geodata.yearmonths c -> (i < Geodata.task_count c)%nat ->
  lookup_file (Geodata.datasetfn_with_id c i ym) (st_fs st2) = Some ds ->
  (forall j, (j < Geodata.task_count c)%nat -> j <> i ->
             lookup_file (Geodata.datasetfn_with_id c j ym) (st_fs st2) = None) ->
  lookup_file (Geodata.datasetfn c (Some ym)) (st_fs st') = Some ds.
Proof.
  intros _ Hok Hnd Hprep Htasks Hrun Hin Hi Hds Hothers.
  apply geodata_prepare_inv in Hrun
    as (tasks_ & st1_ & st2_ & st3 & Hprep_ & Htasks_ & Hloop & ->).
  rewrite Hprep in Hprep_. injection Hprep_ as <- <-.
  rewrite Htasks in Htasks_. injection Htasks_ as <-.
  destruct (geodata_after_tasks c _ _ _ _ _ _ Hok Hprep Htasks) as (d2 & Hd2 & Hinv2 & _).
  assert (forall j, d2 !! Geodata.staging_name c j ym
                    = lookup_file (Geodata.datasetfn_with_id c j ym) (st_fs st2)) as Hfile.
  { intros j. unfold lookup_file. rewrite datasetfn_with_id_dir, Hd2. done. }
  apply list_elem_of_split in Hin as (before & after & Hsplit).
  rewrite Hsplit in Hnd. apply NoDup_app in Hnd as (_ & Hba & Hnd).
  apply NoDup_cons in Hnd as [Hafter _].
  assert (ym ∉ before) as Hbefore by (intros Hb; apply (Hba _ Hb); left).
  assert (forall ym', ym' ∈ before -> ym' ∈ Geodata.yearmonths c) as Hbin
    by (intros ym' ?; rewrite Hsplit; by apply elem_of_app; left).
  assert (forall ym', ym' ∈ after -> ym' ∈ Geodata.yearmonths c) as Hain
    by (intros ym' ?; rewrite Hsplit; apply elem_of_app; right; by right).
  assert (ym ∈ Geodata.yearmonths c) as Hin
    by (rewrite Hsplit; apply elem_of_app; right; left).
  destruct (naming_ok_spec c ym Hok Hin) as (Hfm & Hpm & Hnames).
  rewrite Hsplit, for_each_app in Hloop.
  destruct (for_each before _ st2) as [[[]|e] sa] eqn:Ebefore; [|done].
  cbn [for_each] in Hloop.
  apply bind_inv_return in Hloop as ([] & sb & Hym & Hafter_run).
  (* the periods before [ym] *)
  destruct (merge_loop_inv c false before [] st2 sa d2 Hok Hbin
              ltac:(by intros ? ?%elem_of_nil) Hd2 Hinv2 Ebefore)
    as (da & Hda & (_ & _ & Hall) & _).
  rewrite app_nil_r in Hall.
  assert (forall j, (j < Geodata.task_count c)%nat ->
            da !! Geodata.staging_name c j ym = d2 !! Geodata.staging_name c j ym) as Hkept.
  { intros j Hj.
    assert (forall ym', ym' ∈ before ->
              Geodata.staging_name c j ym <> Geodata.final_name c ym'
              /\ glob_match (Geodata.staging_pattern c ym') (Geodata.staging_name c j ym)
                 = false) as Hcond.
    { intros ym' Hin'. destruct (naming_ok_spec c ym' Hok (Hbin _ Hin')) as (_ & _ & Hn').
      destruct (Hn' ym Hin) as (_ & _ & Hst). split.
      - intros Heq. destruct (Hnames ym' (Hbin _ Hin')) as (Hpf & _).
        destruct (Hnames ym Hin) as (_ & _ & Hst'). destruct (Hst' j Hj) as [_ Hm].
        specialize (Hm eq_refl). congruence.
      - apply not_true_is_false. intros Hm%(Hst j Hj). by subst ym'. }
    destruct (merge_loop_frame c false before st2 sa d2 _ Hd2 Hcond Ebefore)
      as (da' & Hda' & Hf & _).
    congruence. }
  assert (filter (fun n => glob_match (Geodata.staging_pattern c ym) n = true)
                 (elements (dom da)) = [Geodata.staging_name c i ym]) as Hone.
  { apply filter_singleton.
    - apply NoDup_elements.
    - apply elem_of_elements, elem_of_dom. rewrite (Hkept i Hi), Hfile, Hds. eauto.
    - destruct (Hnames ym Hin) as (_ & _ & Hst). by apply (Hst i Hi).
    - intros n Hn%elem_of_elements Hm.
      destruct (Hall n Hn) as [->|[(ym' & Hin' & ->)|(j & ym' & Hj & Hin' & _ & ->)]].
      + congruence.
      + rewrite elem_of_reverse in Hin'.
        destruct (Hnames ym' (Hbin _ Hin')) as (Hpf & _). congruence.
      + destruct (Hnames ym' Hin') as (_ & _ & Hst). apply (Hst j Hj) in Hm. subst ym'.
        destruct (decide (j = i)) as [->|Hne]; [done|].
        apply elem_of_dom in Hn as [x Hx].
        rewrite (Hkept j Hj), Hfile, (Hothers j Hj Hne) in Hx. done. }
  (* the period [ym] *)
  rewrite (merge_single_staging_file_is_renamed c ym sa da _ ds Hda Hone) in Hym
    by (by rewrite (Hkept i Hi), Hfile).
  injection Hym as <-.
  (* the periods after [ym] *)
  assert (forall ym', ym' ∈ after ->
            Geodata.final_name c ym <> Geodata.final_name c ym'
            /\ glob_match (Geodata.staging_pattern c ym') (Geodata.final_name c ym) = false)
    as Hcond.
  { intros ym' Hin'. destruct (naming_ok_spec c ym' Hok (Hain _ Hin')) as (_ & _ & Hn').
    destruct (Hn' ym Hin) as (Hpf & Hinj & _). split; [|done].
    intros Heq. symmetry in Heq. apply Hinj in Heq. by subst ym'. }
  destruct (merge_loop_frame c false after _ st3
              (<[Geodata.final_name c ym := ds]> (delete (Geodata.staging_name c i ym) da))
              (Geodata.final_name c ym) (lookup_insert_eq _ _ _) Hcond Hafter_run)
    as (d3 & Hd3 & Hf3 & _).
  unfold lookup_file. cbn [Geodata.datasetfn p_dir p_name st_fs]. rewrite Hd3.
  cbn [mbind option_bind]. fold (Geodata.final_name c ym). rewrite Hf3.
  apply lookup_insert_eq.
Qed.
End contents.

(** *** The metadata view *)

Example format_2011_03 : format_year_month (2011, 3) = "2011-03".
Proof. reflexivity. Qed.

Example zero_pad_negative : zero_pad 4 (-5) = "-005".
Proof. reflexivity. Qed.

Section view_properties.
Context {A D : Type} `{PyNum A} `{XArrayDataset D} `{XArraySel D A}.


Lemma py_take_empty {X} (i : Z) (idxs : list Z) :
  exists msg, py_take (@nil X) (i :: idxs) = Raise (IndexError msg).
Proof.
  cbn [py_take]. unfold py_index. cbn [length]. change (Z.of_nat 0) with 0.
  destruct (i <? 0) eqn:E.
  - apply Z.ltb_lt in E. replace (0 <=? i + 0) with false by lia. eauto.
  - rewrite E, andb_false_r. eauto.
Qed.

Lemma all_names_nonempty (l : list string) :
  forallb (fun d => 0 <? d) ((fun d => Z.of_nat (String.length d)) <$> l)
  = negb (bool_decide ("" ∈ l)).
Proof.
  induction l as [|d l IH]; [done|].
  cbn [fmap list_fmap forallb]. rewrite IH.
  destruct d as [|ch d]; cbn [String.length].
  - by rewrite (bool_decide_true ("" ∈ "" :: l)) by left.
  - assert ((0 <? Z.of_nat (S (String.length d))) = true) as -> by (apply Z.ltb_lt; lia).
    cbn [andb]. f_equal. apply bool_decide_ext. split; [by right|].
    by intros [[=]|?]%elem_of_cons.
Qed.

Lemma py_take_first_last {X} (l : list X) (a b : X) :
  head l = Some a -> list.last l = Some b -> py_take l [0; -1] = Return [a; b].
Proof.
  intros Ha Hb. rewrite head_lookup in Ha. rewrite last_lookup in Hb.
  pose proof (lookup_lt_Some _ _ _ Ha) as Hlen.
  unfold py_take, py_index.
  replace (0 <? 0) with false by lia. replace (-1 <? 0) with true by lia.
  replace ((0 <=? 0) && (0 <? Z.of_nat (length l))) with true by lia.
  replace ((0 <=? -1 + Z.of_nat (length l)) && (-1 + Z.of_nat (length l) <? Z.of_nat (length l)))
    with true by lia.
  change (Z.to_nat 0) with 0%nat.
  replace (Z.to_nat (-1 + Z.of_nat (length l))) with (Nat.pred (length l)) by lia.
  by rewrite Ha, Hb.
Qed.

(** The function once the first three calls of xarray have returned. *)
Lemma get_meta_view_run
    (lat_direction : bool) (meta : D) (xs ys : option (slice A))
    (years months : slice (option Z)) (attrs_view : option (view A))
    (m1 m2 m3 : D) :
  unstack meta = Return m1 ->
  sel m1 (SelIndexers years months (View xs (_prepare_lat_direction lat_direction <$> ys)))
  = Return m2 ->
  stack m2 = Return m3 ->
  cutout_get_meta_view lat_direction meta xs ys years months attrs_view
  = (ends ← call (py_take (year_month m3) [0; -1]);
     match ends with
     | [first; last] =>
         meta ← call (sel_time m3 (format_year_month first) (format_year_month last));
         let dim_len := (fun d => Z.of_nat (String.length d)) <$> dims meta in
         if forallb (fun d => 0 <? d) dim_len then mret (Some meta) else mret None
     | _ => raise (Exn "TypeError" ["slice expected at least 1 argument"])
     end)
      (Some (View xs (_prepare_lat_direction lat_direction <$> ys))).
Proof.
  intros Hu Hs Hk. unfold cutout_get_meta_view, view_setitem. mrun.
  destruct xs as [xs'|], ys as [ys'|];
    cbn [default from_option id view_x view_y fmap option_fmap option_map] in *;
    by rewrite Hu, Hs, Hk.
Qed.

(** X25: when the selection of years and months is empty,
    [cutout_get_meta_view] raises the [IndexError] of [[[0, -1]]]; it does
    not return [None]. *)
Theorem get_meta_view_empty_selection_raises
    (lat_direction : bool) (meta : D) (xs ys : option (slice A))
    (years months : slice (option Z)) (attrs_view : option (view A))
    (m1 m2 m3 : D) :
  unstack meta = Return m1 ->
  sel m1 (SelIndexers years months (View xs (_prepare_lat_direction lat_direction <$> ys)))
  = Return m2 ->
  stack m2 = Return m3 ->
  year_month m3 = [] ->
  exists msg attrs_view',
    cutout_get_meta_view lat_direction meta xs ys years months attrs_view
    = (Raise (IndexError msg), attrs_view').
Proof.
  intros Hu Hs Hk Hempty.
  rewrite (get_meta_view_run _ _ _ _ _ _ _ _ _ _ Hu Hs Hk), Hempty.
  destruct (py_take_empty (X := Z * Z) 0 [-1]) as [msg Hmsg].
  mrun. rewrite Hmsg. eauto.
Qed.

(** X26: when the selections succeed, [cutout_get_meta_view] returns
    the selected dataset unless a dimension has the empty string as its
    name: the test [len(d) > 0] goes over the names of the dimensions, and
    their lengths play no part. *)
Theorem get_meta_view_tests_dimension_names
    (lat_direction : bool) (meta : D) (xs ys : option (slice A))
    (years months : slice (option Z)) (attrs_view : option (view A))
    (m1 m2 m3 m4 : D) (first last : Z * Z) :
  unstack meta = Return m1 ->
  sel m1 (SelIndexers years months (View xs (_prepare_lat_direction lat_direction <$> ys)))
  = Return m2 ->
  stack m2 = Return m3 ->
  head (year_month m3) = Some first -> list.last (year_month m3) = Some last ->
  sel_time m3 (format_year_month first) (format_year_month last) = Return m4 ->
  exists attrs_view',
    cutout_get_meta_view lat_direction meta xs ys years months attrs_view
    = (Return (if decide ("" ∈ dims m4) then None else Some m4), attrs_view').
Proof.
  intros Hu Hs Hk Hfirst Hlast Hsel.
  rewrite (get_meta_view_run _ _ _ _ _ _ _ _ _ _ Hu Hs Hk).
  rewrite (py_take_first_last _ _ _ Hfirst Hlast).
  mrun. rewrite Hsel. cbv zeta. rewrite all_names_nonempty. eexists.
  by case_decide; [rewrite bool_decide_true|rewrite bool_decide_false].
Qed.
End view_properties.

(** *** The elevation overlay *)

Section gebco_properties.
Context {F : Type} `{PyFloat F} `{TempDir} `{Subprocess} `{XArrayReindex F}.

Lemma py_index_first {X} (l : list X) (a : X) :
  head l = Some a -> py_index l 0 = Return a.
Proof.
  intros Ha. rewrite head_lookup in Ha. pose proof (lookup_lt_Some _ _ _ Ha) as Hlen.
  unfold py_index. replace (0 <? 0) with false by lia.
  replace ((0 <=? 0) && (0 <? Z.of_nat (length l))) with true by lia.
  change (Z.to_nat 0) with 0%nat. by rewrite Ha.
Qed.

Lemma py_index_last {X} (l : list X) (b : X) :
  last l = Some b -> py_index l (-1) = Return b.
Proof.
  intros Hb. rewrite last_lookup in Hb. pose proof (lookup_lt_Some _ _ _ Hb) as Hlen.
  unfold py_index. replace (-1 <? 0) with true by lia.
  replace ((0 <=? -1 + Z.of_nat (length l)) && (-1 + Z.of_nat (length l) <? Z.of_nat (length l)))
    with true by lia.
  replace (Z.to_nat (-1 + Z.of_nat (length l))) with (Nat.pred (length l)) by lia.
  by rewrite Hb.
Qed.

(** The function up to the call of [gdalwarp], on a grid that is not
    empty. *)
Lemma gebco_run (config_gebco_path : path) (xs ys : list F) (gebco_fn : option path)
    (x0 y0 x1 y1 : F) (fs : filesystem) :
  head xs = Some x0 -> head ys = Some y0 -> last xs = Some x1 -> last ys = Some y1 ->
  let tmpdir := mkdtemp_name fs in
  _prepare_gebco_height config_gebco_path xs ys gebco_fn fs
  = (tmpfn ← try_except_OSError
       (ret ← subprocess_call
                (gebco_command xs ys x0 y0 x1 y1 (default config_gebco_path gebco_fn) tmpdir);
        if ret =? 0 then mret (Path tmpdir "resampled.nc") else raise gdalwarp_failed)
       (match gebco_fn with
        | None => mret config_gebco_path
        | Some _ => raise gebco_path_unbound
        end);
     ds_gebco ← open_dataset tmpfn;
     height ← call (reindex_height ds_gebco xs ys);
     rmtree tmpdir;;
     mret height) (<[tmpdir := ∅]> fs).
Proof.
  intros Hx0 Hy0 Hx1 Hy1 tmpdir. unfold _prepare_gebco_height, mkdtemp.
  rewrite bind_run. fold tmpdir. unfold call at 1 2 3 4.
  rewrite !bind_run.
  rewrite (py_index_first _ _ Hx0), (py_index_first _ _ Hy0),
    (py_index_last _ _ Hx1), (py_index_last _ _ Hy1).
  unfold gebco_command. by destruct gebco_fn.
Qed.

(** X27: on a grid that is not empty, when [gdalwarp] exits with a
    code other than zero [_prepare_gebco_height] raises [AssertionError],
    and when [gdalwarp] cannot be started and [gebco_fn] was given it raises
    [UnboundLocalError] (the fallback reads the local name [gebco_path],
    which only the import binds); in both cases the disk is left as
    [gdalwarp] left it, the temporary directory included. *)
Theorem gebco_failure_keeps_the_temporary_directory
    (config_gebco_path : path) (xs ys : list F) (gebco_fn : option path)
    (x0 y0 x1 y1 : F) (fs fs' : filesystem) (ret : Z) (e : exn) (fn : path) :
  head xs = Some x0 -> head ys = Some y0 -> last xs = Some x1 -> last ys = Some y1 ->
  let tmpdir := mkdtemp_name fs in
  let command := gebco_command xs ys x0 y0 x1 y1 (default config_gebco_path gebco_fn) tmpdir in
  (subprocess_call command (<[tmpdir := ∅]> fs) = (Return ret, fs') -> ret <> 0 ->
   _prepare_gebco_height config_gebco_path xs ys gebco_fn fs = (Raise gdalwarp_failed, fs'))
  /\ (subprocess_call command (<[tmpdir := ∅]> fs) = (Raise e, fs') -> is_OSError e = true ->
      gebco_fn = Some fn ->
      _prepare_gebco_height config_gebco_path xs ys gebco_fn fs
      = (Raise gebco_path_unbound, fs')).
Proof.
  intros Hx0 Hy0 Hx1 Hy1 tmpdir command. split.
  - intros Hcall Hret. rewrite (gebco_run _ _ _ _ _ _ _ _ _ Hx0 Hy0 Hx1 Hy1).
    fold tmpdir command. unfold try_except_OSError. rewrite !bind_run, Hcall.
    replace (ret =? 0) with false by lia. done.
  - intros Hcall He ->. rewrite (gebco_run _ _ _ _ _ _ _ _ _ Hx0 Hy0 Hx1 Hy1).
    fold tmpdir command. unfold try_except_OSError. rewrite !bind_run, Hcall, He. done.
Qed.

(** X28: on a grid that is not empty, when [gdalwarp] exits with zero
    and leaves the resampled file and no directory inside the temporary
    directory, [_prepare_gebco_height] returns the heights reindexed from
    that file and removes the temporary directory; when [gdalwarp] cannot be
    started and [gebco_fn] is [None], it reindexes the configured file
    itself and leaves the disk as it found it. *)
Theorem gebco_success_removes_the_temporary_directory
    (config_gebco_path : path) (xs ys : list F) (gebco_fn : option path)
    (x0 y0 x1 y1 : F) (fs fs' : filesystem) (e : exn)
    (ds : dataset) (height : data_array) :
  head xs = Some x0 -> head ys = Some y0 -> last xs = Some x1 -> last ys = Some y1 ->
  let tmpdir := mkdtemp_name fs in
  let command := gebco_command xs ys x0 y0 x1 y1 (default config_gebco_path gebco_fn) tmpdir in
  reindex_height ds xs ys = Return height ->
  (subprocess_call command (<[tmpdir := ∅]> fs) = (Return 0, fs') ->
   is_Some (fs' !! tmpdir) -> holds_files_only tmpdir fs' = true ->
   lookup_file (Path tmpdir "resampled.nc") fs' = Some ds ->
   _prepare_gebco_height config_gebco_path xs ys gebco_fn fs
   = (Return height, delete tmpdir fs'))
  /\ (subprocess_call command (<[tmpdir := ∅]> fs) = (Raise e, <[tmpdir := ∅]> fs) ->
      is_OSError e = true -> gebco_fn = None ->
      lookup_file config_gebco_path fs = Some ds -> p_dir config_gebco_path <> tmpdir ->
      _prepare_gebco_height config_gebco_path xs ys gebco_fn fs = (Return height, fs)).
Proof.
  intros Hx0 Hy0 Hx1 Hy1 tmpdir command Hre. split.
  - intros Hcall [d Hd] _ Hfile. rewrite (gebco_run _ _ _ _ _ _ _ _ _ Hx0 Hy0 Hx1 Hy1).
    fold tmpdir command. unfold try_except_OSError. rewrite !bind_run, Hcall.
    cbn [Z.eqb]. mrun. unfold open_dataset. rewrite Hfile, Hre.
    unfold rmtree. by rewrite Hd.
  - intros Hcall He -> Hfile Hdir. rewrite (gebco_run _ _ _ _ _ _ _ _ _ Hx0 Hy0 Hx1 Hy1).
    fold tmpdir command. unfold try_except_OSError. rewrite !bind_run, Hcall, He.
    mrun. unfold open_dataset.
    assert (lookup_file config_gebco_path (<[tmpdir := ∅]> fs) = Some ds) as ->.
    { unfold lookup_file. by rewrite lookup_insert_ne. }
    rewrite Hre. unfold rmtree. rewrite lookup_insert_eq.
    rewrite delete_insert_id; [done|]. apply mkdtemp_fresh.
Qed.
End gebco_properties.

(** *** The further properties at the scenarios *)


Lemma prepare_lat_direction_oriented_witness :
  oriented false (_prepare_lat_direction false (Slice 40 70 (Some 1))) = true
  /\ _prepare_lat_direction true (Slice 40 70 (Some 1)) = Slice 40 70 (Some 1)
  /\ step (_prepare_lat_direction false (Slice 40 70 (Some 1))) = Some (-1)
  /\ step (_prepare_lat_direction true (Slice 70 40 (Some (-1)))) = Some (-1).
Proof.
  destruct (prepare_lat_direction_oriented false (Slice 40 70 (Some 1))) as (Ho & _ & Hflip).
  destruct (prepare_lat_direction_oriented true (Slice 40 70 (Some 1))) as (_ & Hkeep & _).
  destruct (prepare_lat_direction_oriented true (Slice 70 40 (Some (-1)))) as (_ & _ & Hflip').
  split; [exact Ho|]. split; [exact (Hkeep eq_refl)|].
  split; [exact (proj2 (proj2 (Hflip eq_refl)))|exact (proj2 (proj2 (Hflip' eq_refl)))].
Defined.

Lemma get_meta_year_month_index_witness :
  exists meta,
    Geodata.cutout_get_meta Cases.monthly_probe (Slice 0 10 None) (Slice 70 40 None)
      (Slice 2011 2012 None) (Some (Slice 11 12 None)) ∅ = Return meta
    /\ md_year_month meta = [(2011, 11); (2011, 12); (2012, 11); (2012, 12)]
    /\ md_year meta = [2011; 2011; 2012; 2012]
    /\ md_month meta = [11; 12; 11; 12].
Proof.
  epose proof (get_meta_year_month_index Cases.monthly_probe (Slice 0 10 None)
                 (Slice 70 40 None) (Slice 2011 2012 None) (Some (Slice 11 12 None)) ∅ _
                 (or_introl _)) as (Hym & Hy & Hm & _).
  Unshelve. 3: { vm_compute. reflexivity. }
  eexists. split; [reflexivity|]. split; [exact Hym|]. split; [exact Hy|exact Hm].
Defined.

Lemma get_meta_monthly_time_axis_witness :
  exists meta,
    Geodata.cutout_get_meta Cases.monthly_probe (Slice 0 10 None) (Slice 70 40 None)
      (Slice 2011 2012 None) (Some (Slice 11 2 None)) ∅ = Return meta
    /\ length (md_time meta) = 4%nat.
Proof.
  destruct (get_meta_monthly_time_axis Cases.monthly_probe (Slice 0 10 None)
              (Slice 70 40 None) (Slice 2011 2012 None) (Some (Slice 11 2 None)) ∅
              (MetaDataset [] ∅ [] [] []) eq_refl eq_refl eq_refl eq_refl)
    as (meta & Hr & Hlen & _).
  - simpl. lia.
  - simpl. lia.
  - vm_compute. discriminate.
  - exists meta. split; [exact Hr|exact Hlen].
Defined.

Lemma get_meta_daily_time_axis_witness :
  exists meta,
    Geodata.cutout_get_meta Cases.hourly_probe (Slice 0 10 None) (Slice 70 40 None)
      (Slice 2011 2011 None) (Some (Slice 1 2 None)) ∅ = Return meta
    /\ head (md_time meta) = Some 1293861600000000000.
Proof.
  destruct (get_meta_daily_time_axis Cases.hourly_probe (Slice 0 10 None)
              (Slice 70 40 None) (Slice 2011 2011 None) (Some (Slice 1 2 None)) ∅
              (MetaDataset Cases.hourly_times ∅ [] [] [])
              Cases.feb_06h (Cases.feb_06h + 3 * ns_per_hour) (Cases.feb_06h + 9 * ns_per_hour)
              eq_refl eq_refl eq_refl eq_refl eq_refl eq_refl eq_refl)
    as (meta & Hr & Hhead & _).
  - simpl. lia.
  - simpl. lia.
  - vm_compute. discriminate.
  - vm_compute. discriminate.
  - vm_compute. discriminate.
  - vm_compute. discriminate.
  - exists meta. split; [exact Hr|exact Hhead].
Defined.

Lemma get_meta_daily_single_month_round_trip_witness :
  exists meta,
    Geodata.cutout_get_meta Cases.hourly_probe (Slice 0 10 None) (Slice 70 40 None)
      (Slice 2011 2011 None) (Some (Slice 2 2 None)) ∅ = Return meta
    /\ md_time meta = Cases.hourly_times.
Proof.
  destruct (get_meta_daily_single_month_round_trip Cases.hourly_probe (Slice 0 10 None)
              (Slice 70 40 None) 2011 2 None None ∅
              (MetaDataset Cases.hourly_times ∅ [] [] []) Cases.feb_06h 3 4
              eq_refl eq_refl eq_refl)
    as (meta & Hr & Ht).
  - lia.
  - lia.
  - reflexivity.
  - lia.
  - vm_compute. discriminate.
  - vm_compute. discriminate.
  - exists meta. split; [exact Hr|exact Ht].
Defined.

Lemma get_meta_ignores_probe_time_witness :
  Geodata.cutout_get_meta (with_probe_time [] Scenario.dailymeans_cutout)
    (Slice 0 10 None) (Slice 70 40 None) (Slice 2011 2011 None) (Some (Slice 1 2 None)) ∅
  = Geodata.cutout_get_meta Scenario.dailymeans_cutout
      (Slice 0 10 None) (Slice 70 40 None) (Slice 2011 2011 None) (Some (Slice 1 2 None)) ∅.
Proof.
  apply (get_meta_ignores_probe_time Scenario.dailymeans_cutout). left. reflexivity.
Defined.

Lemma geodata_daily_get_meta_is_atlite_witness :
  exists meta,
    Atlite.cutout_get_meta (meta_prepare_func Cases.hourly_probe) (Slice 0 10 None)
      (Slice 70 40 None) (Slice 2011 2011 None) (Some (Slice 2 2 None)) ∅ = Return meta
    /\ md_time meta = Cases.hourly_times.
Proof.
  eexists. split.
  - apply (geodata_daily_get_meta_is_atlite Cases.hourly_probe (Slice 0 10 None)
             (Slice 70 40 None) (Slice 2011 2011 None) (Some (Slice 2 2 None)) ∅ _ eq_refl).
    vm_compute. reflexivity.
  - reflexivity.
Defined.


Lemma do_task_reraises_provider_error_witness :
  Geodata.cutout_do_task Cases.silent_task false Scenario.archive_disk
  = (Raise (IndexError "tuple index out of range"), Scenario.archive_disk)
  /\ Geodata.cutout_do_task Scenario.failing_task false Scenario.archive_disk
     = (Raise (Exn "IOError" ["download failed"]), Scenario.archive_disk)
  /\ Atlite.cutout_do_task (Scenario.atl_task "prepare_silent" (Raise (Exn "RuntimeError" [])))
       false Scenario.archive_disk
     = (Raise (IndexError "tuple index out of range"), Scenario.archive_disk)
  /\ Atlite.cutout_do_task Cases.atl_sourced_task false Cases.gebco_disk
     = (Raise (Exn "IOError" ["download failed"]), Cases.gebco_disk)
  /\ Geodata.cutout_do_task Cases.lazy_failing_task true Scenario.archive_disk
     = (Raise (Exn "IOError" ["download failed"]),
        {["/data/europe" := {["201101-0.nc" := Scenario.series_ds "wnd" [0; 1] [5; 6]]}]})
  /\ Geodata.cutout_do_task Cases.lazy_failing_task false Scenario.archive_disk
     = (Return (Some (Generator
                        [(Scenario.jan, Some (Scenario.series_ds "wnd" [0; 1] [5; 6]))]
                        (Some (Exn "IOError" ["download failed"])))),
        Scenario.archive_disk).
Proof.
  split; [|split; [|split; [|split; [|split]]]].
  - apply (do_task_reraises_provider_error Cases.silent_task Scenario.atl_sparse_task false
             Scenario.archive_disk Scenario.archive_disk Scenario.archive_disk
             (Exn "RuntimeError" []) ∅ [] ∅ [] None); [reflexivity|discriminate].
  - apply (do_task_reraises_provider_error Scenario.failing_task Scenario.atl_sparse_task
             false Scenario.archive_disk Scenario.archive_disk Scenario.archive_disk
             (Exn "IOError" ["download failed"]) ∅ [] ∅ [] None);
      [reflexivity|discriminate].
  - apply (do_task_reraises_provider_error Cases.silent_task
             (Scenario.atl_task "prepare_silent" (Raise (Exn "RuntimeError" []))) false
             Scenario.archive_disk Scenario.archive_disk Scenario.archive_disk
             (Exn "RuntimeError" []) ∅ [] ∅ [] None);
      [by intros [? [=]]|reflexivity|discriminate].
  - apply (do_task_reraises_provider_error Cases.silent_task Cases.atl_sourced_task false
             Cases.gebco_disk Cases.gebco_disk Cases.gebco_disk
             (Exn "IOError" ["download failed"]) ∅ [] ∅ [] None);
      [intros _; vm_compute; eauto|reflexivity|discriminate].
  - apply (do_task_reraises_provider_error Cases.lazy_failing_task Scenario.atl_sparse_task
             true Scenario.archive_disk
             {["/data/europe" :=
                 {["201101-0.nc" := Scenario.series_ds "wnd" [0; 1] [5; 6]]}]}
             Scenario.archive_disk
             (Exn "IOError" ["download failed"]) Cases.jan_only
             [(Scenario.jan, Some (Scenario.series_ds "wnd" [0; 1] [5; 6]))] ∅ [] None);
      [reflexivity|reflexivity|].
    apply (bool_decide_unpack _). vm_compute. exact I.
  - apply (do_task_reraises_provider_error Cases.lazy_failing_task Scenario.atl_sparse_task
             false Scenario.archive_disk Scenario.archive_disk Scenario.archive_disk
             (Exn "IOError" ["download failed"]) ∅
             [(Scenario.jan, Some (Scenario.series_ds "wnd" [0; 1] [5; 6]))] ∅ []
             (Some (Exn "IOError" ["download failed"]))).
    reflexivity.
Defined.

Lemma atlite_do_task_dataset_without_variables_witness :
  Atlite.cutout_do_task Cases.atl_bare_task true Scenario.archive_disk
  = (Raise (IndexError "tuple index out of range"), Scenario.archive_disk).
Proof.
  apply (atlite_do_task_dataset_without_variables Cases.atl_bare_task
           {[Some Scenario.jan := Path "/data/europe" "201101.nc"]}
           (Eager (Some [(Some Scenario.jan, Some (Dataset [] [] []))]))
           [] [] (Some Scenario.jan) (Dataset [] [] []));
    [reflexivity|by intros [? [=]]|reflexivity|reflexivity|reflexivity|reflexivity].
Defined.

Lemma geodata_do_task_unknown_period_witness :
  Geodata.cutout_do_task Cases.stray_task true Scenario.archive_disk
  = (Raise (KeyError "(2011, 2)"),
     {["/data/europe" := {["201101-0.nc" := Scenario.series_ds "wnd" [0; 1] [5; 6]]}]}).
Proof.
  apply (geodata_do_task_unknown_period Cases.stray_task Cases.jan_only
           (Eager (Some [(Scenario.jan, Some (Scenario.series_ds "wnd" [0; 1] [5; 6]));
                         (Scenario.feb, Some (Scenario.series_ds "wnd" [2; 3] [7; 8]))]))
           [(Scenario.jan, Some (Scenario.series_ds "wnd" [0; 1] [5; 6]))] []
           Scenario.feb (Scenario.series_ds "wnd" [2; 3] [7; 8])).
  - reflexivity.
  - reflexivity.
  - reflexivity.
  - reflexivity.
  - apply (bool_decide_unpack _). vm_compute. exact I.
Defined.

Lemma geodata_do_task_last_write_wins_witness :
  lookup_file (Path "/data/europe" "201101-0.nc")
    (Geodata.cutout_do_task Cases.twice_task true Scenario.archive_disk).2
  = Some (Scenario.series_ds "wnd" [0; 1] [9; 9]).
Proof.
  destruct (geodata_do_task_last_write_wins Cases.twice_task Cases.jan_only
              (Eager (Some [(Scenario.jan, Some (Scenario.series_ds "wnd" [0; 1] [5; 6]));
                            (Scenario.jan, Some (Scenario.series_ds "wnd" [0; 1] [9; 9]))]))
              Scenario.archive_disk
              (Geodata.cutout_do_task Cases.twice_task true Scenario.archive_disk).2
              None (Path "/data/europe" "201101-0.nc")
              eq_refl eq_refl) as [_ Hfile].
  - apply outcome_fixes_run. vm_compute. reflexivity.
  - exact Hfile.
Defined.

Lemma glob_finds_what_a_task_writes_witness :
  exists fns fs',
    to_netcdf (Scenario.series_ds "wnd" [2; 3] [7; 8])
      (Geodata.datasetfn_with_id Scenario.halves_cutout 1 Scenario.jan) Scenario.archive_disk
    = (Return tt, fs')
    /\ glob "/data/europe" "201101-*.nc" fs' = (Return fns, fs')
    /\ Path "/data/europe" "201101-1.nc" ∈ fns.
Proof.
  assert (to_netcdf (Scenario.series_ds "wnd" [2; 3] [7; 8])
            (Geodata.datasetfn_with_id Scenario.halves_cutout 1 Scenario.jan)
            Scenario.archive_disk
          = (Return tt,
             (to_netcdf (Scenario.series_ds "wnd" [2; 3] [7; 8])
                (Geodata.datasetfn_with_id Scenario.halves_cutout 1 Scenario.jan)
                Scenario.archive_disk).2)) as Hw.
  { apply outcome_fixes_run. vm_compute. reflexivity. }
  destruct (glob_finds_what_a_task_writes Scenario.halves_cutout 1 Scenario.jan
              (Scenario.series_ds "wnd" [2; 3] [7; 8]) Scenario.archive_disk _
              eq_refl eq_refl Hw) as (fns & Hglob & Hin).
  exists fns. eexists. split; [exact Hw|]. split; [exact Hglob|exact Hin].
Defined.

Lemma glob_never_finds_the_final_file_witness :
  exists fns,
    glob "/data/europe" "201101-*.nc" (st_fs Scenario.staged)
    = (Return fns, st_fs Scenario.staged)
    /\ length fns = 2%nat
    /\ Path "/data/europe" "201101.nc" ∉ fns.
Proof.
  exists [Path "/data/europe" "201101-1.nc"; Path "/data/europe" "201101-0.nc"].
  assert (glob "/data/europe" "201101-*.nc" (st_fs Scenario.staged)
          = (Return [Path "/data/europe" "201101-1.nc"; Path "/data/europe" "201101-0.nc"],
             st_fs Scenario.staged)) as Hg.
  { apply (bool_decide_unpack _). vm_compute. exact I. }
  split; [exact Hg|]. split; [reflexivity|].
  exact (glob_never_finds_the_final_file Scenario.halves_cutout Scenario.jan
           (st_fs Scenario.staged) _ _ eq_refl eq_refl Hg).
Defined.

Lemma staging_files_are_separate_witness :
  Geodata.datasetfn_with_id Scenario.halves_cutout 0 Scenario.jan
  <> Geodata.datasetfn_with_id Scenario.halves_cutout 1 Scenario.jan.
Proof.
  apply (staging_files_are_separate Scenario.halves_cutout 0 1 Scenario.jan). lia.
Defined.


Lemma prepare_touches_only_cutout_dir_witness :
  st_fs (Geodata.cutout_prepare (H := XrRef.xarray) Scenario.halves_cutout true None false
           Cases.prepared_on_shared).2 !! "/data/other"
  = Some {["notes.nc" := Scenario.meta_ds]}.
Proof.
  destruct (prepare_touches_only_cutout_dir (H := XrRef.xarray) Scenario.halves_cutout
              true None Scenario.atl_failing_cutout Cases.prepared_on_shared
              (Geodata.cutout_prepare (H := XrRef.xarray) Scenario.halves_cutout true None
                 false Cases.prepared_on_shared).2
              Cases.prepared_on_shared
              (Geodata.cutout_prepare (H := XrRef.xarray) Scenario.halves_cutout true None
                 false Cases.prepared_on_shared).1
              (Return tt) "/data/other") as [Hg _].
  rewrite Hg; [reflexivity|reflexivity|apply surjective_pairing|reflexivity].
Defined.

Lemma prepare_never_clears_prepared_witness :
  let run := Geodata.cutout_prepare (H := XrRef.xarray) Scenario.failing_cutout true None
               false Scenario.already_prepared in
  run.1 = Raise (Exn "IOError" ["download failed"])
  /\ st_fs run.2 !! "/data/europe" = None
  /\ prepared run.2 = true.
Proof.
  intros run.
  destruct (prepare_never_clears_prepared (H := XrRef.xarray) Scenario.failing_cutout
              true None false Scenario.atl_failing_cutout Scenario.already_prepared
              run.2 Scenario.already_prepared run.1 (Return tt)) as [Hg _].
  split; [reflexivity|]. split; [reflexivity|].
  apply Hg. vm_compute. reflexivity.
Defined.


Lemma merge_without_staging_file_witness :
  Geodata.merge_period (H := XrRef.xarray) Cases.idle_cutout false Scenario.jan
    Scenario.already_prepared
  = (Raise Geodata.no_files_to_open, Scenario.already_prepared).
Proof.
  apply (merge_without_staging_file (H := XrRef.xarray)).
  apply (bool_decide_unpack _). vm_compute. exact I.
Defined.

Lemma prepare_merge_failure_is_not_purged_witness :
  exists st',
    Geodata.cutout_prepare (H := XrRef.xarray) Cases.idle_cutout false None false
      Scenario.fresh
    = (Raise Geodata.no_files_to_open, st')
    /\ is_Some (st_fs st' !! "/data/europe")
    /\ prepared st' = false.
Proof.
  pose (st1 := (Geodata.prepare_directory_and_tasks Cases.idle_cutout None false
                  Scenario.fresh).2).
  pose (st2 := (Geodata.run_tasks Cases.idle_cutout [] st1).2).
  pose (st3 := (for_each (Geodata.yearmonths Cases.idle_cutout)
                  (Geodata.merge_period (H := XrRef.xarray) Cases.idle_cutout false) st2).2).
  destruct (prepare_merge_failure_is_not_purged (H := XrRef.xarray) Cases.idle_cutout
              None false [] Scenario.atl_failing_cutout [] false Scenario.fresh st1 st2 st3
              Geodata.no_files_to_open eq_refl) as [Hg _].
  destruct Hg as (Hr & Hd & Hp).
  - apply outcome_fixes_run. vm_compute. reflexivity.
  - apply outcome_fixes_run. vm_compute. reflexivity.
  - apply outcome_fixes_run. vm_compute. reflexivity.
  - exists st3. split; [exact Hr|]. split; [exact Hd|exact Hp].
Defined.

Lemma prepare_single_staging_file_round_trip_witness :
  lookup_file (Path "/data/europe" "201102.nc")
    (st_fs (Geodata.cutout_prepare (H := XrRef.xarray) Scenario.monthly_cutout false None
              false Scenario.fresh).2)
  = Some (Scenario.series_ds "wnd" [2; 3] [7; 8]).
Proof.
  pose (tasks := [Geodata.set_datasetfns
                    (list_to_map ((fun ym => (ym, Geodata.datasetfn_with_id
                                                    Scenario.monthly_cutout 0 ym))
                                    <$> [Scenario.jan; Scenario.feb]))
                    Scenario.monthly_task]).
  pose (st1 := (Geodata.prepare_directory_and_tasks Scenario.monthly_cutout None false
                  Scenario.fresh).2).
  pose (st2 := (Geodata.run_tasks Scenario.monthly_cutout tasks st1).2).
  apply (prepare_single_staging_file_round_trip (H := XrRef.xarray)
           Scenario.monthly_cutout false None Scenario.fresh st1 st2 _ tasks
           Scenario.feb 0 (Scenario.series_ds "wnd" [2; 3] [7; 8])).
  - reflexivity.
  - vm_compute. reflexivity.
  - apply (bool_decide_unpack _). vm_compute. exact I.
  - apply outcome_fixes_run. reflexivity.
  - apply outcome_fixes_run. vm_compute. reflexivity.
  - apply outcome_fixes_run. vm_compute. reflexivity.
  - apply (bool_decide_unpack _). vm_compute. exact I.
  - vm_compute. lia.
  - vm_compute. reflexivity.
  - intros j Hj Hne. change (Geodata.task_count Scenario.monthly_cutout) with 1%nat in Hj.
    lia.
Defined.

Lemma merge_with_overlay_adds_height_witness :
  exists st' d',
    Geodata.merge_period (H := XrRef.xarray) Scenario.single_cutout true Scenario.jan
      Cases.staged_with_height = (Return tt, st')
    /\ st_fs st' !! "/data/europe" = Some d'
    /\ d' !! "201101.nc"
       = Some (Dataset [("time", DataArray ["time"] [0; 1])]
                 [("wnd", DataArray ["time"] [5; 6]); ("height", Cases.elevation)] []).
Proof.
  epose proof (merge_with_overlay_adds_height (H := XrRef.xarray) Scenario.single_cutout
                 Scenario.jan Cases.staged_with_height
                 {["meta.nc" := Scenario.meta_ds;
                   "201101-0.nc" := Scenario.series_ds "wnd" [0; 1] [5; 6]]}
                 [Scenario.series_ds "wnd" [0; 1] [5; 6]]
                 (Scenario.series_ds "wnd" [0; 1] [5; 6])) as Hm.
  destruct Hm as [_ Hok].
  { reflexivity. }
  { reflexivity. }
  { reflexivity. }
  { vm_compute. repeat constructor. }
  { vm_compute. discriminate. }
  { reflexivity. }
  destruct (Hok Cases.elevation) as (st' & d' & Hr & Hd & Hf & _).
  { reflexivity. }
  { vm_compute. reflexivity. }
  exists st', d'. split; [exact Hr|]. split; [exact Hd|exact Hf].
Defined.

Lemma prepare_success_meta_file_witness :
  lookup_file (Path "/data/europe" "meta.nc")
    (st_fs (Geodata.cutout_prepare (H := XrRef.xarray) Scenario.halves_cutout false None
              false Scenario.fresh).2)
  = Some Scenario.meta_ds.
Proof.
  destruct (prepare_success_meta_file (H := XrRef.xarray) Scenario.halves_cutout false
              None false Scenario.fresh
              (Geodata.cutout_prepare (H := XrRef.xarray) Scenario.halves_cutout false None
                 false Scenario.fresh).2) as [Hfile Hmeta].
  - vm_compute. reflexivity.
  - apply outcome_fixes_run. vm_compute. reflexivity.
  - exact Hfile.
Defined.

Lemma atlite_merge_stage_never_merges_witness :
  Atlite.merge_period Scenario.atl_two_series Scenario.jan Cases.atl_half_staged
  = (Raise (FileNotFoundError "/data/europe/201101_influx.nc"), Cases.atl_half_staged)
  /\ Atlite.merge_period Scenario.atl_two_series Scenario.jan Cases.atl_staged
     = (Raise (NameError "reduce"), Cases.atl_staged)
  /\ Atlite.yearmonths Cases.atl_no_period = [].
Proof.
  split; [|split].
  - destruct (atlite_merge_stage_never_merges Scenario.atl_two_series
                Scenario.jan Cases.atl_half_staged Cases.atl_half_staged
                ["wnd"] [] "influx" false) as (_ & Hmiss & _).
    apply Hmiss.
    + reflexivity.
    + intros k ->%list_elem_of_singleton. vm_compute. eauto.
    + vm_compute. reflexivity.
  - destruct (atlite_merge_stage_never_merges Scenario.atl_two_series
                Scenario.jan Cases.atl_staged Cases.atl_staged
                [] [] "wnd" false) as (Hall & _).
    apply Hall. intros k Hk.
    apply elem_of_cons in Hk as [->|Hk]; [vm_compute; eauto|].
    apply list_elem_of_singleton in Hk as ->. vm_compute. eauto.
  - destruct (atlite_merge_stage_never_merges Cases.atl_no_period
                Scenario.jan Scenario.fresh
                (Atlite.cutout_prepare Cases.atl_no_period false Scenario.fresh).2
                [] [] "wnd" false) as (_ & _ & Hret).
    apply Hret. apply outcome_fixes_run. vm_compute. reflexivity.
Defined.



Lemma get_meta_view_empty_selection_raises_witness :
  exists msg attrs_view',
    cutout_get_meta_view (H0 := Cases.view_dataset) (H1 := Cases.view_sel) false
      Cases.two_months (@None (slice Z)) None
      (Slice (Some 2015) (Some 2016) None) (Slice None None None) None
    = (Raise (IndexError msg), attrs_view').
Proof.
  eapply (get_meta_view_empty_selection_raises (H0 := Cases.view_dataset)
            (H1 := Cases.view_sel)); reflexivity.
Defined.

Lemma get_meta_view_tests_dimension_names_witness :
  exists attrs_view',
    cutout_get_meta_view (H0 := Cases.view_dataset) (H1 := Cases.view_sel) false
      Cases.two_months (@None (slice Z)) None
      (Slice (Some 2011) (Some 2011) None) (Slice (Some 2) (Some 2) None) None
    = (Return (Some (MetaDataset [] ∅ [2011] [1; 2] [(2011, 2)])), attrs_view').
Proof.
  eapply (get_meta_view_tests_dimension_names (H0 := Cases.view_dataset)
            (H1 := Cases.view_sel) false Cases.two_months None None _ _ None
            _ _ _ (MetaDataset [] ∅ [2011] [1; 2] [(2011, 2)])); reflexivity.
Defined.

Lemma gebco_failure_keeps_the_temporary_directory_witness :
  let tmpdir := Cases.tmp_name Cases.gebco_disk in
  _prepare_gebco_height (H := Cases.int_float) (H0 := Cases.named_after_the_disk)
    (H1 := Cases.gdalwarp_broken) (H2 := Cases.band1)
    Cases.gebco_file [0; 1; 2] [50; 40] None Cases.gebco_disk
  = (Raise gdalwarp_failed, <[tmpdir := ∅]> Cases.gebco_disk)
  /\ _prepare_gebco_height (H := Cases.int_float) (H0 := Cases.named_after_the_disk)
       (H1 := Cases.gdalwarp_missing) (H2 := Cases.band1)
       Cases.gebco_file [0; 1; 2] [50; 40] (Some Cases.gebco_file) Cases.gebco_disk
     = (Raise gebco_path_unbound, <[tmpdir := ∅]> Cases.gebco_disk).
Proof.
  intros tmpdir. split.
  - destruct (gebco_failure_keeps_the_temporary_directory (H := Cases.int_float)
                (H0 := Cases.named_after_the_disk) (H1 := Cases.gdalwarp_broken)
                (H2 := Cases.band1) Cases.gebco_file [0; 1; 2] [50; 40] None 0 50 2 40
                Cases.gebco_disk (<[tmpdir := ∅]> Cases.gebco_disk) 1
                (FileNotFoundError "gdalwarp") Cases.gebco_file
                eq_refl eq_refl eq_refl eq_refl) as [Hret _].
    apply Hret; [reflexivity|lia].
  - destruct (gebco_failure_keeps_the_temporary_directory (H := Cases.int_float)
                (H0 := Cases.named_after_the_disk) (H1 := Cases.gdalwarp_missing)
                (H2 := Cases.band1) Cases.gebco_file [0; 1; 2] [50; 40]
                (Some Cases.gebco_file) 0 50 2 40
                Cases.gebco_disk (<[tmpdir := ∅]> Cases.gebco_disk) 1
                (FileNotFoundError "gdalwarp") Cases.gebco_file
                eq_refl eq_refl eq_refl eq_refl) as [_ Hos].
    apply Hos; reflexivity.
Defined.

Lemma gebco_success_removes_the_temporary_directory_witness :
  _prepare_gebco_height (H := Cases.int_float) (H0 := Cases.named_after_the_disk)
    (H1 := Cases.gdalwarp_works) (H2 := Cases.band1)
    Cases.gebco_file [0; 1; 2] [50; 40] None Cases.gebco_disk
  = (Return Cases.elevation, Cases.gebco_disk)
  /\ _prepare_gebco_height (H := Cases.int_float) (H0 := Cases.named_after_the_disk)
       (H1 := Cases.gdalwarp_missing) (H2 := Cases.band1)
       Cases.gebco_file [0; 1; 2] [50; 40] None Cases.gebco_disk
     = (Return Cases.elevation, Cases.gebco_disk).
Proof.
  split.
  - destruct (gebco_success_removes_the_temporary_directory (H := Cases.int_float)
                (H0 := Cases.named_after_the_disk) (H1 := Cases.gdalwarp_works)
                (H2 := Cases.band1) Cases.gebco_file [0; 1; 2] [50; 40] None 0 50 2 40
                Cases.gebco_disk
                (<[Cases.tmp_name Cases.gebco_disk :=
                     {["resampled.nc" := Dataset [] [("Band1", Cases.elevation)] []]}]>
                   (<[Cases.tmp_name Cases.gebco_disk := ∅]> Cases.gebco_disk))
                (FileNotFoundError "gdalwarp")
                (Dataset [] [("Band1", Cases.elevation)] []) Cases.elevation
                eq_refl eq_refl eq_refl eq_refl eq_refl) as [Hok _].
    rewrite Hok.
    + apply (bool_decide_unpack _). vm_compute. exact I.
    + reflexivity.
    + apply (bool_decide_unpack _). vm_compute. exact I.
    + vm_compute. reflexivity.
    + vm_compute. reflexivity.
  - destruct (gebco_success_removes_the_temporary_directory (H := Cases.int_float)
                (H0 := Cases.named_after_the_disk) (H1 := Cases.gdalwarp_missing)
                (H2 := Cases.band1) Cases.gebco_file [0; 1; 2] [50; 40] None 0 50 2 40
                Cases.gebco_disk Cases.gebco_disk (FileNotFoundError "gdalwarp")
                (Dataset [] [("Band1", Cases.elevation)] []) Cases.elevation
                eq_refl eq_refl eq_refl eq_refl eq_refl) as [_ Hfb].
    apply Hfb; [reflexivity|reflexivity|reflexivity|reflexivity|].
    vm_compute. discriminate.
Defined.
